(** * CPUGPU: a verification development for the LCDSmartie CPU/GPU plugin

    The plugin (CPUGPU.cpp) answers string queries of the host with short
    display strings.  It reads CPU sensors through LibreHardwareMonitor and
    GPU sensors through NVML.  This file embeds the plugin in Rocq:

    - C data as the code has it: NUL-terminated strings, 32 and 64 bit
      integers with their wrap-around, IEEE 754 binary32 ([float]) and
      binary64 ([double]) arithmetic through the Standard Library's
      [SpecFloat], [snprintf] as an interpreter of the format strings that
      occur in the source;
    - the two vendor libraries as a record of answers ([Vendor]);
    - the process-wide state ([nvmlInitialized], [HardwareMonitor::computer])
      threaded through a small state-and-exception monad;
    - the exported functions [SmartieInit], [SmartieFini],
      [GetMinRefreshInterval], [function1], [function2].  *)

From Stdlib Require Import ZArith List String Ascii Bool Lia.
From Stdlib Require Import SpecFloat.
Import ListNotations.

Open Scope string_scope.
Open Scope Z_scope.

(* ================================================================= *)
(** ** C strings *)

(** A [char*] argument denotes the bytes before its terminator.  A Rocq
    string may hold a NUL byte; [c_str] cuts it there, as every C string
    function does. *)

Definition byte (c : ascii) : Z := Z.of_N (N_of_ascii c).

Fixpoint c_str (s : string) : string :=
  match s with
  | EmptyString => EmptyString
  | String c s' => if byte c =? 0 then EmptyString else String c (c_str s')
  end.

Definition head_byte (s : string) : Z :=
  match s with
  | EmptyString => 0
  | String c _ => byte c
  end.

Definition tail (s : string) : string :=
  match s with
  | EmptyString => EmptyString
  | String _ s' => s'
  end.

(** [strcmp]: difference of the first pair of bytes that differ, read as
    [unsigned char]; the comparison stops at a terminator. *)
Fixpoint strcmp (a b : string) : Z :=
  match a with
  | EmptyString => 0 - head_byte b
  | String x a' =>
      if byte x =? head_byte b
      then if byte x =? 0 then 0 else strcmp a' (tail b)
      else byte x - head_byte b
  end.

(** The test [strcmp(a, b) == 0] of the source. *)
Definition streq (a b : string) : bool := strcmp a b =? 0.

(* ================================================================= *)
(** ** Machine integers *)

Definition UINT_MODULUS : Z := 2 ^ 32.
Definition ULLONG_MODULUS : Z := 2 ^ 64.
Definition INT_MIN : Z := - 2 ^ 31.
Definition INT_MAX : Z := 2 ^ 31 - 1.

(** The value an [unsigned int] holds. *)
Definition uint (z : Z) : Z := z mod UINT_MODULUS.

(** The value an [unsigned long long] holds. *)
Definition ullong (z : Z) : Z := z mod ULLONG_MODULUS.

(* ================================================================= *)
(** ** IEEE 754 arithmetic *)

(** [float] is binary32 and [double] is binary64; every operation rounds to
    nearest, ties to even. *)
Module F32.
Definition prec : Z := 24.
Definition emax : Z := 128.
Definition of_Z (z : Z) : spec_float := binary_normalize prec emax z 0 false.
Definition div : spec_float -> spec_float -> spec_float := SFdiv prec emax.
Definition mul : spec_float -> spec_float -> spec_float := SFmul prec emax.
Definition zero : spec_float := S754_zero false.
End F32.

Module F64.
Definition prec : Z := 53.
Definition emax : Z := 1024.
Definition of_Z (z : Z) : spec_float := binary_normalize prec emax z 0 false.
Definition div : spec_float -> spec_float -> spec_float := SFdiv prec emax.
Definition add : spec_float -> spec_float -> spec_float := SFadd prec emax.
(** The literal [0.5]. *)
Definition half : spec_float := binary_normalize prec emax 1 (-1) false.
End F64.

(** How a build evaluates an expression of type [float].  The language
    leaves the format of the intermediate results to the implementation
    (its [FLT_EVAL_METHOD]): SSE code rounds every operation to binary32,
    x87 code keeps the intermediate results in a register, with the
    precision its control word selects and the exponent range of the
    extended format.  A value stored in a [float] variable is a binary32
    value in every build. *)
Inductive FloatEval : Type :=
| EvalFloat         (* every operation in binary32 *)
| EvalDouble        (* every operation in binary64 *)
| EvalX87Double     (* x87, precision control at 53 bits *)
| EvalX87Extended.  (* x87, precision control at 64 bits *)

Module Eval.
Definition prec (m : FloatEval) : Z :=
  match m with
  | EvalFloat => 24
  | EvalDouble | EvalX87Double => 53
  | EvalX87Extended => 64
  end.
Definition emax (m : FloatEval) : Z :=
  match m with
  | EvalFloat => 128
  | EvalDouble => 1024
  | EvalX87Double | EvalX87Extended => 16384
  end.
(** An [int] operand, converted for an operation on [float]s. *)
Definition of_Z (m : FloatEval) (z : Z) : spec_float :=
  binary_normalize (prec m) (emax m) z 0 false.
Definition div (m : FloatEval) : spec_float -> spec_float -> spec_float :=
  SFdiv (prec m) (emax m).
Definition mul (m : FloatEval) : spec_float -> spec_float -> spec_float :=
  SFmul (prec m) (emax m).
End Eval.

(** A value of the format: a mantissa of at most [prec] bits and an
    exponent of at most [emax - prec]. *)
Definition representable (prec emax : Z) (x : spec_float) : Prop :=
  match x with
  | S754_finite _ m e => Zpos m < 2 ^ prec /\ e <= emax - prec
  | _ => True
  end.

(** [x == y] and [x < y] on floating-point values. *)
Definition feq (x y : spec_float) : bool := SFeqb x y.
Definition flt (x y : spec_float) : bool := SFltb x y.

(** The integer part of a finite value, rounded toward zero. *)
Definition truncate (x : spec_float) : option Z :=
  match x with
  | S754_zero _ => Some 0
  | S754_finite s m e =>
      Some (cond_Zopp s
              (match e with
               | Z0 => Zpos m
               | Zpos p => Zpos m * 2 ^ Zpos p
               | Zneg p => Zpos m / 2 ^ Zpos p
               end))
  | S754_infinity _ | S754_nan => None
  end.

(** [static_cast<int>(x)]: truncation toward zero.  Where the truncated
    value does not fit (or [x] is an infinity or a NaN) the language leaves
    the result open; the x86 conversion instructions, which the targets of
    this plugin use, deliver the "integer indefinite" value [INT_MIN]. *)
Definition float_to_int (x : spec_float) : Z :=
  match truncate x with
  | Some z => if (INT_MIN <=? z) && (z <=? INT_MAX) then z else INT_MIN
  | None => INT_MIN
  end.

(** [(unsigned int)x] for a [double]: the 64-bit truncating conversion, of
    which the low 32 bits are kept. *)
Definition double_to_uint (x : spec_float) : Z :=
  match truncate x with
  | Some z => if (- 2 ^ 63 <=? z) && (z <? 2 ^ 63) then uint z else 0
  | None => 0
  end.

(* ================================================================= *)
(** ** snprintf *)

Definition digit_char (d : Z) : ascii := ascii_of_N (Z.to_N (48 + d)).

(** The decimal digits of [z], most significant first, put before [acc].
    [fuel] bounds the number of digits. *)
Fixpoint decimal_digits (fuel : nat) (z : Z) (acc : string) : string :=
  match fuel with
  | O => acc
  | S fuel' =>
      let acc' := String (digit_char (z mod 10)) acc in
      if z <? 10 then acc' else decimal_digits fuel' (z / 10) acc'
  end.

(** A number has no more decimal digits than binary ones. *)
Definition decimal (z : Z) : string :=
  decimal_digits (S (Z.to_nat (Z.log2 z))) z EmptyString.

(** The number a string of decimal digits denotes, read after [acc]. *)
Fixpoint decimal_value (acc : Z) (s : string) : Z :=
  match s with
  | EmptyString => acc
  | String c s' => decimal_value (10 * acc + (byte c - 48)) s'
  end.

Fixpoint zeros (n : nat) : string :=
  match n with
  | O => EmptyString
  | S n' => String "0" (zeros n')
  end.

(** [s], padded with zeros on the left to [n] characters. *)
Definition pad_left (n : nat) (s : string) : string :=
  zeros (n - String.length s) ++ s.

(** The integer nearest to [num / den] (for [den > 0] and [num >= 0]),
    ties to even. *)
Definition round_half_even (num den : Z) : Z :=
  let q := num / den in
  let r := num mod den in
  match 2 * r ?= den with
  | Lt => q
  | Gt => q + 1
  | Eq => if Z.even q then q else q + 1
  end.

Definition sign_text (s : bool) : string := if s then "-" else "".

(** The conversion [%.<d>f]: the exact value of the argument, rounded to
    [d] decimals. *)
Definition fixed (d : nat) (x : spec_float) : string :=
  match x with
  | S754_nan => "nan"
  | S754_infinity s => sign_text s ++ "inf"
  | S754_zero s => sign_text s ++ "0." ++ zeros d
  | S754_finite s m e =>
      let scale := 10 ^ Z.of_nat d in
      let n :=
        match e with
        | Z0 => Zpos m * scale
        | Zpos p => Zpos m * 2 ^ Zpos p * scale
        | Zneg p => round_half_even (Zpos m * scale) (2 ^ Zpos p)
        end in
      sign_text s ++ decimal (n / scale) ++ "."
        ++ pad_left d (decimal (n mod scale))
  end.

(** Arguments of the variadic call. *)
Inductive printf_arg : Type :=
| ArgInt (z : Z)              (* an [int] or [unsigned int] *)
| ArgStr (s : string)         (* a [const char*] *)
| ArgDouble (x : spec_float). (* a [float], promoted to [double] *)

Definition digit_of (c : ascii) : option nat :=
  let n := (N.to_nat (N_of_ascii c) - 48)%nat in
  if (48 <=? byte c) && (byte c <=? 57) then Some n else None.

(** The directives the source uses: [%u], [%s], [%%], [%.Nf].  Any other
    directive, or an argument of the wrong kind, ends the output. *)
Fixpoint format (fmt : string) (args : list printf_arg) : string :=
  match fmt with
  | EmptyString => EmptyString
  | String "%" (String "%" rest) => String "%" (format rest args)
  | String "%" (String "u" rest) =>
      match args with
      | ArgInt z :: args' => decimal (uint z) ++ format rest args'
      | _ => EmptyString
      end
  | String "%" (String "s" rest) =>
      match args with
      | ArgStr s :: args' => c_str s ++ format rest args'
      | _ => EmptyString
      end
  | String "%" (String "." (String d (String "f" rest))) =>
      match digit_of d, args with
      | Some n, ArgDouble x :: args' => fixed n x ++ format rest args'
      | _, _ => EmptyString
      end
  | String "%" _ => EmptyString
  | String c rest => String c (format rest args)
  end.

(** [snprintf(buf, size, fmt, ...)] leaves in [buf] the first [size - 1]
    characters of the formatted text. *)
Definition snprintf (size : nat) (fmt : string) (args : list printf_arg) : string :=
  substring 0 (size - 1) (format fmt args).

(* ================================================================= *)
(** ** The vendor libraries *)

(** Modelled from the spec: LibreHardwareMonitor's [SensorType] enumeration
    is declared in the vendor's assembly.  The five tags the plugin tests
    are named; every other tag is an [Other]. *)
Module SensorType.
Inductive t : Type := Load | Power | Temperature | Fan | Clock | Other (tag : nat).

Definition eqb (a b : t) : bool :=
  match a, b with
  | Load, Load | Power, Power | Temperature, Temperature
  | Fan, Fan | Clock, Clock => true
  | Other m, Other n => Nat.eqb m n
  | _, _ => false
  end.
End SensorType.

(** Modelled from the spec: LibreHardwareMonitor's [HardwareType]
    enumeration, of which the plugin tests [Cpu] only. *)
Module HardwareType.
Inductive t : Type := Cpu | Motherboard | SuperIO | Other (tag : nat).

Definition eqb (a b : t) : bool :=
  match a, b with
  | Cpu, Cpu | Motherboard, Motherboard | SuperIO, SuperIO => true
  | Other m, Other n => Nat.eqb m n
  | _, _ => false
  end.
End HardwareType.

(** [ISensor]: a typed, named reading; [Value] is a [Nullable<float>]. *)
Record ISensor : Type := mkSensor {
  SensorType : SensorType.t;
  Name : string;
  Value : option spec_float
}.

(** [IHardware]: a device with its sensors and its sub-devices. *)
#[local] Set Warnings "-register-all".
Inductive IHardware : Type :=
  mkHardware (type : HardwareType.t) (sensors : list ISensor)
             (subs : list IHardware).

Definition HardwareType (h : IHardware) : HardwareType.t :=
  match h with mkHardware t _ _ => t end.
Definition Sensors (h : IHardware) : list ISensor :=
  match h with mkHardware _ s _ => s end.
Definition SubHardware (h : IHardware) : list IHardware :=
  match h with mkHardware _ _ l => l end.

(** [Nullable<float>::GetValueOrDefault(d)]. *)
Definition GetValueOrDefault (v : option spec_float) (d : spec_float) : spec_float :=
  match v with
  | Some x => x
  | None => d
  end.

(** [String::Contains]: [sub] occurs in [s]. *)
Fixpoint Contains (s sub : string) : bool :=
  prefix sub s ||
  match s with
  | EmptyString => false
  | String _ s' => Contains s' sub
  end.

(** [Computer]: the root of the hardware tree. *)
Record Computer : Type := mkComputer {
  IsCpuEnabled : bool;
  IsMotherboardEnabled : bool;
  IsOpen : bool;
  Hardware : list IHardware
}.

(** NVML status codes; [NVML_SUCCESS] is 0 in nvml.h. *)
Definition nvmlReturn_t : Type := Z.
Definition NVML_SUCCESS : nvmlReturn_t := 0.
Definition nvmlDevice_t : Type := Z.

Record nvmlMemory_t : Type := mkMemory {
  total : Z;
  free : Z;
  used : Z
}.

Record nvmlUtilization_t : Type := mkUtilization {
  gpu : Z;
  memory : Z
}.

Inductive nvmlClockType_t : Type := NVML_CLOCK_GRAPHICS | NVML_CLOCK_MEM.
Inductive nvmlClockId_t : Type := NVML_CLOCK_ID_CURRENT.
Inductive nvmlTemperatureSensors_t : Type := NVML_TEMPERATURE_GPU.

(** NVML clock throttle reasons constants. *)
Definition NVML_CLK_THROTTLE_REASON_THERMAL_LIMIT : Z := 2.
Definition NVML_CLK_THROTTLE_REASON_RELIABILITY : Z := 4.
Definition NVML_CLK_THROTTLE_REASON_SW_POWER_CAP : Z := 8.

(** What a call ends with: a value, or a managed exception that leaves the
    function (its [Message] is kept). *)
Inductive Outcome (A : Type) : Type :=
| Ret (a : A)
| Throw (message : string).
Arguments Ret {A} a.
Arguments Throw {A} message.

(** The answers of the outside world during one call of an exported
    function.  The plugin owns none of this: the operating system, the
    LibreHardwareMonitor assembly and the NVML library are taken as given,
    and every theorem below holds for all their answers. *)
Record Vendor : Type := mkVendor {
  (* the compiler and the processor: how an expression of type [float] is
     evaluated *)
  FLT_EVAL_METHOD : FloatEval;
  (* Windows *)
  IsRunningAsAdmin : bool;
  (* LibreHardwareMonitor: what [Computer::Open] enumerates for the enabled
     groups, or the exception it throws, and what the [Computer] lists as
     its [Hardware] after an [Open] that threw; the node as
     [IHardware::Update] leaves it *)
  Computer_Open : bool -> bool -> Outcome (list IHardware);
  Computer_Open_leaves : bool -> bool -> list IHardware;
  Update : IHardware -> IHardware;
  (* NVML: a status and, on success, the value written through the
     out-parameter *)
  nvmlInit : nvmlReturn_t;
  nvmlErrorString : nvmlReturn_t -> string;
  nvmlDeviceGetHandleByIndex : Z -> nvmlReturn_t * nvmlDevice_t;
  nvmlDeviceGetTemperature :
    nvmlDevice_t -> nvmlTemperatureSensors_t -> nvmlReturn_t * Z;
  nvmlDeviceGetCurrentClocksThrottleReasons : nvmlDevice_t -> nvmlReturn_t * Z;
  nvmlDeviceGetFanSpeed : nvmlDevice_t -> nvmlReturn_t * Z;
  nvmlDeviceGetPowerUsage : nvmlDevice_t -> nvmlReturn_t * Z;
  nvmlDeviceGetClock :
    nvmlDevice_t -> nvmlClockType_t -> nvmlClockId_t -> nvmlReturn_t * Z;
  nvmlDeviceGetMemoryInfo : nvmlDevice_t -> nvmlReturn_t * nvmlMemory_t;
  nvmlDeviceGetUtilizationRates : nvmlDevice_t -> nvmlReturn_t * nvmlUtilization_t
}.

(* ================================================================= *)
(** ** The state of the process *)

(** Calls that act on the outside: resources taken or released, notices
    shown to the user.  Newest first. *)
Inductive Event : Type :=
| EvNewComputer
| EvComputerOpen
| EvComputerClose
| EvNvmlInit
| EvNvmlShutdown
| EvMessageBox (text caption : string).

Record World : Type := mkWorld {
  nvmlInitialized : bool;          (* static bool nvmlInitialized *)
  computer : option Computer;      (* HardwareMonitor::computer; None is nullptr *)
  events : list Event
}.

Definition initial_world : World :=
  {| nvmlInitialized := false; computer := None; events := [] |}.

(** The three configuration constants of the source.  They are fixed when
    the plugin is built; [source_config] holds the values the source ships
    with. *)
Record Config : Type := mkConfig {
  CPU_FAN : Z;       (* index of the CPU fan *)
  CPU_SPEED : Z;     (* maximum CPU fan speed in RPM *)
  MIN_INTERVAL : Z   (* minimum refresh interval in milliseconds *)
}.

Definition source_config : Config :=
  {| CPU_FAN := 2; CPU_SPEED := 1800; MIN_INTERVAL := 300 |}.

(** State and exceptions. *)
Definition M (A : Type) : Type := World -> Outcome A * World.

Definition ret {A} (a : A) : M A := fun w => (Ret a, w).

Definition bind {A B} (m : M A) (k : A -> M B) : M B :=
  fun w =>
    match m w with
    | (Ret a, w') => k a w'
    | (Throw e, w') => (Throw e, w')
    end.

Definition throw {A} (e : string) : M A := fun w => (Throw e, w).

(** [try { m } catch (System::Exception^ ex) { h ex->Message }]. *)
Definition try_catch {A} (m : M A) (h : string -> M A) : M A :=
  fun w =>
    match m w with
    | (Ret a, w') => (Ret a, w')
    | (Throw e, w') => h e w'
    end.

Definition emit (e : Event) : M unit :=
  fun w => (Ret tt, {| nvmlInitialized := nvmlInitialized w;
                       computer := computer w;
                       events := e :: events w |}).

Definition set_computer (c : option Computer) : M unit :=
  fun w => (Ret tt, {| nvmlInitialized := nvmlInitialized w;
                       computer := c;
                       events := events w |}).

Definition set_nvmlInitialized (b : bool) : M unit :=
  fun w => (Ret tt, {| nvmlInitialized := b;
                       computer := computer w;
                       events := events w |}).

Definition get_computer : M (option Computer) := fun w => (Ret (computer w), w).
Definition get_nvmlInitialized : M bool := fun w => (Ret (nvmlInitialized w), w).

Declare Scope monad_scope.
Delimit Scope monad_scope with monad.
Notation "x <- m ;; k" := (bind m (fun x => k))
  (at level 61, m at next level, right associativity) : monad_scope.
Notation "m ;; k" := (bind m (fun _ => k))
  (at level 61, right associativity) : monad_scope.
Open Scope monad_scope.

Definition MessageBoxA (text caption : string) : M unit :=
  emit (EvMessageBox (c_str text) (c_str caption)).

(* ================================================================= *)
(** ** HardwareMonitor *)

Definition NullReferenceException : string :=
  "Object reference not set to an instance of an object.".
Definition DivideByZeroException : string :=
  "Attempted to divide by zero.".

(** A field assignment [computer->f = ...]. *)
Definition modify_computer (f : Computer -> Computer) : M unit :=
  c <- get_computer ;;
  match c with
  | Some c => set_computer (Some (f c))
  | None => throw NullReferenceException
  end.

(** [gcnew Computer()]. *)
Definition new_Computer : M Computer :=
  emit EvNewComputer ;;
  ret {| IsCpuEnabled := false; IsMotherboardEnabled := false;
         IsOpen := false; Hardware := [] |}.

(** [computer->Open()]. *)
Definition Open (v : Vendor) : M unit :=
  c <- get_computer ;;
  match c with
  | Some c =>
      emit EvComputerOpen ;;
      match Computer_Open v (IsCpuEnabled c) (IsMotherboardEnabled c) with
      | Ret hw =>
          set_computer (Some {| IsCpuEnabled := IsCpuEnabled c;
                                IsMotherboardEnabled := IsMotherboardEnabled c;
                                IsOpen := true; Hardware := hw |})
      | Throw e =>
          set_computer (Some {| IsCpuEnabled := IsCpuEnabled c;
                                IsMotherboardEnabled := IsMotherboardEnabled c;
                                IsOpen := IsOpen c;
                                Hardware :=
                                  Computer_Open_leaves v (IsCpuEnabled c)
                                                       (IsMotherboardEnabled c) |}) ;;
          throw e
      end
  | None => throw NullReferenceException
  end.

(** [HardwareMonitor::Initialize]. *)
Definition Initialize (v : Vendor) : M unit :=
  c <- get_computer ;;
  match c with
  | None =>
      c <- new_Computer ;;
      set_computer (Some c) ;;
      modify_computer (fun c => {| IsCpuEnabled := true;
                                   IsMotherboardEnabled := IsMotherboardEnabled c;
                                   IsOpen := IsOpen c; Hardware := Hardware c |}) ;;
      modify_computer (fun c => {| IsCpuEnabled := IsCpuEnabled c;
                                   IsMotherboardEnabled := true;
                                   IsOpen := IsOpen c; Hardware := Hardware c |}) ;;
      Open v
  | Some _ => ret tt
  end.

(** [HardwareMonitor::Close]. *)
Definition Close : M unit :=
  c <- get_computer ;;
  match c with
  | Some _ => emit EvComputerClose ;; set_computer None
  | None => ret tt
  end.

(** [HardwareMonitor::computer->Hardware]. *)
Definition computer_Hardware : M (list IHardware) :=
  c <- get_computer ;;
  match c with
  | Some c => ret (Hardware c)
  | None => throw NullReferenceException
  end.

(* ================================================================= *)
(** ** CPU sensor lookup *)

(** The loop shared by [GetCpuLoad], [GetCpuPower], [GetCpuTemperature] and
    [GetCpuFrequency]: every node of type [Cpu] is refreshed, then its
    sensors are scanned for the first one that [wanted] accepts. *)
Fixpoint scan_cpu (v : Vendor) (wanted : ISensor -> bool)
         (hs : list IHardware) : option ISensor :=
  match hs with
  | [] => None
  | hardware :: rest =>
      if HardwareType.eqb (HardwareType hardware) HardwareType.Cpu then
        match find wanted (Sensors (Update v hardware)) with
        | Some sensor => Some sensor
        | None => scan_cpu v wanted rest
        end
      else scan_cpu v wanted rest
  end.

Definition is_cpu_load (sensor : ISensor) : bool :=
  SensorType.eqb (SensorType sensor) SensorType.Load
  && (Name sensor =? "CPU Total")%string.

Definition is_cpu_power (sensor : ISensor) : bool :=
  SensorType.eqb (SensorType sensor) SensorType.Power
  && Contains (Name sensor) "Package".

Definition is_cpu_temperature (sensor : ISensor) : bool :=
  SensorType.eqb (SensorType sensor) SensorType.Temperature
  && (Name sensor =? "CPU Package")%string.

Definition is_cpu_clock (sensor : ISensor) : bool :=
  SensorType.eqb (SensorType sensor) SensorType.Clock
  && (Name sensor =? "CPU Core #1")%string.

Definition GetCpuLoad (v : Vendor) : M Z :=
  Initialize v ;;
  hs <- computer_Hardware ;;
  match scan_cpu v is_cpu_load hs with
  | Some sensor => ret (float_to_int (GetValueOrDefault (Value sensor) F32.zero))
  | None => ret (-1)
  end.

Definition GetCpuPower (v : Vendor) : M Z :=
  Initialize v ;;
  hs <- computer_Hardware ;;
  match scan_cpu v is_cpu_power hs with
  | Some sensor => ret (float_to_int (GetValueOrDefault (Value sensor) F32.zero))
  | None => ret (-1)
  end.

Definition GetCpuTemperature (v : Vendor) : M Z :=
  Initialize v ;;
  hs <- computer_Hardware ;;
  match scan_cpu v is_cpu_temperature hs with
  | Some sensor => ret (float_to_int (GetValueOrDefault (Value sensor) F32.zero))
  | None => ret (-1)
  end.

(** The three nested loops of the fan lookups.  [inl s]: the sensor at
    which the loop returns; [inr n]: the loop ran out with the counter
    [currentFanIndex] at [n].  The counter is an [int]; it counts sensors of
    one machine and stays far from [INT_MAX]. *)
Fixpoint fan_in_sensors (fanIndex currentFanIndex : Z)
         (l : list ISensor) : ISensor + Z :=
  match l with
  | [] => inr currentFanIndex
  | subSensor :: rest =>
      if SensorType.eqb (SensorType subSensor) SensorType.Fan then
        if currentFanIndex =? fanIndex then inl subSensor
        else fan_in_sensors fanIndex (currentFanIndex + 1) rest
      else fan_in_sensors fanIndex currentFanIndex rest
  end.

Fixpoint fan_in_subs (v : Vendor) (fanIndex currentFanIndex : Z)
         (l : list IHardware) : ISensor + Z :=
  match l with
  | [] => inr currentFanIndex
  | subHardware :: rest =>
      match fan_in_sensors fanIndex currentFanIndex
                           (Sensors (Update v subHardware)) with
      | inl s => inl s
      | inr n => fan_in_subs v fanIndex n rest
      end
  end.

Fixpoint fan_in_hardware (v : Vendor) (fanIndex currentFanIndex : Z)
         (l : list IHardware) : ISensor + Z :=
  match l with
  | [] => inr currentFanIndex
  | hardware :: rest =>
      match fan_in_subs v fanIndex currentFanIndex
                        (SubHardware (Update v hardware)) with
      | inl s => inl s
      | inr n => fan_in_hardware v fanIndex n rest
      end
  end.

Definition GetCpuFanSpeed (v : Vendor) (fanIndex maxFanSpeed : Z) : M Z :=
  Initialize v ;;
  hs <- computer_Hardware ;;
  match fan_in_hardware v fanIndex 0 hs with
  | inl subSensor =>
      let currentSpeed := GetValueOrDefault (Value subSensor) F32.zero in
      if feq currentSpeed F32.zero then ret 0
      else
        let m := FLT_EVAL_METHOD v in
        ret (float_to_int
               (Eval.mul m (Eval.div m currentSpeed (Eval.of_Z m maxFanSpeed))
                         (F32.of_Z 100)))
  | inr _ => ret (-1)
  end.

Definition GetCpuFanSpeedRPM (v : Vendor) (fanIndex maxFanSpeed : Z) : M Z :=
  Initialize v ;;
  hs <- computer_Hardware ;;
  match fan_in_hardware v fanIndex 0 hs with
  | inl subSensor =>
      ret (float_to_int (GetValueOrDefault (Value subSensor) F32.zero))
  | inr _ => ret (-1)
  end.

Definition GetCpuFrequency (v : Vendor) : M spec_float :=
  Initialize v ;;
  hs <- computer_Hardware ;;
  match scan_cpu v is_cpu_clock hs with
  | Some sensor => ret (GetValueOrDefault (Value sensor) F32.zero)
  | None => ret (F32.of_Z (-1))
  end.

(* ================================================================= *)
(** ** The exported functions *)

(** [checkNvmlInitialized(errorMsg, bufSize)]: the result and the text the
    buffer holds afterwards. *)
Definition checkNvmlInitialized (errorMsg : string) (bufSize : nat)
  : M (bool * string) :=
  init <- get_nvmlInitialized ;;
  if negb init then ret (false, snprintf bufSize "NVML not initialized" [])
  else ret (true, errorMsg).

Definition SmartieInit (v : Vendor) : M unit :=
  (if negb (IsRunningAsAdmin v)
   then MessageBoxA "Administrative privileges required for this plugin" "Error"
   else ret tt) ;;
  init <- get_nvmlInitialized ;;
  (if negb init then
     emit EvNvmlInit ;;
     let result := nvmlInit v in
     if result =? NVML_SUCCESS then set_nvmlInitialized true
     else MessageBoxA (nvmlErrorString v result) "NVML Init Failed"
   else ret tt) ;;
  try_catch (Initialize v)
            (fun message => MessageBoxA message "Initialization Error").

Definition SmartieFini : M unit :=
  init <- get_nvmlInitialized ;;
  if init then
    emit EvNvmlShutdown ;;
    set_nvmlInitialized false ;;
    Close
  else ret tt.

Definition GetMinRefreshInterval (cfg : Config) : Z := MIN_INTERVAL cfg.

(** [sizeof(tempStr)]. *)
Definition tempStr_size : nat := 256.

Definition function1 (cfg : Config) (v : Vendor) (param1 param2 : string) : M string :=
  let showUnits := streq param2 "1" in
  if streq param1 "Load" then
    load <- GetCpuLoad v ;;
    if load <? 0 then ret (snprintf tempStr_size "Error reading CPU Load" [])
    else ret (snprintf tempStr_size (if showUnits then "%u%%" else "%u") [ArgInt load])
  else if streq param1 "Power" then
    tdp <- GetCpuPower v ;;
    if tdp <? 0 then ret (snprintf tempStr_size "Error reading CPU Power" [])
    else ret (snprintf tempStr_size (if showUnits then "%uW" else "%u") [ArgInt tdp])
  else if streq param1 "Temp" then
    temp <- GetCpuTemperature v ;;
    if temp <? 0 then ret (snprintf tempStr_size "Error reading CPU Temp" [])
    else ret (snprintf tempStr_size (if showUnits then "%u°C" else "%u") [ArgInt temp])
  else if streq param1 "Fan_RPM" then
    fanSpeedRPM <- GetCpuFanSpeedRPM v (CPU_FAN cfg) (CPU_SPEED cfg) ;;
    if fanSpeedRPM <? 0 then ret (snprintf tempStr_size "Error reading Fan Speed" [])
    else ret (snprintf tempStr_size (if showUnits then "%uRPM" else "%u") [ArgInt fanSpeedRPM])
  else if streq param1 "Fan" then
    fanSpeed <- GetCpuFanSpeed v (CPU_FAN cfg) (CPU_SPEED cfg) ;;
    if fanSpeed <? 0 then ret (snprintf tempStr_size "Error reading Fan Speed" [])
    else ret (snprintf tempStr_size (if showUnits then "%u%%" else "%u") [ArgInt fanSpeed])
  else if streq param1 "Clock" then
    clock <- GetCpuFrequency v ;;
    if flt clock (F32.of_Z 0) then ret (snprintf tempStr_size "Error reading CPU clock" [])
    else
      let clockGHz := F32.div clock (F32.of_Z 1000) in
      ret (snprintf tempStr_size (if showUnits then "%.2fGHz" else "%.2f") [ArgDouble clockGHz])
  else ret (snprintf tempStr_size "Invalid parameter" []).

Definition function2 (v : Vendor) (param1 param2 : string) : M string :=
  r <- checkNvmlInitialized "" tempStr_size ;;
  let '(ok, tempStr) := r in
  if negb ok then ret tempStr
  else
  let '(result, device) := nvmlDeviceGetHandleByIndex v 0 in
  if negb (result =? NVML_SUCCESS) then
    ret (snprintf tempStr_size "GPU handle error: %s" [ArgStr (nvmlErrorString v result)])
  else
  let showUnits := streq param2 "1" in
  if streq param1 "Temp" then
    let '(result, temp) := nvmlDeviceGetTemperature v device NVML_TEMPERATURE_GPU in
    if negb (result =? NVML_SUCCESS) then
      ret (snprintf tempStr_size "Error getting temp: %s" [ArgStr (nvmlErrorString v result)])
    else ret (snprintf tempStr_size (if showUnits then "%u°C" else "%u") [ArgInt temp])
  else if streq param1 "Limit" then
    let '(result, throttleReasons) := nvmlDeviceGetCurrentClocksThrottleReasons v device in
    if negb (result =? NVML_SUCCESS) then
      ret (snprintf tempStr_size "Error getting throttle reasons: %s" [ArgStr (nvmlErrorString v result)])
    else
      ret (snprintf tempStr_size
             (if negb (Z.land (ullong throttleReasons) NVML_CLK_THROTTLE_REASON_RELIABILITY =? 0)
              then "!" else " ") [])
  else if streq param1 "Fan" then
    let '(result, fanSpeed) := nvmlDeviceGetFanSpeed v device in
    if negb (result =? NVML_SUCCESS) then
      ret (snprintf tempStr_size "Error getting fan speed: %s" [ArgStr (nvmlErrorString v result)])
    else ret (snprintf tempStr_size (if showUnits then "%u%%" else "%u") [ArgInt fanSpeed])
  else if streq param1 "Power" then
    let '(result, power) := nvmlDeviceGetPowerUsage v device in
    if negb (result =? NVML_SUCCESS) then
      ret (snprintf tempStr_size "Error getting power usage: %s" [ArgStr (nvmlErrorString v result)])
    else
      ret (snprintf tempStr_size (if showUnits then "%uW" else "%u")
             [ArgInt (double_to_uint
                        (F64.add (F64.div (F64.of_Z (uint power)) (F64.of_Z 1000))
                                 F64.half))])
  else if streq param1 "Clock" then
    let '(result, clock) := nvmlDeviceGetClock v device NVML_CLOCK_GRAPHICS NVML_CLOCK_ID_CURRENT in
    if negb (result =? NVML_SUCCESS) then
      ret (snprintf tempStr_size "Error getting GPU clock: %s" [ArgStr (nvmlErrorString v result)])
    else
      let clockGHz := F32.div (F32.of_Z (uint clock)) (F32.of_Z 1000) in
      ret (snprintf tempStr_size (if showUnits then "%.2fGHz" else "%.2f") [ArgDouble clockGHz])
  else if streq param1 "Mem_Clock" then
    let '(result, memClock) := nvmlDeviceGetClock v device NVML_CLOCK_MEM NVML_CLOCK_ID_CURRENT in
    if negb (result =? NVML_SUCCESS) then
      ret (snprintf tempStr_size "Error getting Memory clock: %s" [ArgStr (nvmlErrorString v result)])
    else
      let memClockGHz := F32.div (F32.of_Z (uint memClock)) (F32.of_Z 1000) in
      ret (snprintf tempStr_size (if showUnits then "%.2fGHz" else "%.2f") [ArgDouble memClockGHz])
  else if streq param1 "Mem_Alloc" then
    let '(result, memInfo) := nvmlDeviceGetMemoryInfo v device in
    if negb (result =? NVML_SUCCESS) then
      ret (snprintf tempStr_size "Error getting memory usage: %s" [ArgStr (nvmlErrorString v result)])
    else
      let memUsage := F32.div (F32.of_Z (ullong (used memInfo)))
                              (F32.of_Z (1024 * 1024 * 1024)) in
      ret (snprintf tempStr_size (if showUnits then "%.1fGb" else "%.1f") [ArgDouble memUsage])
  else if streq param1 "Mem_Usage" then
    let '(result, memInfo) := nvmlDeviceGetMemoryInfo v device in
    if negb (result =? NVML_SUCCESS) then
      ret (snprintf tempStr_size "Error getting memory usage: %s" [ArgStr (nvmlErrorString v result)])
    else if ullong (total memInfo) =? 0 then throw DivideByZeroException
    else
      let memUsage := uint (ullong (ullong (used memInfo) * 100) / ullong (total memInfo)) in
      ret (snprintf tempStr_size (if showUnits then "%u%%" else "%u") [ArgInt memUsage])
  else if streq param1 "Load" then
    let '(result, utilization) := nvmlDeviceGetUtilizationRates v device in
    if negb (result =? NVML_SUCCESS) then
      ret (snprintf tempStr_size "Error getting GPU load: %s" [ArgStr (nvmlErrorString v result)])
    else ret (snprintf tempStr_size (if showUnits then "%u%%" else "%u") [ArgInt (gpu utilization)])
  else ret (snprintf tempStr_size "Invalid parameter" []).

(* ================================================================= *)
(** ** The query interface in the words of the specification *)

Inductive Domain : Type := CPU | GPU.

(** The host asks [function1] for CPU metrics and [function2] for GPU
    metrics. *)
Definition queryMetric (cfg : Config) (d : Domain) (v : Vendor)
           (metricName showUnitsFlag : string) : M string :=
  match d with
  | CPU => function1 cfg v metricName showUnitsFlag
  | GPU => function2 v metricName showUnitsFlag
  end.

(** The supported metric names of each domain. *)
Definition spec_metrics (d : Domain) : list string :=
  match d with
  | CPU => ["Load"; "Power"; "Temp"; "Fan_RPM"; "Fan"; "Clock"]
  | GPU => ["Load"; "Power"; "Limit"; "Temp"; "Fan"; "Clock";
            "Mem_Clock"; "Mem_Alloc"; "Mem_Usage"]
  end.

(** The unit suffixes. *)
Definition spec_unit_suffixes : list string :=
  ["%"; "W"; "°C"; "RPM"; "GHz"; "Gb"].

(** The fixed unit of each metric that has one. *)
Definition spec_units (d : Domain) : list (string * string) :=
  match d with
  | CPU => [("Load", "%"); ("Power", "W"); ("Temp", "°C");
            ("Fan_RPM", "RPM"); ("Fan", "%"); ("Clock", "GHz")]
  | GPU => [("Load", "%"); ("Power", "W"); ("Temp", "°C"); ("Fan", "%");
            ("Clock", "GHz"); ("Mem_Clock", "GHz"); ("Mem_Alloc", "Gb");
            ("Mem_Usage", "%")]
  end.

(** [u] is a suffix of [s]. *)
Fixpoint ends_with (s u : string) : bool :=
  (s =? u)%string ||
  match s with
  | EmptyString => false
  | String _ s' => ends_with s' u
  end.

Definition has_unit_suffix (s : string) : bool :=
  existsb (ends_with s) spec_unit_suffixes.

Fixpoint all_chars (p : ascii -> bool) (s : string) : bool :=
  match s with
  | EmptyString => true
  | String c s' => p c && all_chars p s'
  end.

Definition is_digit (c : ascii) : bool := (48 <=? byte c) && (byte c <=? 57).

(** A digit, the decimal point or the minus sign. *)
Definition number_char (c : ascii) : bool :=
  is_digit c || (byte c =? 46) || (byte c =? 45).

(** The text of a bare number: digits with at most a sign and a point, or
    what [%f] prints for an infinity or a NaN. *)
Definition is_number (s : string) : bool :=
  (s =? "inf")%string || (s =? "-inf")%string || (s =? "nan")%string
  || (negb (s =? "")%string && all_chars number_char s).

(** The error texts of the router: "Error reading ..." and "Error getting
    ...", the text of a failed handle lookup, the text of the closed gate. *)
Fixpoint starts_with (s p : string) {struct p} : bool :=
  match p with
  | EmptyString => true
  | String c p' =>
      match s with
      | EmptyString => false
      | String d s' => (c =? d)%char && starts_with s' p'
      end
  end.

Definition is_error_text (s : string) : bool :=
  starts_with s "Error " || starts_with s "GPU handle error: "
  || (s =? "NVML not initialized")%string.

(** How the answers to the two flags relate: a bare number that ends in no
    unit, and that number followed by [unit]; or one error text, returned
    twice; or one exception, thrown twice. *)
Definition flag_law (unit : string) (plain shown : Outcome string) : Prop :=
  match plain, shown with
  | Ret p, Ret s =>
      (is_number p = true /\ has_unit_suffix p = false /\ s = (p ++ unit)%string)
      \/ (is_error_text p = true /\ is_number p = false /\ s = p)
  | Throw e, Throw e' => e = e'
  | _, _ => False
  end.

(** The gate of every GPU query: NVML is initialized and the handle of
    device 0 is obtained. *)
Definition gpu_ready (v : Vendor) (w : World) : bool :=
  nvmlInitialized w && (fst (nvmlDeviceGetHandleByIndex v 0) =? NVML_SUCCESS).

Definition gate_open (d : Domain) (v : Vendor) (w : World) : bool :=
  match d with
  | CPU => true
  | GPU => gpu_ready v w
  end.

(** The hardware list a CPU lookup iterates over. *)
Definition seen_hardware (v : Vendor) : M (list IHardware) :=
  Initialize v ;; computer_Hardware.

(** The sensor at which the lookup behind a CPU metric returns. *)
Definition found_sensor (cfg : Config) (v : Vendor) (metricName : string)
           (hs : list IHardware) : option ISensor :=
  if (metricName =? "Load")%string then scan_cpu v is_cpu_load hs
  else if (metricName =? "Power")%string then scan_cpu v is_cpu_power hs
  else if (metricName =? "Temp")%string then scan_cpu v is_cpu_temperature hs
  else if (metricName =? "Clock")%string then scan_cpu v is_cpu_clock hs
  else if (metricName =? "Fan")%string || (metricName =? "Fan_RPM")%string then
    match fan_in_hardware v (CPU_FAN cfg) 0 hs with
    | inl s => Some s
    | inr _ => None
    end
  else None.

(** How many times the log records an event. *)
Definition event_eqb (a b : Event) : bool :=
  match a, b with
  | EvNewComputer, EvNewComputer | EvComputerOpen, EvComputerOpen
  | EvComputerClose, EvComputerClose | EvNvmlInit, EvNvmlInit
  | EvNvmlShutdown, EvNvmlShutdown => true
  | EvMessageBox t c, EvMessageBox t' c' => (t =? t')%string && (c =? c')%string
  | _, _ => false
  end.

Definition occurrences (e : Event) (w : World) : nat :=
  List.length (filter (event_eqb e) (events w)).

(* ================================================================= *)
(** ** A test bench *)

Module Bench.

(** A machine with one CPU and a motherboard whose controller carries three
    fans; the CPU fan is the third one and reads [fan]. *)
Definition machine (temperature clock fan : option spec_float) : list IHardware :=
  [mkHardware HardwareType.Cpu
     [mkSensor SensorType.Load "CPU Total" (Some (F32.of_Z 37));
      mkSensor SensorType.Power "CPU Package" (Some (F32.of_Z 65));
      mkSensor SensorType.Temperature "CPU Package" temperature;
      mkSensor SensorType.Clock "CPU Core #1" clock] [];
   mkHardware HardwareType.Motherboard []
     [mkHardware HardwareType.SuperIO
        [mkSensor SensorType.Fan "Fan #1" (Some (F32.of_Z 900));
         mkSensor SensorType.Temperature "Temperature #1" (Some (F32.of_Z 30));
         mkSensor SensorType.Fan "Fan #2" (Some (F32.of_Z 1000));
         mkSensor SensorType.Fan "Fan #3" fan] []]].

(** A vendor side whose NVML answers [init] to [nvmlInit] and [status] to
    every device query. *)
Definition vendor (hw : list IHardware) (init status : nvmlReturn_t)
           (power reasons used_bytes total_bytes : Z) : Vendor :=
  {| FLT_EVAL_METHOD := EvalFloat;
     IsRunningAsAdmin := true;
     Computer_Open := fun _ _ => Ret hw;
     Computer_Open_leaves := fun _ _ => [];
     Update := fun h => h;
     nvmlInit := init;
     nvmlErrorString := fun r => if r =? 0 then "Success" else "Unknown Error";
     nvmlDeviceGetHandleByIndex := fun _ => (NVML_SUCCESS, 1);
     nvmlDeviceGetTemperature := fun _ _ => (status, 61);
     nvmlDeviceGetCurrentClocksThrottleReasons := fun _ => (status, reasons);
     nvmlDeviceGetFanSpeed := fun _ => (status, 30);
     nvmlDeviceGetPowerUsage := fun _ => (status, power);
     nvmlDeviceGetClock := fun _ t _ =>
       (status, match t with NVML_CLOCK_GRAPHICS => 1905 | NVML_CLOCK_MEM => 7000 end);
     nvmlDeviceGetMemoryInfo := fun _ =>
       (status, {| total := total_bytes; free := total_bytes - used_bytes;
                   used := used_bytes |});
     nvmlDeviceGetUtilizationRates := fun _ => (status, {| gpu := 99; memory := 5 |}) |}.

Definition healthy_machine : list IHardware :=
  machine (Some (F32.of_Z 54)) (Some (F32.of_Z 3700)) (Some (F32.of_Z 1200)).

(** All queries succeed. *)
Definition healthy : Vendor :=
  vendor healthy_machine NVML_SUCCESS NVML_SUCCESS 123456 0 2147483648 8589934592.

(** No NVIDIA driver: [nvmlInit] fails. *)
Definition no_gpu : Vendor :=
  vendor healthy_machine 9 9 0 0 0 0.

(** The state after [SmartieInit]. *)
Definition started (v : Vendor) : World := snd (SmartieInit v initial_world).

End Bench.

(* ================================================================= *)
(** ** What the lookups visit, what the router says *)

Definition is_cpu (h : IHardware) : bool :=
  HardwareType.eqb (HardwareType h) HardwareType.Cpu.

Definition is_fan (s : ISensor) : bool :=
  SensorType.eqb (SensorType s) SensorType.Fan.

(** The sensors a CPU lookup meets, in the order in which it meets them:
    those of every node of type [Cpu], each node freshly updated. *)
Definition cpu_sensors (v : Vendor) (hs : list IHardware) : list ISensor :=
  flat_map (fun h => Sensors (Update v h)) (filter is_cpu hs).

(** The Fan sensors a fan lookup counts, in the order of its count: those
    of the sub-hardware of every node. *)
Definition fan_sensors (v : Vendor) (hs : list IHardware) : list ISensor :=
  filter is_fan
    (flat_map (fun h => flat_map (fun sub => Sensors (Update v sub))
                                 (SubHardware (Update v h))) hs).

(** Where a fan lookup that has counted [currentFanIndex] Fan sensors ends
    on the Fan sensors [fans] that are still to come: at the one whose
    position makes the counter equal [fanIndex], or past them all. *)
Definition nth_fan (fanIndex currentFanIndex : Z) (fans : list ISensor)
  : ISensor + Z :=
  if fanIndex <? currentFanIndex
  then inr (currentFanIndex + Z.of_nat (List.length fans))
  else match nth_error fans (Z.to_nat (fanIndex - currentFanIndex)) with
       | Some s => inl s
       | None => inr (currentFanIndex + Z.of_nat (List.length fans))
       end.

(** The text [function1] returns when the lookup of a metric fails. *)
Definition cpu_error_texts : list (string * string) :=
  [("Load", "Error reading CPU Load"); ("Power", "Error reading CPU Power");
   ("Temp", "Error reading CPU Temp"); ("Fan_RPM", "Error reading Fan Speed");
   ("Fan", "Error reading Fan Speed"); ("Clock", "Error reading CPU clock")].

(** The text before the vendor's status text when a GPU query fails. *)
Definition gpu_error_prefixes : list (string * string) :=
  [("Temp", "Error getting temp: ");
   ("Limit", "Error getting throttle reasons: ");
   ("Fan", "Error getting fan speed: ");
   ("Power", "Error getting power usage: ");
   ("Clock", "Error getting GPU clock: ");
   ("Mem_Clock", "Error getting Memory clock: ");
   ("Mem_Alloc", "Error getting memory usage: ");
   ("Mem_Usage", "Error getting memory usage: ");
   ("Load", "Error getting GPU load: ")].

(** The status of the NVML query behind a GPU metric. *)
Definition gpu_query_status (v : Vendor) (device : nvmlDevice_t)
           (metricName : string) : nvmlReturn_t :=
  if (metricName =? "Temp")%string then
    fst (nvmlDeviceGetTemperature v device NVML_TEMPERATURE_GPU)
  else if (metricName =? "Limit")%string then
    fst (nvmlDeviceGetCurrentClocksThrottleReasons v device)
  else if (metricName =? "Fan")%string then fst (nvmlDeviceGetFanSpeed v device)
  else if (metricName =? "Power")%string then fst (nvmlDeviceGetPowerUsage v device)
  else if (metricName =? "Clock")%string then
    fst (nvmlDeviceGetClock v device NVML_CLOCK_GRAPHICS NVML_CLOCK_ID_CURRENT)
  else if (metricName =? "Mem_Clock")%string then
    fst (nvmlDeviceGetClock v device NVML_CLOCK_MEM NVML_CLOCK_ID_CURRENT)
  else if (metricName =? "Mem_Alloc")%string || (metricName =? "Mem_Usage")%string then
    fst (nvmlDeviceGetMemoryInfo v device)
  else fst (nvmlDeviceGetUtilizationRates v device).

(** The raw value behind the three GPU metrics that are shown unconverted,
    with the unit of each. *)
Definition gpu_raw_reading (v : Vendor) (device : nvmlDevice_t)
           (metricName : string) : nvmlReturn_t * Z :=
  if (metricName =? "Temp")%string then
    nvmlDeviceGetTemperature v device NVML_TEMPERATURE_GPU
  else if (metricName =? "Fan")%string then nvmlDeviceGetFanSpeed v device
  else (fst (nvmlDeviceGetUtilizationRates v device),
        gpu (snd (nvmlDeviceGetUtilizationRates v device))).

(** The state after the first, successful [HardwareMonitor::Initialize]. *)
Definition opened (hw : list IHardware) (w : World) : World :=
  {| nvmlInitialized := nvmlInitialized w;
     computer := Some {| IsCpuEnabled := true; IsMotherboardEnabled := true;
                         IsOpen := true; Hardware := hw |};
     events := EvComputerOpen :: EvNewComputer :: events w |}.

(** The state after a [HardwareMonitor::Initialize] in which
    [Computer::Open] threw. *)
Definition open_failed (v : Vendor) (w : World) : World :=
  {| nvmlInitialized := nvmlInitialized w;
     computer := Some {| IsCpuEnabled := true; IsMotherboardEnabled := true;
                         IsOpen := false;
                         Hardware := Computer_Open_leaves v true true |};
     events := EvComputerOpen :: EvNewComputer :: events w |}.

(** The same outside world, asked by a process with or without
    administrator rights. *)
Definition as_admin (admin : bool) (v : Vendor) : Vendor :=
  {| FLT_EVAL_METHOD := FLT_EVAL_METHOD v;
     IsRunningAsAdmin := admin;
     Computer_Open := Computer_Open v;
     Computer_Open_leaves := Computer_Open_leaves v;
     Update := Update v;
     nvmlInit := nvmlInit v;
     nvmlErrorString := nvmlErrorString v;
     nvmlDeviceGetHandleByIndex := nvmlDeviceGetHandleByIndex v;
     nvmlDeviceGetTemperature := nvmlDeviceGetTemperature v;
     nvmlDeviceGetCurrentClocksThrottleReasons :=
       nvmlDeviceGetCurrentClocksThrottleReasons v;
     nvmlDeviceGetFanSpeed := nvmlDeviceGetFanSpeed v;
     nvmlDeviceGetPowerUsage := nvmlDeviceGetPowerUsage v;
     nvmlDeviceGetClock := nvmlDeviceGetClock v;
     nvmlDeviceGetMemoryInfo := nvmlDeviceGetMemoryInfo v;
     nvmlDeviceGetUtilizationRates := nvmlDeviceGetUtilizationRates v |}.

(** A machine on which [Computer::Open] throws, after the [Computer] has
    listed the hardware. *)
Definition broken_monitor (message : string) : Vendor :=
  {| FLT_EVAL_METHOD := EvalFloat;
     IsRunningAsAdmin := true;
     Computer_Open := fun _ _ => Throw message;
     Computer_Open_leaves := fun _ _ => Bench.healthy_machine;
     Update := fun h => h;
     nvmlInit := NVML_SUCCESS;
     nvmlErrorString := fun _ => "Unknown Error";
     nvmlDeviceGetHandleByIndex := fun _ => (NVML_SUCCESS, 1);
     nvmlDeviceGetTemperature := fun _ _ => (NVML_SUCCESS, 61);
     nvmlDeviceGetCurrentClocksThrottleReasons := fun _ => (NVML_SUCCESS, 0);
     nvmlDeviceGetFanSpeed := fun _ => (NVML_SUCCESS, 30);
     nvmlDeviceGetPowerUsage := fun _ => (NVML_SUCCESS, 90000);
     nvmlDeviceGetClock := fun _ _ _ => (NVML_SUCCESS, 1905);
     nvmlDeviceGetMemoryInfo := fun _ =>
       (NVML_SUCCESS, {| total := 2; free := 1; used := 1 |});
     nvmlDeviceGetUtilizationRates := fun _ =>
       (NVML_SUCCESS, {| gpu := 99; memory := 5 |}) |}.

(** A machine whose GPU is gone: NVML starts, and answers every request
    for the handle of device 0 with the status [status]. *)
Definition lost_device (status : nvmlReturn_t) (text : string) : Vendor :=
  {| FLT_EVAL_METHOD := EvalFloat;
     IsRunningAsAdmin := true;
     Computer_Open := fun _ _ => Ret Bench.healthy_machine;
     Computer_Open_leaves := fun _ _ => [];
     Update := fun h => h;
     nvmlInit := NVML_SUCCESS;
     nvmlErrorString := fun r => if r =? status then text else "Success";
     nvmlDeviceGetHandleByIndex := fun _ => (status, 0);
     nvmlDeviceGetTemperature := fun _ _ => (NVML_SUCCESS, 61);
     nvmlDeviceGetCurrentClocksThrottleReasons := fun _ => (NVML_SUCCESS, 0);
     nvmlDeviceGetFanSpeed := fun _ => (NVML_SUCCESS, 30);
     nvmlDeviceGetPowerUsage := fun _ => (NVML_SUCCESS, 90000);
     nvmlDeviceGetClock := fun _ _ _ => (NVML_SUCCESS, 1905);
     nvmlDeviceGetMemoryInfo := fun _ =>
       (NVML_SUCCESS, {| total := 2; free := 1; used := 1 |});
     nvmlDeviceGetUtilizationRates := fun _ =>
       (NVML_SUCCESS, {| gpu := 99; memory := 5 |}) |}.



(* ================================================================= *)
(** ** A reading that succeeds *)

(** What the lookup behind a CPU metric returns: an [int], or the clock as
    a [float]. *)
Definition cpu_lookup (cfg : Config) (v : Vendor) (metricName : string)
           (w : World) : option (Outcome (Z + spec_float)) :=
  let whole (r : Outcome Z * World) : Outcome (Z + spec_float) :=
    match fst r with Ret n => Ret (inl n) | Throw e => Throw e end in
  if (metricName =? "Load")%string then Some (whole (GetCpuLoad v w))
  else if (metricName =? "Power")%string then Some (whole (GetCpuPower v w))
  else if (metricName =? "Temp")%string then Some (whole (GetCpuTemperature v w))
  else if (metricName =? "Fan_RPM")%string then
    Some (whole (GetCpuFanSpeedRPM v (CPU_FAN cfg) (CPU_SPEED cfg) w))
  else if (metricName =? "Fan")%string then
    Some (whole (GetCpuFanSpeed v (CPU_FAN cfg) (CPU_SPEED cfg) w))
  else if (metricName =? "Clock")%string then
    Some (match fst (GetCpuFrequency v w) with
          | Ret clock => Ret (inr clock)
          | Throw e => Throw e
          end)
  else None.

(** The reading of a metric succeeds: in the CPU domain the lookup returns
    a value that is not negative (a negative one is how it reports that it
    found nothing); in the GPU domain NVML is initialized, the handle of
    device 0 and the query of the metric are obtained with the status
    [NVML_SUCCESS], and, for "Mem_Usage", the total it is to divide by is
    not 0. *)
Definition reading_succeeds (cfg : Config) (d : Domain) (v : Vendor)
           (metricName : string) (w : World) : bool :=
  match d with
  | CPU =>
      match cpu_lookup cfg v metricName w with
      | Some (Ret (inl n)) => 0 <=? n
      | Some (Ret (inr clock)) => negb (flt clock (F32.of_Z 0))
      | _ => false
      end
  | GPU =>
      let device := snd (nvmlDeviceGetHandleByIndex v 0) in
      gpu_ready v w
      && (gpu_query_status v device metricName =? NVML_SUCCESS)
      && negb ((metricName =? "Mem_Usage")%string
               && (ullong (total (snd (nvmlDeviceGetMemoryInfo v device))) =? 0))
  end.

(** The answer to the flag "0" is a number exactly when the reading
    succeeds. *)
Definition number_when_succeeds (succeeds : bool) (plain : Outcome string) : Prop :=
  if succeeds then exists p, plain = Ret p /\ is_number p = true
  else forall p, plain = Ret p -> is_number p = false.

(* ================================================================= *)
(** * Properties *)

(** ** C strings *)

Lemma byte_inj (x y : ascii) : byte x = byte y -> x = y.
Proof.
  unfold byte. intros H. apply N2Z.inj in H.
  rewrite <- (ascii_N_embedding x), <- (ascii_N_embedding y). now rewrite H.
Qed.

Lemma strcmp_zero_iff (a b : string) : strcmp a b = 0 <-> c_str a = c_str b.
Proof.
  revert b. induction a as [|x a IH]; intros [|y b]; simpl.
  - tauto.
  - destruct (Z.eqb_spec (byte y) 0); split; intros; try lia; congruence.
  - destruct (Z.eqb_spec (byte x) 0) as [E|E]; rewrite ?E; simpl.
    + tauto.
    + split; [lia | discriminate].
  - destruct (Z.eqb_spec (byte x) (byte y)) as [E|E].
    + apply byte_inj in E. subst y.
      destruct (Z.eqb_spec (byte x) 0); [tauto|].
      rewrite IH. split; intros H; [now rewrite H | now injection H].
    + split; [lia|].
      destruct (Z.eqb_spec (byte x) 0), (Z.eqb_spec (byte y) 0);
        intros H; try discriminate H; try lia.
      injection H as H _. now subst.
  Qed.

Lemma streq_true_iff (a b : string) : streq a b = true <-> c_str a = c_str b.
Proof. unfold streq. rewrite Z.eqb_eq. apply strcmp_zero_iff. Qed.

Lemma streq_false_iff (a b : string) : streq a b = false <-> c_str a <> c_str b.
Proof.
  rewrite <- streq_true_iff. destruct (streq a b); split; congruence.
Qed.

(** A name outside a list of literals fails the test against each. *)
Lemma streq_outside (p lit : string) (names : list string) :
  ~ In (c_str p) names -> In lit names -> c_str lit = lit ->
  streq p lit = false.
Proof.
  intros Hout Hin Hlit. apply streq_false_iff. rewrite Hlit.
  intros E. apply Hout. now rewrite E.
Qed.

(** ** The gate of the GPU queries *)

Lemma function2_gate_closed (v : Vendor) (w : World) (param1 param2 : string) :
  nvmlInitialized w = false ->
  function2 v param1 param2 w = (Ret "NVML not initialized", w).
Proof.
  intros H. unfold function2, checkNvmlInitialized, bind, get_nvmlInitialized, ret.
  rewrite H. reflexivity.
Qed.

Ltac outside H :=
  eapply streq_outside; [exact H | simpl; tauto | reflexivity].

(** C1 (as amended): a metric name outside the supported names of its
    domain makes the query return exactly "Invalid parameter", whatever the
    show-units flag, and leaves the state alone; for the GPU domain this
    holds once the gate is open (NVML initialized and the device handle
    obtained). *)
Theorem C1_invalid_parameter
  (cfg : Config) (d : Domain) (v : Vendor) (w : World) (metricName flag : string) :
  ~ In (c_str metricName) (spec_metrics d) ->
  gate_open d v w = true ->
  queryMetric cfg d v metricName flag w = (Ret "Invalid parameter", w).
Proof.
  intros Hout Hgate. destruct d; cbn [queryMetric]; cbn [gate_open] in Hgate.
  - unfold function1.
    replace (streq metricName "Load") with false by (symmetry; outside Hout).
    replace (streq metricName "Power") with false by (symmetry; outside Hout).
    replace (streq metricName "Temp") with false by (symmetry; outside Hout).
    replace (streq metricName "Fan_RPM") with false by (symmetry; outside Hout).
    replace (streq metricName "Fan") with false by (symmetry; outside Hout).
    replace (streq metricName "Clock") with false by (symmetry; outside Hout).
    reflexivity.
  - unfold gpu_ready in Hgate. apply andb_true_iff in Hgate as [Hinit Hdev].
    unfold function2, checkNvmlInitialized, bind, get_nvmlInitialized, ret.
    rewrite Hinit. simpl.
    destruct (nvmlDeviceGetHandleByIndex v 0) as [result device]. simpl in Hdev.
    rewrite Hdev. simpl.
    replace (streq metricName "Temp") with false by (symmetry; outside Hout).
    replace (streq metricName "Limit") with false by (symmetry; outside Hout).
    replace (streq metricName "Fan") with false by (symmetry; outside Hout).
    replace (streq metricName "Power") with false by (symmetry; outside Hout).
    replace (streq metricName "Clock") with false by (symmetry; outside Hout).
    replace (streq metricName "Mem_Clock") with false by (symmetry; outside Hout).
    replace (streq metricName "Mem_Alloc") with false by (symmetry; outside Hout).
    replace (streq metricName "Mem_Usage") with false by (symmetry; outside Hout).
    replace (streq metricName "Load") with false by (symmetry; outside Hout).
    reflexivity.
Qed.

Lemma C1_invalid_parameter_witness :
  queryMetric source_config CPU Bench.healthy "Volts" "1" initial_world
    = (Ret "Invalid parameter", initial_world)
  /\ queryMetric source_config GPU Bench.healthy "Volts" "0"
       (Bench.started Bench.healthy)
    = (Ret "Invalid parameter", Bench.started Bench.healthy).
Proof.
  split; apply C1_invalid_parameter;
    solve [reflexivity | simpl; intuition discriminate].
Defined.

(** C1 as stated fails in the GPU domain: before NVML is initialized an
    unsupported name is answered "NVML not initialized". *)
Lemma C1_counterexample_gate_first :
  ~ In (c_str "Volts") (spec_metrics GPU)
  /\ queryMetric source_config GPU Bench.healthy "Volts" "0" initial_world
     = (Ret "NVML not initialized", initial_world)
  /\ "NVML not initialized" <> "Invalid parameter".
Proof.
  split; [simpl; intuition discriminate|].
  split; [reflexivity | discriminate].
Qed.

(** C4: while the initialization flag is unset, [function2] returns exactly
    "NVML not initialized" for every metric name and every flag. *)
Theorem C4_nvml_not_initialized
  (v : Vendor) (w : World) (metricName flag : string) :
  nvmlInitialized w = false ->
  fst (function2 v metricName flag w) = Ret "NVML not initialized".
Proof.
  intros H. now rewrite function2_gate_closed.
Qed.

Lemma C4_nvml_not_initialized_witness :
  fst (function2 Bench.healthy "Temp" "1" initial_world)
  = Ret "NVML not initialized".
Proof.
  apply C4_nvml_not_initialized. reflexivity.
Defined.

(** ** Start and stop *)

Lemma Initialize_open (v : Vendor) (w : World) (c : Computer) :
  computer w = Some c -> Initialize v w = (Ret tt, w).
Proof.
  intros H. unfold Initialize, bind, get_computer, ret. now rewrite H.
Qed.

Lemma SmartieFini_not_initialized (w : World) :
  nvmlInitialized w = false -> SmartieFini w = (Ret tt, w).
Proof.
  intros H. unfold SmartieFini, bind, get_nvmlInitialized. now rewrite H.
Qed.

(** In every state the flag is unset after [SmartieFini]. *)
Lemma SmartieFini_clears_flag (w : World) :
  fst (SmartieFini w) = Ret tt /\ nvmlInitialized (snd (SmartieFini w)) = false.
Proof.
  destruct (nvmlInitialized w) eqn:H.
  - unfold SmartieFini, bind, get_nvmlInitialized. rewrite H.
    unfold Close, emit, set_nvmlInitialized, bind, get_computer, set_computer, ret.
    cbn. destruct (computer w); cbn; auto.
  - rewrite SmartieFini_not_initialized by exact H. auto.
Qed.

(** The part of C3 the code does keep: when the GPU backend is
    initialized, [SmartieFini] releases it and, in the same step, the
    hardware monitor: it returns with the flag cleared and the handle null,
    having called [nvmlShutdown] once more than before, and
    [Computer::Close] once more if the handle was open. *)
Theorem C3_shutdown_releases_both (w : World) :
  nvmlInitialized w = true ->
  fst (SmartieFini w) = Ret tt
  /\ nvmlInitialized (snd (SmartieFini w)) = false
  /\ computer (snd (SmartieFini w)) = None
  /\ occurrences EvNvmlShutdown (snd (SmartieFini w))
     = S (occurrences EvNvmlShutdown w)
  /\ occurrences EvComputerClose (snd (SmartieFini w))
     = ((match computer w with Some _ => 1 | None => 0 end)
        + occurrences EvComputerClose w)%nat.
Proof.
  intros H. unfold SmartieFini, bind, get_nvmlInitialized. rewrite H.
  unfold Close, emit, set_nvmlInitialized, bind, get_computer, set_computer, ret,
    occurrences.
  cbn. destruct (computer w); cbn; auto.
Qed.

Lemma C3_shutdown_releases_both_witness :
  nvmlInitialized (snd (SmartieFini (Bench.started Bench.healthy))) = false
  /\ computer (snd (SmartieFini (Bench.started Bench.healthy))) = None.
Proof.
  pose proof (C3_shutdown_releases_both (Bench.started Bench.healthy) eq_refl)
    as [_ [F [C _]]].
  exact (conj F C).
Defined.

(** C3 does not hold of the code, and the code is at fault: the comment
    on [SmartieFini] says it "closes NVML and hardware monitor", and
    [SmartieInit] opens the monitor whether or not [nvmlInit] succeeds, but
    [HardwareMonitor::Close] is called only inside [if (nvmlInitialized)].
    On a machine without an NVIDIA driver ([nvmlInit] answers 9) the state
    after [SmartieInit] has the flag unset and the monitor open;
    [SmartieFini] then returns without touching the state: the handle is
    still non-null and open, and [Computer::Close] was never called. *)
Lemma C3_counterexample_monitor_left_open :
  nvmlInitialized (Bench.started Bench.no_gpu) = false
  /\ (exists c, computer (Bench.started Bench.no_gpu) = Some c /\ IsOpen c = true)
  /\ SmartieFini (Bench.started Bench.no_gpu) = (Ret tt, Bench.started Bench.no_gpu)
  /\ occurrences EvComputerClose (snd (SmartieFini (Bench.started Bench.no_gpu))) = 0%nat.
Proof.
  split; [reflexivity|]. split; [eexists; split; reflexivity|].
  split; reflexivity.
Qed.

(** After [SmartieInit] the handle is never null, not even when
    [Computer::Open] threw: a second call in succession meets the case of
    C8. *)
Lemma SmartieInit_sets_handle (v : Vendor) (w : World) :
  fst (SmartieInit v w) = Ret tt /\ computer (snd (SmartieInit v w)) <> None.
Proof.
  destruct w as [init comp log].
  unfold SmartieInit, Initialize, Open, new_Computer, modify_computer, try_catch,
    bind, get_nvmlInitialized, get_computer, set_computer, MessageBoxA, emit,
    set_nvmlInitialized, throw, ret.
  destruct (IsRunningAsAdmin v), init; cbn;
    try destruct (nvmlInit v =? NVML_SUCCESS); cbn;
    destruct comp; cbn; try destruct (Computer_Open v true true); cbn;
    split; try reflexivity; discriminate.
Qed.

(** C8: while the handle is non-null a further [initialize()] leaves it as
    it is: [HardwareMonitor::Initialize] changes nothing, and after
    [SmartieInit] the handle is the same, no [Computer] was created and
    none was opened. *)
Theorem C8_initialize_idempotent (v : Vendor) (w : World) (c : Computer) :
  computer w = Some c ->
  Initialize v w = (Ret tt, w)
  /\ fst (SmartieInit v w) = Ret tt
  /\ computer (snd (SmartieInit v w)) = Some c
  /\ occurrences EvNewComputer (snd (SmartieInit v w)) = occurrences EvNewComputer w
  /\ occurrences EvComputerOpen (snd (SmartieInit v w)) = occurrences EvComputerOpen w.
Proof.
  intros H. split; [now apply Initialize_open with c|].
  destruct w as [init comp log]. simpl in H. subst comp.
  unfold SmartieInit, Initialize, try_catch, bind, get_nvmlInitialized,
    get_computer, MessageBoxA, emit, set_nvmlInitialized, ret, occurrences.
  destruct (IsRunningAsAdmin v), init; simpl;
    try destruct (nvmlInit v =? NVML_SUCCESS); simpl; auto.
Qed.

Lemma C8_initialize_idempotent_witness :
  Initialize Bench.healthy (Bench.started Bench.healthy)
  = (Ret tt, Bench.started Bench.healthy).
Proof.
  exact (proj1 (C8_initialize_idempotent Bench.healthy
                  (Bench.started Bench.healthy) _ eq_refl)).
Defined.

(** ** Strings and formatting *)

Arguments snprintf : simpl never.

Lemma append_empty_r (s : string) : (s ++ "")%string = s.
Proof. induction s; simpl; congruence. Qed.

Lemma length_append (a b : string) :
  String.length (a ++ b) = (String.length a + String.length b)%nat.
Proof. induction a; simpl; congruence. Qed.

Lemma append_assoc (a b c : string) : ((a ++ b) ++ c)%string = (a ++ (b ++ c))%string.
Proof. induction a; simpl; congruence. Qed.

Lemma substring_whole (s : string) (n : nat) :
  (String.length s <= n)%nat -> substring 0 n s = s.
Proof.
  revert n. induction s as [|c s IH]; intros [|n] H; simpl in *; try reflexivity.
  - inversion H.
  - f_equal. apply IH. now apply le_S_n.
Qed.

Lemma snprintf_fits (fmt : string) (args : list printf_arg) :
  (String.length (format fmt args) <= 255)%nat ->
  snprintf tempStr_size fmt args = format fmt args.
Proof. intros H. unfold snprintf. now apply substring_whole. Qed.

Lemma decimal_digits_length (fuel : nat) (z : Z) (acc : string) :
  (String.length (decimal_digits fuel z acc) <= fuel + String.length acc)%nat.
Proof.
  revert z acc. induction fuel as [|fuel IH]; intros z acc; simpl.
  - apply le_n.
  - destruct (z <? 10); simpl.
    + apply le_n_S, Nat.le_add_l.
    + etransitivity; [apply IH|]. simpl. now rewrite Nat.add_succ_r.
Qed.

(** A number below [2 ^ k] prints in at most [k] characters. *)
Lemma decimal_length (z k : Z) :
  0 < k -> 0 <= z < 2 ^ k -> (String.length (decimal z) <= Z.to_nat k)%nat.
Proof.
  intros Hpos [H0 Hk]. unfold decimal.
  etransitivity; [apply decimal_digits_length|]. simpl. rewrite Nat.add_0_r.
  assert (Z.log2 z < k).
  { destruct (Z.eq_dec z 0) as [->|]; [simpl; lia|].
    apply Z.log2_lt_pow2; lia. }
  pose proof (Z.log2_nonneg z). lia.
Qed.

Lemma digit_char_is_digit (d : Z) : 0 <= d < 10 -> is_digit (digit_char d) = true.
Proof.
  intros H.
  assert (d = 0 \/ d = 1 \/ d = 2 \/ d = 3 \/ d = 4 \/ d = 5 \/ d = 6 \/
          d = 7 \/ d = 8 \/ d = 9) as D by lia.
  repeat (destruct D as [->|D]; [reflexivity|]). now subst.
Qed.

Lemma decimal_digits_all_digits (fuel : nat) (z : Z) (acc : string) :
  all_chars is_digit acc = true ->
  all_chars is_digit (decimal_digits fuel z acc) = true.
Proof.
  revert z acc. induction fuel as [|fuel IH]; intros z acc Hacc; simpl; auto.
  assert (all_chars is_digit (String (digit_char (z mod 10)) acc) = true).
  { simpl. rewrite Hacc, digit_char_is_digit; auto.
    apply Z.mod_pos_bound. lia. }
  destruct (z <? 10); auto.
Qed.

Lemma decimal_all_digits (z : Z) : all_chars is_digit (decimal z) = true.
Proof. apply decimal_digits_all_digits. reflexivity. Qed.

Lemma decimal_digits_nonempty (fuel : nat) (z : Z) (acc : string) :
  acc <> "" -> decimal_digits fuel z acc <> "".
Proof.
  revert z acc. induction fuel as [|fuel IH]; intros z acc H; simpl; auto.
  destruct (z <? 10); [discriminate|]. apply IH. discriminate.
Qed.

Lemma decimal_nonempty (z : Z) : decimal z <> "".
Proof.
  unfold decimal. simpl. destruct (z <? 10); [discriminate|].
  apply decimal_digits_nonempty. discriminate.
Qed.

Lemma decimal_value_append (a : Z) (s1 s2 : string) :
  decimal_value a (s1 ++ s2) = decimal_value (decimal_value a s1) s2.
Proof. revert a. induction s1 as [|c s1 IH]; intros a; simpl; auto. Qed.

Lemma digit_char_value (d : Z) : 0 <= d < 10 -> byte (digit_char d) - 48 = d.
Proof.
  intros H.
  assert (d = 0 \/ d = 1 \/ d = 2 \/ d = 3 \/ d = 4 \/ d = 5 \/ d = 6 \/
          d = 7 \/ d = 8 \/ d = 9) as D by lia.
  repeat (destruct D as [->|D]; [reflexivity|]). now subst.
Qed.

(** With fuel for the binary digits of [z], [decimal_digits] puts before
    [acc] a text that denotes [z]. *)
Lemma decimal_digits_spec (fuel : nat) (z : Z) (acc : string) :
  0 <= z < 2 ^ Z.of_nat fuel -> (0 < fuel)%nat ->
  exists s, decimal_digits fuel z acc = (s ++ acc)%string
            /\ forall a, decimal_value a s = a * 10 ^ Z.of_nat (String.length s) + z.
Proof.
  revert z acc. induction fuel as [|fuel IH]; intros z acc Hz Hfuel; [lia|].
  cbn [decimal_digits]. pose proof (Z.mod_pos_bound z 10 eq_refl) as Hd.
  destruct (Z.ltb_spec z 10) as [Small|Large].
  - exists (String (digit_char (z mod 10)) ""). split; [reflexivity|].
    intros a. cbn [decimal_value String.length].
    rewrite digit_char_value, Z.mod_small by lia. change (10 ^ Z.of_nat 1) with 10. lia.
  - rewrite Nat2Z.inj_succ, Z.pow_succ_r in Hz by lia.
    assert (0 <= z / 10 < 2 ^ Z.of_nat fuel) as Hq.
    { split; [apply Z.div_pos; lia|apply Z.div_lt_upper_bound; lia]. }
    assert (0 < fuel)%nat as Hf.
    { destruct fuel; [simpl in Hz; lia|lia]. }
    destruct (IH (z / 10) (String (digit_char (z mod 10)) acc) Hq Hf) as [s [E V]].
    exists (s ++ String (digit_char (z mod 10)) "")%string. split.
    + rewrite E, append_assoc. reflexivity.
    + intros a. rewrite decimal_value_append, V. cbn [decimal_value].
      rewrite digit_char_value by lia. rewrite length_append. cbn [String.length].
      rewrite Nat2Z.inj_add, Z.pow_add_r by lia. change (10 ^ Z.of_nat 1) with 10.
      pose proof (Z.div_mod z 10). lia.
Qed.

(** [decimal] prints the number it is given: the fuel never runs out. *)
Lemma decimal_value_decimal (z : Z) : 0 <= z -> decimal_value 0 (decimal z) = z.
Proof.
  intros Hz. unfold decimal.
  destruct (decimal_digits_spec (S (Z.to_nat (Z.log2 z))) z "") as [s [E V]]; [|lia|].
  - rewrite Nat2Z.inj_succ, Z2Nat.id by apply Z.log2_nonneg.
    destruct (Z.eq_dec z 0) as [->|]; [simpl; lia|].
    split; [lia|]. apply Z.log2_spec. lia.
  - rewrite E, append_empty_r, V. lia.
Qed.

Lemma uint_range (z : Z) : 0 <= uint z < 2 ^ 32.
Proof. apply Z.mod_pos_bound. reflexivity. Qed.

Lemma uint_small (z : Z) : 0 <= z < 2 ^ 32 -> uint z = z.
Proof. apply Z.mod_small. Qed.

Lemma ullong_small (z : Z) : 0 <= z < 2 ^ 64 -> ullong z = z.
Proof. apply Z.mod_small. Qed.

(** [%u] followed by literal text that holds no directive. *)
Lemma snprintf_unsigned (n : Z) (fmt suffix : string) :
  format fmt [] = suffix ->
  (String.length suffix <= 200)%nat ->
  format ("%u" ++ fmt) [ArgInt n] = (decimal (uint n) ++ suffix)%string ->
  snprintf tempStr_size ("%u" ++ fmt) [ArgInt n] = (decimal (uint n) ++ suffix)%string.
Proof.
  intros _ Hlen Hfmt. rewrite snprintf_fits; [exact Hfmt|].
  rewrite Hfmt, length_append.
  pose proof (decimal_length (uint n) 32 eq_refl (uint_range n)).
  change (Z.to_nat 32) with 32%nat in *. lia.
Qed.

(** The five ways the router prints an integer reading. *)
Lemma reply_plain (n : Z) :
  snprintf tempStr_size "%u" [ArgInt n] = decimal (uint n).
Proof.
  rewrite <- (append_empty_r (decimal (uint n))).
  apply (snprintf_unsigned n "" ""); [reflexivity | simpl; lia | reflexivity].
Qed.

Lemma reply_percent (n : Z) :
  snprintf tempStr_size "%u%%" [ArgInt n] = (decimal (uint n) ++ "%")%string.
Proof. apply (snprintf_unsigned n "%%" "%"); [reflexivity | simpl; lia | reflexivity]. Qed.

Lemma reply_watt (n : Z) :
  snprintf tempStr_size "%uW" [ArgInt n] = (decimal (uint n) ++ "W")%string.
Proof. apply (snprintf_unsigned n "W" "W"); [reflexivity | simpl; lia | reflexivity]. Qed.

Lemma reply_celsius (n : Z) :
  snprintf tempStr_size "%u°C" [ArgInt n] = (decimal (uint n) ++ "°C")%string.
Proof. apply (snprintf_unsigned n "°C" "°C"); [reflexivity | simpl; lia | reflexivity]. Qed.

Lemma reply_rpm (n : Z) :
  snprintf tempStr_size "%uRPM" [ArgInt n] = (decimal (uint n) ++ "RPM")%string.
Proof. apply (snprintf_unsigned n "RPM" "RPM"); [reflexivity | simpl; lia | reflexivity]. Qed.

(** ** GPU queries behind the gate *)

Ltac gpu_gate Hinit Hdev :=
  unfold function2, checkNvmlInitialized, bind, get_nvmlInitialized, ret;
  rewrite Hinit; cbn [negb]; rewrite Hdev; cbn [negb Z.eqb NVML_SUCCESS].

Lemma reliability_bit (reasons : Z) :
  (Z.land (ullong reasons) NVML_CLK_THROTTLE_REASON_RELIABILITY =? 0)
  = negb (Z.testbit reasons 2).
Proof.
  assert (Z.land (ullong reasons) 4 = if Z.testbit reasons 2 then 4 else 0) as E.
  { apply Z.bits_inj'. intros n Hn. rewrite Z.land_spec.
    change 4 with (2 ^ 2) at 1. rewrite Z.pow2_bits_eqb by lia.
    destruct (Z.eqb_spec 2 n) as [<-|Hne].
    - unfold ullong, ULLONG_MODULUS. rewrite Z.mod_pow2_bits_low by lia.
      rewrite andb_true_r. destruct (Z.testbit reasons 2); reflexivity.
    - rewrite andb_false_r. destruct (Z.testbit reasons 2).
      + change 4 with (2 ^ 2). rewrite Z.pow2_bits_eqb by lia.
        symmetry. now apply Z.eqb_neq.
      + now rewrite Z.bits_0. }
  unfold NVML_CLK_THROTTLE_REASON_RELIABILITY. rewrite E.
  destruct (Z.testbit reasons 2); reflexivity.
Qed.

(** C9: the answer to "Limit" does not depend on the show-units flag: any
    two flags give the same result in every state and for every answer of
    the backend; when the throttle query succeeds the answer is "!" if the
    reliability bit (bit 2, value 4) is set and one space otherwise, with
    no unit after it. *)
Theorem C9_limit_ignores_units (v : Vendor) (w : World) (flag flag' : string) :
  function2 v "Limit" flag w = function2 v "Limit" flag' w
  /\ (forall device reasons,
        nvmlInitialized w = true ->
        nvmlDeviceGetHandleByIndex v 0 = (NVML_SUCCESS, device) ->
        nvmlDeviceGetCurrentClocksThrottleReasons v device = (NVML_SUCCESS, reasons) ->
        function2 v "Limit" flag w
        = (Ret (if Z.testbit reasons 2 then "!" else " "), w)).
Proof.
  split.
  - unfold function2, checkNvmlInitialized, bind, get_nvmlInitialized, ret.
    destruct (nvmlInitialized w); [|reflexivity]. cbn [negb].
    destruct (nvmlDeviceGetHandleByIndex v 0) as [result device].
    destruct (negb (result =? NVML_SUCCESS)); reflexivity.
  - intros device reasons Hinit Hdev Hq. gpu_gate Hinit Hdev.
    change (streq "Limit" "Temp") with false.
    change (streq "Limit" "Limit") with true. cbn iota.
    rewrite Hq. cbn [negb Z.eqb NVML_SUCCESS].
    rewrite reliability_bit, negb_involutive.
    destruct (Z.testbit reasons 2); reflexivity.
Qed.

Lemma C9_limit_ignores_units_witness :
  function2 (Bench.vendor Bench.healthy_machine 0 0 90000 4 1 2) "Limit" "1"
            (Bench.started Bench.healthy)
  = (Ret "!", Bench.started Bench.healthy)
  /\ function2 Bench.healthy "Limit" "1" (Bench.started Bench.healthy)
     = function2 Bench.healthy "Limit" "0" (Bench.started Bench.healthy).
Proof.
  split.
  - apply (proj2 (C9_limit_ignores_units _ _ "1" "0") 1 4); reflexivity.
  - apply (proj1 (C9_limit_ignores_units _ _ "1" "0")).
Defined.

(** C6 (as amended): when the memory query succeeds with [total > 0], and
    [used * 100] stays below [2 ^ 64] and the quotient below [2 ^ 32],
    "Mem_Usage" reports [used * 100 / total], rounded down, followed by "%"
    when units are asked for. *)
Theorem C6_memory_usage
  (v : Vendor) (w : World) (flag : string) (device : nvmlDevice_t)
  (total_bytes free_bytes used_bytes : Z) :
  nvmlInitialized w = true ->
  nvmlDeviceGetHandleByIndex v 0 = (NVML_SUCCESS, device) ->
  nvmlDeviceGetMemoryInfo v device
    = (NVML_SUCCESS, {| total := total_bytes; free := free_bytes; used := used_bytes |}) ->
  0 < total_bytes < 2 ^ 64 ->
  0 <= used_bytes ->
  used_bytes * 100 < 2 ^ 64 ->
  used_bytes * 100 / total_bytes < 2 ^ 32 ->
  function2 v "Mem_Usage" flag w
  = (Ret (decimal (used_bytes * 100 / total_bytes)
          ++ (if streq flag "1" then "%" else ""))%string, w).
Proof.
  intros Hinit Hdev Hq Htotal Hused Hprod Hquot. gpu_gate Hinit Hdev.
  change (streq "Mem_Usage" "Temp") with false.
  change (streq "Mem_Usage" "Limit") with false.
  change (streq "Mem_Usage" "Fan") with false.
  change (streq "Mem_Usage" "Power") with false.
  change (streq "Mem_Usage" "Clock") with false.
  change (streq "Mem_Usage" "Mem_Clock") with false.
  change (streq "Mem_Usage" "Mem_Alloc") with false.
  change (streq "Mem_Usage" "Mem_Usage") with true. cbn iota.
  rewrite Hq. cbn [negb Z.eqb NVML_SUCCESS total used].
  rewrite (ullong_small total_bytes) by lia.
  rewrite (ullong_small used_bytes) by lia.
  rewrite (ullong_small (used_bytes * 100)) by lia.
  destruct (Z.eqb_spec total_bytes 0) as [E|_]; [lia|].
  assert (0 <= used_bytes * 100 / total_bytes) by (apply Z.div_pos; lia).
  destruct (streq flag "1").
  - rewrite reply_percent, !(uint_small (used_bytes * 100 / total_bytes)) by lia.
    reflexivity.
  - rewrite reply_plain, !(uint_small (used_bytes * 100 / total_bytes)) by lia.
    now rewrite append_empty_r.
Qed.

Lemma C6_memory_usage_witness :
  function2 Bench.healthy "Mem_Usage" "1" (Bench.started Bench.healthy)
  = (Ret "25%", Bench.started Bench.healthy).
Proof.
  apply (C6_memory_usage Bench.healthy (Bench.started Bench.healthy) "1" 1
           8589934592 (8589934592 - 2147483648) 2147483648);
    solve [reflexivity | lia | vm_compute; intuition congruence].
Defined.

(** C6 as stated fails where the 64-bit product wraps: with
    [used = total = 2 ^ 63] the quotient [used * 100 / total] is 100, and
    the code answers "0%". *)
Lemma C6_counterexample_wraparound :
  0 < 2 ^ 63 < 2 ^ 64
  /\ 2 ^ 63 * 100 / 2 ^ 63 = 100
  /\ function2 (Bench.vendor Bench.healthy_machine 0 0 90000 0 (2 ^ 63) (2 ^ 63))
               "Mem_Usage" "1" (Bench.started Bench.healthy)
     = (Ret "0%", Bench.started Bench.healthy).
Proof.
  split; [lia|]. split; reflexivity.
Qed.

(* ================================================================= *)
(** ** Rounding in [SpecFloat]

    What the proofs below need of [binary_round_aux]: the mantissa it
    delivers has at most [prec] bits, and in the normal range it is the
    mantissa it was given, cut to [prec] bits, or the next one. *)

Lemma digits2_pos_bounds (p : positive) :
  2 ^ (Zpos (digits2_pos p) - 1) <= Zpos p < 2 ^ Zpos (digits2_pos p).
Proof.
  induction p as [p IH|p IH|]; simpl digits2_pos; [| |simpl; lia].
  all: rewrite Pos2Z.inj_succ;
    replace (Z.succ (Zpos (digits2_pos p)) - 1) with (Z.succ (Zpos (digits2_pos p) - 1)) by lia;
    rewrite !Z.pow_succ_r by lia; lia.
Qed.

Lemma Zdigits2_bounds (m : Z) :
  0 < m -> 2 ^ (Zdigits2 m - 1) <= m < 2 ^ Zdigits2 m.
Proof.
  destruct m as [|p|p]; try lia. intros _. apply digits2_pos_bounds.
Qed.

Lemma Zdigits2_pos (m : Z) : 0 < m -> 0 < Zdigits2 m.
Proof. destruct m; simpl; lia. Qed.

(** The number of bits is fixed by the binade. *)
Lemma Zdigits2_unique (m k : Z) :
  2 ^ (k - 1) <= m < 2 ^ k -> 0 < k -> Zdigits2 m = k.
Proof.
  intros [Hlo Hhi] Hk.
  assert (0 < m) by (pose proof (Z.pow_pos_nonneg 2 (k - 1)); lia).
  pose proof (Zdigits2_bounds m H) as [Dlo Dhi].
  pose proof (Zdigits2_pos m H) as Dpos.
  destruct (Z.lt_trichotomy (Zdigits2 m) k) as [L|[E|G]]; [|exact E|].
  - assert (2 ^ Zdigits2 m <= 2 ^ (k - 1)) by (apply Z.pow_le_mono_r; lia). lia.
  - assert (2 ^ k <= 2 ^ (Zdigits2 m - 1)) by (apply Z.pow_le_mono_r; lia). lia.
Qed.

Lemma Zdigits2_ge (m k : Z) : 0 < k -> 2 ^ (k - 1) <= m -> k <= Zdigits2 m.
Proof.
  intros Hk Hlo.
  assert (0 < m) by (pose proof (Z.pow_pos_nonneg 2 (k - 1)); lia).
  pose proof (Zdigits2_bounds m H) as [_ Dhi].
  destruct (Z.le_gt_cases k (Zdigits2 m)) as [L|G]; [exact L|].
  assert (2 ^ Zdigits2 m <= 2 ^ (k - 1)) by (apply Z.pow_le_mono_r; lia). lia.
Qed.

Lemma Zdigits2_le (m k : Z) : 0 < m -> m < 2 ^ k -> Zdigits2 m <= k.
Proof.
  intros Hm Hhi.
  pose proof (Zdigits2_bounds m Hm) as [Dlo _].
  destruct (Z.le_gt_cases (Zdigits2 m) k) as [L|G]; [exact L|].
  assert (0 <= k) by (destruct k; simpl in Hhi; lia).
  assert (2 ^ k <= 2 ^ (Zdigits2 m - 1)) by (apply Z.pow_le_mono_r; lia). lia.
Qed.

Lemma shr_1_mantissa (mrs : shr_record) :
  0 <= shr_m mrs -> shr_m (shr_1 mrs) = shr_m mrs / 2.
Proof.
  destruct mrs as [m r s]. cbn [shr_m]. intros H.
  destruct m as [|[p|p|]|p]; cbn [shr_1 shr_m]; try lia; try reflexivity.
  - apply Z.div_unique with 1; lia.
  - apply Z.div_unique with 0; lia.
Qed.

Lemma iter_shr_1_mantissa (p : positive) (mrs : shr_record) :
  0 <= shr_m mrs ->
  shr_m (iter_pos shr_1 p mrs) = shr_m mrs / 2 ^ Zpos p.
Proof.
  revert mrs. induction p as [p IH|p IH|]; intros mrs H; simpl iter_pos.
  - assert (0 <= shr_m (shr_1 mrs)) by (rewrite shr_1_mantissa by exact H; apply Z.div_pos; lia).
    assert (0 <= shr_m (iter_pos shr_1 p (shr_1 mrs))) by (rewrite IH by assumption; apply Z.div_pos; lia).
    rewrite IH, IH, shr_1_mantissa by assumption.
    rewrite !Z.div_div by lia. f_equal.
    replace (Zpos p~1) with (1 + Zpos p + Zpos p) by lia.
    rewrite !Z.pow_add_r by lia. change (2 ^ 1) with 2. ring.
  - assert (0 <= shr_m (iter_pos shr_1 p mrs)) by (rewrite IH by assumption; apply Z.div_pos; lia).
    rewrite IH, IH by assumption.
    rewrite !Z.div_div by lia. f_equal.
    replace (Zpos p~0) with (Zpos p + Zpos p) by lia.
    rewrite !Z.pow_add_r by lia. ring.
  - rewrite shr_1_mantissa by exact H. reflexivity.
Qed.

Lemma shr_record_of_loc_mantissa (m : Z) (l : location) :
  shr_m (shr_record_of_loc m l) = m.
Proof. destruct l as [|[]]; reflexivity. Qed.

Lemma round_nearest_even_bounds (m : Z) (l : location) :
  m <= round_nearest_even m l <= m + 1.
Proof. destruct l as [|[]]; simpl; try destruct (Z.even m); lia. Qed.

Lemma shr_mantissa (mrs : shr_record) (e n : Z) :
  0 <= shr_m mrs ->
  shr_m (fst (shr mrs e n)) = shr_m mrs / 2 ^ Z.max 0 n
  /\ snd (shr mrs e n) = e + Z.max 0 n.
Proof.
  intros H. destruct n as [|p|p]; cbn [shr fst snd].
  - change (Z.max 0 0) with 0. rewrite Z.div_1_r. lia.
  - rewrite iter_shr_1_mantissa by exact H.
    replace (Z.max 0 (Zpos p)) with (Zpos p) by lia. lia.
  - replace (Z.max 0 (Zneg p)) with 0 by lia. rewrite Z.div_1_r. lia.
Qed.

Lemma shr_nothing (mrs : shr_record) (e n : Z) : n <= 0 -> shr mrs e n = (mrs, e).
Proof. destruct n; intros H; try reflexivity. lia. Qed.

Lemma iter_xO (m d : positive) : Zpos (Pos.iter xO m d) = Zpos m * 2 ^ Zpos d.
Proof.
  induction d as [|d IH] using Pos.peano_ind.
  - simpl. lia.
  - rewrite Pos.iter_succ, Pos2Z.inj_xO, IH, Pos2Z.inj_succ, Z.pow_succ_r by lia. ring.
Qed.

Lemma shl_align_spec (m : positive) (e e' : Z) :
  e' <= e ->
  Zpos (fst (shl_align m e e')) = Zpos m * 2 ^ (e - e')
  /\ snd (shl_align m e e') = e'.
Proof.
  intros H. unfold shl_align. destruct (e' - e) as [|d|d] eqn:E; cbn [fst snd].
  - replace (e - e') with 0 by lia. simpl. lia.
  - lia.
  - rewrite iter_xO. replace (e - e') with (Zpos d) by lia. lia.
Qed.

Lemma shl_align_nothing (m : positive) (e e' : Z) :
  e <= e' -> shl_align m e e' = (m, e).
Proof.
  intros H. unfold shl_align. destruct (e' - e) eqn:E; try reflexivity. lia.
Qed.

Section Rounding.

Variables prec emax : Z.
Hypothesis prec_pos : 0 < prec.

Lemma shr_fexp_spec (m e : Z) (l : location) :
  0 <= m ->
  shr_m (fst (shr_fexp prec emax m e l))
    = m / 2 ^ Z.max 0 (fexp prec emax (Zdigits2 m + e) - e)
  /\ snd (shr_fexp prec emax m e l)
    = e + Z.max 0 (fexp prec emax (Zdigits2 m + e) - e).
Proof.
  intros H. unfold shr_fexp.
  pose proof (shr_mantissa (shr_record_of_loc m l) e
                (fexp prec emax (Zdigits2 m + e) - e)) as S.
  rewrite shr_record_of_loc_mantissa in S. now apply S.
Qed.

(** Whatever it is given, [binary_round_aux] delivers a value of the
    format: at most [prec] bits, exponent at most [emax - prec]. *)
Lemma binary_round_aux_bounded (sx : bool) (mx ex : Z) (lx : location) :
  0 <= mx ->
  match binary_round_aux prec emax sx mx ex lx with
  | S754_finite s m e => s = sx /\ Zpos m < 2 ^ prec /\ e <= emax - prec
  | S754_nan => False
  | S754_zero s | S754_infinity s => s = sx
  end.
Proof.
  intros H. unfold binary_round_aux.
  pose proof (shr_fexp_spec mx ex lx H) as [Hm1 He1].
  destruct (shr_fexp prec emax mx ex lx) as [mrs' e']. cbn [fst snd] in Hm1, He1.
  pose proof (round_nearest_even_bounds (shr_m mrs') (loc_of_shr_record mrs')) as Hr.
  set (r := round_nearest_even (shr_m mrs') (loc_of_shr_record mrs')) in *.
  assert (0 <= shr_m mrs') by (rewrite Hm1; apply Z.div_pos; [lia|apply Z.pow_pos_nonneg; lia]).
  assert (0 <= r) as Hr0 by lia.
  pose proof (shr_fexp_spec r e' loc_Exact Hr0) as [Hm2 He2].
  destruct (shr_fexp prec emax r e' loc_Exact) as [mrs'' e'']. cbn [fst snd] in Hm2, He2.
  set (n2 := Z.max 0 (fexp prec emax (Zdigits2 r + e') - e')) in *.
  assert (0 < 2 ^ n2) by (apply Z.pow_pos_nonneg; lia).
  destruct (shr_m mrs'') as [|p|p] eqn:Em.
  - reflexivity.
  - destruct (e'' <=? emax - prec) eqn:El; [|reflexivity].
    apply Z.leb_le in El. split; [reflexivity|]. split; [|exact El].
    assert (0 < r).
    { destruct (Z.eq_dec r 0) as [Z|]; [|lia]. rewrite Z in Hm2. now rewrite Z.div_0_l in Hm2 by lia. }
    rewrite Hm2. apply Z.div_lt_upper_bound; [lia|].
    pose proof (Zdigits2_bounds r H2) as [_ Hhi].
    rewrite <- Z.pow_add_r by lia.
    eapply Z.lt_le_trans; [exact Hhi|]. apply Z.pow_le_mono_r; [lia|].
    unfold n2, fexp. lia.
  - assert (0 <= r / 2 ^ n2) by (apply Z.div_pos; lia). lia.
Qed.

(** A mantissa of exactly [prec] bits with an exponent in range is kept. *)
Lemma binary_round_aux_exact (sx : bool) (m : positive) (e : Z) :
  Zdigits2 (Zpos m) = prec ->
  emin prec emax <= e -> e <= emax - prec ->
  binary_round_aux prec emax sx (Zpos m) e loc_Exact = S754_finite sx m e.
Proof.
  intros Hd Hlo Hhi. unfold binary_round_aux, shr_fexp.
  rewrite Hd.
  assert (fexp prec emax (prec + e) - e <= 0) as Hn by (unfold fexp; lia).
  rewrite (shr_nothing _ _ _ Hn). cbn [shr_record_of_loc shr_m loc_of_shr_record round_nearest_even].
  rewrite Hd. rewrite (shr_nothing _ _ _ Hn). cbn [shr_record_of_loc shr_m].
  apply Z.leb_le in Hhi. now rewrite Hhi.
Qed.

(** In the normal range a mantissa of [d >= prec] bits is cut to its
    leading [prec] bits [mx / 2 ^ (d - prec)], or to the next mantissa. *)
Lemma binary_round_aux_normal (sx : bool) (mx ex : Z) (lx : location) :
  0 < mx ->
  prec <= Zdigits2 mx ->
  emin prec emax <= Zdigits2 mx + ex - prec ->
  Zdigits2 mx + ex + 1 <= emax ->
  exists m j,
    binary_round_aux prec emax sx mx ex lx
      = S754_finite sx m (ex + (Zdigits2 mx - prec) + j)
    /\ (j = 0 \/ j = 1)
    /\ mx / 2 ^ (Zdigits2 mx - prec) <= Zpos m * 2 ^ j <= mx / 2 ^ (Zdigits2 mx - prec) + 1
    /\ 2 ^ (prec - 1) <= Zpos m < 2 ^ prec.
Proof.
  intros Hmx Hd Hlo Hhi. set (d := Zdigits2 mx) in *.
  unfold binary_round_aux.
  assert (0 <= mx) as Hmx0 by lia.
  pose proof (shr_fexp_spec mx ex lx Hmx0) as [Hm1 He1].
  destruct (shr_fexp prec emax mx ex lx) as [mrs' e']. cbn [fst snd] in Hm1, He1.
  fold d in Hm1, He1.
  replace (Z.max 0 (fexp prec emax (d + ex) - ex)) with (d - prec) in Hm1, He1
    by (unfold fexp; lia).
  pose proof (Zdigits2_bounds mx Hmx) as [Blo Bhi]. fold d in Blo, Bhi.
  assert (0 < 2 ^ (d - prec)) as Hpow by (apply Z.pow_pos_nonneg; lia).
  assert (2 ^ (prec - 1) <= shr_m mrs' < 2 ^ prec) as [M1lo M1hi].
  { rewrite Hm1. split.
    - apply Z.div_le_lower_bound; [lia|].
      rewrite <- Z.pow_add_r by lia. now replace (d - prec + (prec - 1)) with (d - 1) by lia.
    - apply Z.div_lt_upper_bound; [lia|].
      rewrite <- Z.pow_add_r by lia. now replace (d - prec + prec) with d by lia. }
  pose proof (round_nearest_even_bounds (shr_m mrs') (loc_of_shr_record mrs')) as Hr.
  set (r := round_nearest_even (shr_m mrs') (loc_of_shr_record mrs')) in *.
  assert (0 < 2 ^ (prec - 1)) as Hp1 by (apply Z.pow_pos_nonneg; lia).
  assert (2 ^ prec = 2 * 2 ^ (prec - 1)) as Hp2.
  { replace prec with (Z.succ (prec - 1)) at 1 by lia. apply Z.pow_succ_r. lia. }
  assert (0 <= r) as Hr0 by lia.
  pose proof (shr_fexp_spec r e' loc_Exact Hr0) as [Hm2 He2].
  destruct (shr_fexp prec emax r e' loc_Exact) as [mrs'' e'']. cbn [fst snd] in Hm2, He2.
  destruct (Z.eq_dec r (2 ^ prec)) as [Etop|Ntop].
  - (* the mantissa rounded up to the next binade *)
    assert (Zdigits2 r = prec + 1) as Dr.
    { apply Zdigits2_unique; [|lia]. replace (prec + 1 - 1) with prec by lia.
      rewrite Etop. split; [lia|]. rewrite Z.pow_add_r by lia. simpl. lia. }
    rewrite Dr in Hm2, He2.
    replace (Z.max 0 (fexp prec emax (prec + 1 + e') - e')) with 1 in Hm2, He2
      by (unfold fexp; lia).
    assert (shr_m mrs'' = 2 ^ (prec - 1)) as Em.
    { rewrite Hm2, Etop, Hp2. change (2 ^ 1) with 2. rewrite Z.mul_comm. apply Z.div_mul. lia. }
    rewrite Em. destruct (2 ^ (prec - 1)) as [|m|m] eqn:Epos; try lia.
    exists m, 1. replace (e'' <=? emax - prec) with true by (symmetry; apply Z.leb_le; lia).
    split; [f_equal; lia|]. split; [now right|].
    change (2 ^ 1) with 2. split; lia.
  - assert (Zdigits2 r = prec) as Dr by (apply Zdigits2_unique; lia).
    rewrite Dr in Hm2, He2.
    replace (Z.max 0 (fexp prec emax (prec + e') - e')) with 0 in Hm2, He2
      by (unfold fexp; lia).
    change (2 ^ 0) with 1 in Hm2. rewrite Z.div_1_r in Hm2.
    rewrite Hm2. destruct r as [|m|m] eqn:Epos; try lia.
    exists m, 0. replace (e'' <=? emax - prec) with true by (symmetry; apply Z.leb_le; lia).
    split; [f_equal; lia|]. split; [now left|].
    change (2 ^ 0) with 1. split; lia.
Qed.

(** [binary_round] of a mantissa of at most [prec] bits is exact. *)
Lemma binary_round_small (sx : bool) (mx : positive) (ex : Z) :
  Zdigits2 (Zpos mx) <= prec ->
  emin prec emax <= Zdigits2 (Zpos mx) + ex - prec ->
  Zdigits2 (Zpos mx) + ex <= emax ->
  exists m,
    binary_round prec emax sx mx ex
      = S754_finite sx m (ex - (prec - Zdigits2 (Zpos mx)))
    /\ Zpos m = Zpos mx * 2 ^ (prec - Zdigits2 (Zpos mx)).
Proof.
  intros Hd Hlo Hhi. unfold binary_round.
  change (Zpos (digits2_pos mx)) with (Zdigits2 (Zpos mx)).
  set (d := Zdigits2 (Zpos mx)) in *.
  assert (fexp prec emax (d + ex) = ex - (prec - d)) as Hf by (unfold fexp; lia).
  rewrite Hf.
  pose proof (shl_align_spec mx ex (ex - (prec - d))) as [Hm He]; [lia|].
  destruct (shl_align mx ex (ex - (prec - d))) as [mz ez]. cbn [fst snd] in Hm, He.
  subst ez. replace (ex - (ex - (prec - d))) with (prec - d) in Hm by lia.
  exists mz. split; [|exact Hm].
  apply binary_round_aux_exact; [|lia|lia].
  pose proof (Zdigits2_bounds (Zpos mx) eq_refl) as [Blo Bhi]. fold d in Blo, Bhi.
  assert (0 < d) by (apply Zdigits2_pos; lia).
  assert (0 < 2 ^ (prec - d)) by (apply Z.pow_pos_nonneg; lia).
  apply Zdigits2_unique; [|lia]. rewrite Hm. split.
  - replace (prec - 1) with ((d - 1) + (prec - d)) by lia.
    rewrite Z.pow_add_r by lia. nia.
  - replace prec with (d + (prec - d)) at 2 by lia.
    rewrite Z.pow_add_r by lia. nia.
Qed.

(** [binary_round] of a mantissa of at least [prec] bits rounds it. *)
Lemma binary_round_large (sx : bool) (mx : positive) (ex : Z) :
  prec <= Zdigits2 (Zpos mx) ->
  emin prec emax <= Zdigits2 (Zpos mx) + ex - prec ->
  Zdigits2 (Zpos mx) + ex + 1 <= emax ->
  exists m j,
    binary_round prec emax sx mx ex
      = S754_finite sx m (ex + (Zdigits2 (Zpos mx) - prec) + j)
    /\ (j = 0 \/ j = 1)
    /\ Zpos mx / 2 ^ (Zdigits2 (Zpos mx) - prec) <= Zpos m * 2 ^ j
       <= Zpos mx / 2 ^ (Zdigits2 (Zpos mx) - prec) + 1
    /\ 2 ^ (prec - 1) <= Zpos m < 2 ^ prec.
Proof.
  intros Hd Hlo Hhi. unfold binary_round.
  change (Zpos (digits2_pos mx)) with (Zdigits2 (Zpos mx)).
  rewrite shl_align_nothing by (unfold fexp; lia).
  apply binary_round_aux_normal; auto. reflexivity.
Qed.

End Rounding.

(** ** Division *)

Lemma div_eucl_div_mod (a b : Z) : Z.div_eucl a b = (a / b, a mod b).
Proof. unfold Z.div, Z.modulo. now destruct (Z.div_eucl a b). Qed.

Lemma SFdiv_core_binary_spec (prec emax m1 e1 m2 e2 : Z) :
  SFdiv_core_binary prec emax m1 e1 m2 e2
  = (m1 * 2 ^ (e1 - e2 - Z.min (fexp prec emax (Zdigits2 m1 + e1 - (Zdigits2 m2 + e2))) (e1 - e2)) / m2,
     Z.min (fexp prec emax (Zdigits2 m1 + e1 - (Zdigits2 m2 + e2))) (e1 - e2),
     new_location m2
       (m1 * 2 ^ (e1 - e2 - Z.min (fexp prec emax (Zdigits2 m1 + e1 - (Zdigits2 m2 + e2))) (e1 - e2))
        mod m2)).
Proof.
  unfold SFdiv_core_binary.
  set (e' := Z.min (fexp prec emax (Zdigits2 m1 + e1 - (Zdigits2 m2 + e2))) (e1 - e2)).
  assert (0 <= e1 - e2 - e') as Hs by lia.
  destruct (e1 - e2 - e') as [|s|s] eqn:Es; try lia.
  - rewrite div_eucl_div_mod. change (2 ^ 0) with 1. now rewrite Z.mul_1_r.
  - rewrite Z.shiftl_mul_pow2 by lia. now rewrite div_eucl_div_mod.
Qed.

(** The quotient of anything by a finite value is a value of the format. *)
Lemma SFdiv_representable (prec emax : Z) (x : spec_float)
      (sy : bool) (my : positive) (ey : Z) :
  0 < prec ->
  representable prec emax (SFdiv prec emax x (S754_finite sy my ey)).
Proof.
  intros Hprec. destruct x as [s|s| |s m e]; try exact I.
  unfold SFdiv. rewrite SFdiv_core_binary_spec.
  match goal with
  | |- representable _ _ (binary_round_aux _ _ ?sx ?q ?e ?l) =>
      assert (0 <= q) as Hq by (apply Z.div_pos; [apply Z.mul_nonneg_nonneg; [lia|apply Z.pow_nonneg; lia]|lia]);
      pose proof (binary_round_aux_bounded prec emax Hprec sx q e l Hq) as B;
      destruct (binary_round_aux prec emax sx q e l); try exact I
  end.
  simpl. tauto.
Qed.

(** The conversion of a positive [int] is finite and positive. *)
Lemma F32_of_Z_finite (z : Z) :
  0 < z <= INT_MAX -> exists m e, F32.of_Z z = S754_finite false m e.
Proof.
  intros [Hpos Hmax]. destruct z as [|p|p]; try lia.
  unfold F32.of_Z, binary_normalize.
  assert (Zdigits2 (Zpos p) <= 31) as Hd
    by (apply Zdigits2_le; [lia|unfold INT_MAX in Hmax; lia]).
  pose proof (Zdigits2_pos (Zpos p) eq_refl) as Hd0.
  destruct (Z.le_gt_cases (Zdigits2 (Zpos p)) F32.prec) as [Small|Large].
  - destruct (binary_round_small F32.prec F32.emax eq_refl false p 0) as [m [E _]];
      try (unfold emin, F32.prec, F32.emax in *; lia).
    rewrite E. eauto.
  - destruct (binary_round_large F32.prec F32.emax eq_refl false p 0) as [m [j [E _]]];
      try (unfold emin, F32.prec, F32.emax in *; lia).
    rewrite E. eauto.
Qed.

(** ** CPU lookups *)

Lemma bind_seen {A : Type} (v : Vendor) (k : list IHardware -> M A)
      (w w' : World) (hs : list IHardware) :
  seen_hardware v w = (Ret hs, w') ->
  (Initialize v ;; hs <- computer_Hardware ;; k hs) w = k hs w'.
Proof.
  unfold seen_hardware, bind. destruct (Initialize v w) as [[[]|e] w1]; [|discriminate].
  destruct (computer_Hardware w1) as [[hs1|e] w2]; [|discriminate].
  intros E. now inversion E.
Qed.

Lemma bind_seen_throw {A : Type} (v : Vendor) (k : list IHardware -> M A)
      (w w' : World) (e : string) :
  seen_hardware v w = (Throw e, w') ->
  (Initialize v ;; hs <- computer_Hardware ;; k hs) w = (Throw e, w').
Proof.
  unfold seen_hardware, bind. destruct (Initialize v w) as [[[]|e1] w1].
  - destruct (computer_Hardware w1) as [[hs1|e2] w2]; [discriminate|].
    intros E. now inversion E.
  - intros E. now inversion E.
Qed.

Lemma Ret_inj {A : Type} (a b : A) : Ret a = Ret b -> a = b.
Proof. congruence. Qed.

(** Resolve the name tests of the router for the metric literal [m]. *)
Ltac pick m :=
  repeat match goal with
         | |- context [streq m ?b] =>
             let r := eval vm_compute in (streq m b) in
             change (streq m b) with r
         end;
  cbn iota.

Lemma float_to_int_range (x : spec_float) : INT_MIN <= float_to_int x <= INT_MAX.
Proof.
  unfold float_to_int. destruct (truncate x) as [z|]; [|unfold INT_MIN, INT_MAX; lia].
  destruct (INT_MIN <=? z) eqn:A; destruct (z <=? INT_MAX) eqn:B; simpl;
    try (unfold INT_MIN, INT_MAX; lia).
  apply Z.leb_le in A, B. lia.
Qed.

(** C10 (as amended): when the lookup behind a CPU metric finds its sensor
    and the sensor's value is absent, the default 0 is read and the router
    answers with a valid zero reading: "0" for Load, Power, Temp, Fan_RPM
    and Fan, "0.00" for Clock, followed by the metric's unit when units are
    asked for; never the not-found sentinel, never an "Error reading"
    text. *)
Theorem C10_absent_value_reads_zero
  (cfg : Config) (v : Vendor) (w w' : World) (hs : list IHardware)
  (metricName unit flag : string) (sensor : ISensor) :
  In (metricName, unit) (spec_units CPU) ->
  seen_hardware v w = (Ret hs, w') ->
  found_sensor cfg v metricName hs = Some sensor ->
  Value sensor = None ->
  function1 cfg v metricName flag w
  = (Ret ((if (metricName =? "Clock")%string then "0.00" else "0")
          ++ (if streq flag "1" then unit else ""))%string, w').
Proof.
  intros Hin Hseen Hfound Hvalue. cbn [spec_units In] in Hin.
  repeat (destruct Hin as [Hin|Hin]; [injection Hin as <- <-|]); [..|contradiction].
  - change (found_sensor cfg v "Load" hs) with (scan_cpu v is_cpu_load hs) in Hfound.
    unfold function1. pick "Load". unfold bind at 1. unfold GetCpuLoad.
    rewrite (bind_seen _ _ _ _ _ Hseen), Hfound, Hvalue.
    destruct (streq flag "1"); reflexivity.
  - change (found_sensor cfg v "Power" hs) with (scan_cpu v is_cpu_power hs) in Hfound.
    unfold function1. pick "Power". unfold bind at 1. unfold GetCpuPower.
    rewrite (bind_seen _ _ _ _ _ Hseen), Hfound, Hvalue.
    destruct (streq flag "1"); reflexivity.
  - change (found_sensor cfg v "Temp" hs) with (scan_cpu v is_cpu_temperature hs) in Hfound.
    unfold function1. pick "Temp". unfold bind at 1. unfold GetCpuTemperature.
    rewrite (bind_seen _ _ _ _ _ Hseen), Hfound, Hvalue.
    destruct (streq flag "1"); reflexivity.
  - change (found_sensor cfg v "Fan_RPM" hs)
      with (match fan_in_hardware v (CPU_FAN cfg) 0 hs with
            | inl s => Some s
            | inr _ => None
            end) in Hfound.
    destruct (fan_in_hardware v (CPU_FAN cfg) 0 hs) as [s|n] eqn:Hfan; [|discriminate].
    injection Hfound as ->.
    unfold function1. pick "Fan_RPM". unfold bind at 1. unfold GetCpuFanSpeedRPM.
    rewrite (bind_seen _ _ _ _ _ Hseen), Hfan, Hvalue.
    destruct (streq flag "1"); reflexivity.
  - change (found_sensor cfg v "Fan" hs)
      with (match fan_in_hardware v (CPU_FAN cfg) 0 hs with
            | inl s => Some s
            | inr _ => None
            end) in Hfound.
    destruct (fan_in_hardware v (CPU_FAN cfg) 0 hs) as [s|n] eqn:Hfan; [|discriminate].
    injection Hfound as ->.
    unfold function1. pick "Fan". unfold bind at 1. unfold GetCpuFanSpeed.
    rewrite (bind_seen _ _ _ _ _ Hseen), Hfan, Hvalue.
    destruct (streq flag "1"); reflexivity.
  - change (found_sensor cfg v "Clock" hs) with (scan_cpu v is_cpu_clock hs) in Hfound.
    unfold function1. pick "Clock". unfold bind at 1. unfold GetCpuFrequency.
    rewrite (bind_seen _ _ _ _ _ Hseen), Hfound, Hvalue.
    destruct (streq flag "1"); reflexivity.
Qed.

Lemma C10_absent_value_reads_zero_witness :
  function1 source_config
    (Bench.vendor (Bench.machine None None None) 0 0 0 0 0 1) "Temp" "1" initial_world
  = (Ret "0°C", snd (seen_hardware
       (Bench.vendor (Bench.machine None None None) 0 0 0 0 0 1) initial_world)).
Proof.
  refine (C10_absent_value_reads_zero source_config
            (Bench.vendor (Bench.machine None None None) 0 0 0 0 0 1)
            initial_world _ _ "Temp" "°C" "1" _ _ eq_refl eq_refl eq_refl).
  simpl. tauto.
Defined.

(** C10 as stated fails for Clock: the zero reading of the clock is shown
    with two decimals, "0.00", not "0". *)
Lemma C10_counterexample_clock :
  found_sensor source_config
    (Bench.vendor (Bench.machine None None None) 0 0 0 0 0 1) "Clock"
    (Bench.machine None None None)
  = Some (mkSensor SensorType.Clock "CPU Core #1" None)
  /\ fst (function1 source_config
            (Bench.vendor (Bench.machine None None None) 0 0 0 0 0 1)
            "Clock" "0" initial_world) = Ret "0.00"
  /\ "0.00" <> "0".
Proof.
  split; [reflexivity|]. split; [reflexivity|discriminate].
Qed.

(** ** Numbers, units and error texts *)

Lemma all_chars_append (p : ascii -> bool) (a b : string) :
  all_chars p (a ++ b) = all_chars p a && all_chars p b.
Proof. induction a as [|c a IH]; simpl; [reflexivity|]. now rewrite IH, andb_assoc. Qed.

Lemma all_chars_weaken (p q : ascii -> bool) (s : string) :
  (forall c, p c = true -> q c = true) ->
  all_chars p s = true -> all_chars q s = true.
Proof.
  intros Hpq. induction s as [|c s IH]; simpl; [reflexivity|].
  intros H. apply andb_true_iff in H as [Hc Hs]. now rewrite (Hpq c Hc), IH.
Qed.

Lemma digit_is_number_char (c : ascii) : is_digit c = true -> number_char c = true.
Proof. unfold number_char. now intros ->. Qed.

Lemma ends_with_all_chars (p : ascii -> bool) (s u : string) :
  ends_with s u = true -> all_chars p s = true -> all_chars p u = true.
Proof.
  induction s as [|c s IH]; cbn [ends_with all_chars].
  - rewrite orb_false_r. intros E _. apply String.eqb_eq in E. now subst.
  - intros E H. apply orb_true_iff in E as [E|E].
    + apply String.eqb_eq in E. now subst.
    + apply andb_true_iff in H as [_ H]. now apply IH.
Qed.

(** No unit ends in a digit, a point or a sign: a bare number carries none. *)
Lemma number_has_no_unit (s : string) :
  is_number s = true -> has_unit_suffix s = false.
Proof.
  unfold is_number. intros H.
  repeat (apply orb_true_iff in H as [H|H]);
    try (apply String.eqb_eq in H; subst; reflexivity).
  apply andb_true_iff in H as [_ H].
  unfold has_unit_suffix, spec_unit_suffixes. cbn [existsb].
  repeat match goal with
         | |- context [ends_with s ?u] =>
             let E := fresh "E" in
             destruct (ends_with s u) eqn:E;
             [apply (ends_with_all_chars number_char) in E; [discriminate E|exact H]|]
         end.
  reflexivity.
Qed.

Lemma is_number_chars (s : string) :
  s <> "" -> all_chars number_char s = true -> is_number s = true.
Proof.
  intros Hne H. unfold is_number. rewrite H.
  replace (s =? "")%string with false by (symmetry; now apply String.eqb_neq).
  simpl. now rewrite !orb_true_r.
Qed.

Lemma decimal_is_number (z : Z) : is_number (decimal z) = true.
Proof.
  apply is_number_chars; [apply decimal_nonempty|].
  apply all_chars_weaken with is_digit; [exact digit_is_number_char|].
  apply decimal_all_digits.
Qed.

Lemma zeros_number (n : nat) : all_chars number_char (zeros n) = true.
Proof. induction n; simpl; auto. Qed.

Lemma zeros_length (n : nat) : String.length (zeros n) = n.
Proof. induction n; simpl; congruence. Qed.

Lemma sign_text_number (s : bool) : all_chars number_char (sign_text s) = true.
Proof. now destruct s. Qed.

Lemma sign_text_length (s : bool) : (String.length (sign_text s) <= 1)%nat.
Proof. destruct s; simpl; lia. Qed.

Lemma decimal_number_chars (z : Z) : all_chars number_char (decimal z) = true.
Proof.
  apply all_chars_weaken with is_digit; [exact digit_is_number_char|].
  apply decimal_all_digits.
Qed.

Lemma append_nonempty_r (a b : string) : b <> "" -> (a ++ b)%string <> "".
Proof. destruct a; simpl; [auto|discriminate]. Qed.

(** What [%.Nf] prints is a bare number. *)
Lemma fixed_is_number (d : nat) (x : spec_float) : is_number (fixed d x) = true.
Proof.
  destruct x as [s|s| |s m e]; cbn [fixed].
  - apply is_number_chars; [apply append_nonempty_r; discriminate|].
    rewrite all_chars_append, sign_text_number. cbn. apply zeros_number.
  - now destruct s.
  - reflexivity.
  - apply is_number_chars.
    + apply append_nonempty_r, append_nonempty_r. discriminate.
    + unfold pad_left.
      rewrite !all_chars_append, sign_text_number, !decimal_number_chars, zeros_number.
      reflexivity.
Qed.

Lemma round_half_even_bounds (num den : Z) :
  num / den <= round_half_even num den <= num / den + 1.
Proof.
  unfold round_half_even. destruct (2 * (num mod den) ?= den);
    try destruct (Z.even (num / den)); lia.
Qed.

Lemma pad_left_length (d : nat) (s : string) :
  (String.length (pad_left d s) <= d + String.length s)%nat.
Proof. unfold pad_left. rewrite length_append, zeros_length. lia. Qed.

(** A binary32 value prints in fewer than 150 characters. *)
Lemma fixed_length (d : nat) (x : spec_float) :
  (d <= 2)%nat -> representable F32.prec F32.emax x ->
  (String.length (fixed d x) <= 150)%nat.
Proof.
  intros Hd Hx. destruct x as [s|s| |s m e]; cbn [fixed].
  - rewrite length_append. pose proof (sign_text_length s). simpl.
    rewrite zeros_length. lia.
  - destruct s; simpl; lia.
  - simpl. lia.
  - destruct Hx as [Hm He]. unfold F32.prec, F32.emax in *.
    set (scale := 10 ^ Z.of_nat d).
    assert (1 <= scale <= 100) as Hscale.
    { subst scale. destruct d as [|[|[|d]]]; simpl; lia. }
    match goal with
    | |- context [decimal (?n / scale)] => set (num := n)
    end.
    assert (0 <= num /\ num / scale < 2 ^ 128) as [Hn0 Hn].
    { subst num. destruct e as [|p|p].
      - split; [lia|]. rewrite Z.div_mul by lia. lia.
      - assert (0 < 2 ^ Zpos p) by (apply Z.pow_pos_nonneg; lia).
        assert (2 ^ Zpos p <= 2 ^ 104) by (apply Z.pow_le_mono_r; lia).
        split; [nia|]. rewrite Z.div_mul by lia.
        change (2 ^ 128) with (2 ^ 24 * 2 ^ 104). nia.
      - assert (0 < 2 ^ Zpos p) by (apply Z.pow_pos_nonneg; lia).
        pose proof (round_half_even_bounds (Zpos m * scale) (2 ^ Zpos p)) as [Rlo Rhi].
        assert (0 <= Zpos m * scale / 2 ^ Zpos p) by (apply Z.div_pos; nia).
        assert (Zpos m * scale / 2 ^ Zpos p <= Zpos m * scale)
          by (apply Z.div_le_upper_bound; nia).
        split; [lia|]. apply Z.div_lt_upper_bound; [lia|]. nia. }
    assert (0 <= num / scale) by (apply Z.div_pos; lia).
    pose proof (decimal_length (num / scale) 128 eq_refl (conj H Hn)) as L1.
    assert (0 <= num mod scale < 2 ^ 7) as Hfrac
      by (pose proof (Z.mod_pos_bound num scale); lia).
    pose proof (decimal_length (num mod scale) 7 eq_refl Hfrac) as L2.
    pose proof (pad_left_length d (decimal (num mod scale))) as L3.
    pose proof (sign_text_length s) as L4.
    rewrite !length_append. simpl String.length.
    change (Z.to_nat 128) with 128%nat in L1. change (Z.to_nat 7) with 7%nat in L2.
    lia.
Qed.

Lemma F32_div_representable (x : spec_float) (z : Z) :
  0 < z <= INT_MAX -> representable F32.prec F32.emax (F32.div x (F32.of_Z z)).
Proof.
  intros Hz. destruct (F32_of_Z_finite z Hz) as [m [e ->]].
  now apply SFdiv_representable.
Qed.

(** The ways the router prints a clock or an amount of memory. *)
Lemma reply_fixed (d : nat) (c : ascii) (x : spec_float) (suffix : string) :
  (d <= 2)%nat -> digit_of c = Some d ->
  representable F32.prec F32.emax x ->
  format suffix [] = suffix ->
  (String.length suffix <= 100)%nat ->
  snprintf tempStr_size (String "%" (String "." (String c (String "f" suffix))))
           [ArgDouble x]
  = (fixed d x ++ suffix)%string.
Proof.
  intros Hd Hc Hx Hfmt Hlen.
  assert (format (String "%" (String "." (String c (String "f" suffix)))) [ArgDouble x]
          = (fixed d x ++ suffix)%string) as E.
  { cbn [format]. rewrite Hc. f_equal. exact Hfmt. }
  rewrite snprintf_fits; [exact E|].
  rewrite E, length_append. pose proof (fixed_length d x Hd Hx). lia.
Qed.

Lemma flag_law_number (unit p : string) :
  is_number p = true -> flag_law unit (Ret p) (Ret (p ++ unit)%string).
Proof.
  intros H. left. split; [exact H|]. split; [now apply number_has_no_unit|reflexivity].
Qed.

Lemma flag_law_text (unit p : string) :
  is_error_text p = true -> is_number p = false -> flag_law unit (Ret p) (Ret p).
Proof. intros H N. right. now repeat split. Qed.

(** An integer reading under the two flags. *)
Lemma flag_law_unsigned (n : Z) (unit fmt : string) :
  snprintf tempStr_size fmt [ArgInt n] = (decimal (uint n) ++ unit)%string ->
  flag_law unit (Ret (snprintf tempStr_size "%u" [ArgInt n]))
                (Ret (snprintf tempStr_size fmt [ArgInt n])).
Proof.
  intros E. rewrite E, reply_plain. apply flag_law_number, decimal_is_number.
Qed.

(** A clock or memory reading under the two flags. *)
Lemma flag_law_fixed (d : nat) (c : ascii) (x : spec_float) (unit : string) :
  (d <= 2)%nat -> digit_of c = Some d ->
  representable F32.prec F32.emax x ->
  format unit [] = unit ->
  (String.length unit <= 100)%nat ->
  flag_law unit
    (Ret (snprintf tempStr_size (String "%" (String "." (String c "f"))) [ArgDouble x]))
    (Ret (snprintf tempStr_size (String "%" (String "." (String c (String "f" unit))))
                   [ArgDouble x])).
Proof.
  intros Hd Hc Hx Hfmt Hlen.
  rewrite (reply_fixed d c x unit), (reply_fixed d c x "") by (auto; simpl; lia).
  rewrite append_empty_r. apply flag_law_number, fixed_is_number.
Qed.

(** An error text under the two flags: the formats of the error branches
    start with literal text, which decides both tests. *)
Ltac error_text := apply flag_law_text; reflexivity.

Ltac flags :=
  change (streq "0" "1") with false; change (streq "1" "1") with true; cbn iota.

(** An integer CPU metric: the lookup result [r] is shown or refused. *)
Ltac cpu_integer r reply :=
  unfold bind; destruct r as [[n|e] w1]; cbn [fst]; [|reflexivity];
  destruct (n <? 0); unfold ret; cbn [fst];
  [error_text | apply flag_law_unsigned, reply].

Lemma function1_flag_law (cfg : Config) (v : Vendor) (w : World)
      (metricName unit : string) :
  In (metricName, unit) (spec_units CPU) ->
  flag_law unit (fst (function1 cfg v metricName "0" w))
                (fst (function1 cfg v metricName "1" w)).
Proof.
  intros Hin. cbn [spec_units In] in Hin.
  repeat (destruct Hin as [Hin|Hin]; [injection Hin as <- <-|]); [..|contradiction].
  - unfold function1. pick "Load". flags.
    cpu_integer (GetCpuLoad v w) reply_percent.
  - unfold function1. pick "Power". flags.
    cpu_integer (GetCpuPower v w) reply_watt.
  - unfold function1. pick "Temp". flags.
    cpu_integer (GetCpuTemperature v w) reply_celsius.
  - unfold function1. pick "Fan_RPM". flags.
    cpu_integer (GetCpuFanSpeedRPM v (CPU_FAN cfg) (CPU_SPEED cfg) w) reply_rpm.
  - unfold function1. pick "Fan". flags.
    cpu_integer (GetCpuFanSpeed v (CPU_FAN cfg) (CPU_SPEED cfg) w) reply_percent.
  - unfold function1. pick "Clock". flags.
    unfold bind. destruct (GetCpuFrequency v w) as [[clock|e] w1]; cbn [fst]; [|reflexivity].
    destruct (flt clock (F32.of_Z 0)); unfold ret; cbn [fst].
    + error_text.
    + apply (flag_law_fixed 2 "2" _ "GHz"); try reflexivity; try (simpl; lia).
      apply F32_div_representable. unfold INT_MAX. lia.
Qed.

(** A GPU metric behind the gate: the status [q] of its query decides. *)
Ltac gpu_query q :=
  destruct q as [r x]; destruct (r =? NVML_SUCCESS); cbn [negb fst];
  [|error_text].

Lemma function2_flag_law (v : Vendor) (w : World) (metricName unit : string) :
  In (metricName, unit) (spec_units GPU) ->
  flag_law unit (fst (function2 v metricName "0" w))
                (fst (function2 v metricName "1" w)).
Proof.
  intros Hin.
  unfold function2, checkNvmlInitialized, bind, get_nvmlInitialized, ret.
  destruct (nvmlInitialized w); cbn [negb fst];
    [|error_text].
  destruct (nvmlDeviceGetHandleByIndex v 0) as [result device].
  destruct (result =? NVML_SUCCESS); cbn [negb fst];
    [|error_text].
  flags. cbn [spec_units In] in Hin.
  repeat (destruct Hin as [Hin|Hin]; [injection Hin as <- <-|]); [..|contradiction].
  - pick "Load". gpu_query (nvmlDeviceGetUtilizationRates v device).
    apply flag_law_unsigned, reply_percent.
  - pick "Power". gpu_query (nvmlDeviceGetPowerUsage v device).
    apply flag_law_unsigned, reply_watt.
  - pick "Temp". gpu_query (nvmlDeviceGetTemperature v device NVML_TEMPERATURE_GPU).
    apply flag_law_unsigned, reply_celsius.
  - pick "Fan". gpu_query (nvmlDeviceGetFanSpeed v device).
    apply flag_law_unsigned, reply_percent.
  - pick "Clock". gpu_query (nvmlDeviceGetClock v device NVML_CLOCK_GRAPHICS NVML_CLOCK_ID_CURRENT).
    apply (flag_law_fixed 2 "2" _ "GHz"); try reflexivity; try (simpl; lia).
    apply F32_div_representable. unfold INT_MAX. lia.
  - pick "Mem_Clock". gpu_query (nvmlDeviceGetClock v device NVML_CLOCK_MEM NVML_CLOCK_ID_CURRENT).
    apply (flag_law_fixed 2 "2" _ "GHz"); try reflexivity; try (simpl; lia).
    apply F32_div_representable. unfold INT_MAX. lia.
  - pick "Mem_Alloc". gpu_query (nvmlDeviceGetMemoryInfo v device).
    apply (flag_law_fixed 1 "1" _ "Gb"); try reflexivity; try (simpl; lia).
    apply F32_div_representable. unfold INT_MAX. lia.
  - pick "Mem_Usage". gpu_query (nvmlDeviceGetMemoryInfo v device).
    destruct (ullong (total x) =? 0); cbn [fst]; [reflexivity|].
    apply flag_law_unsigned, reply_percent.
Qed.

(** Resolve the tests of a metric literal against the names. *)
Ltac names :=
  repeat match goal with
         | |- context [String.eqb ?a ?b] =>
             let r := eval vm_compute in (String.eqb a b) in
             change (String.eqb a b) with r
         end;
  cbn iota.

Ltac not_a_number :=
  intros p Hp; apply Ret_inj in Hp; subst p; reflexivity.

Ltac cpu_number r :=
  unfold bind; destruct r as [[n|e] w1]; cbn [fst];
  [|intros p Hp; discriminate Hp];
  destruct (Z.ltb_spec n 0); destruct (Z.leb_spec 0 n); try lia; unfold ret; cbn [fst];
  [not_a_number
  |eexists; split; [reflexivity|rewrite reply_plain; apply decimal_is_number]].

Lemma function1_number (cfg : Config) (v : Vendor) (w : World)
      (metricName unit : string) :
  In (metricName, unit) (spec_units CPU) ->
  number_when_succeeds (reading_succeeds cfg CPU v metricName w)
                       (fst (function1 cfg v metricName "0" w)).
Proof.
  intros Hin. cbn [spec_units In] in Hin.
  repeat (destruct Hin as [Hin|Hin]; [injection Hin as <- <-|]); [..|contradiction];
    unfold number_when_succeeds, reading_succeeds, cpu_lookup; names; cbv zeta.
  - unfold function1. pick "Load". flags. cpu_number (GetCpuLoad v w).
  - unfold function1. pick "Power". flags. cpu_number (GetCpuPower v w).
  - unfold function1. pick "Temp". flags. cpu_number (GetCpuTemperature v w).
  - unfold function1. pick "Fan_RPM". flags.
    cpu_number (GetCpuFanSpeedRPM v (CPU_FAN cfg) (CPU_SPEED cfg) w).
  - unfold function1. pick "Fan". flags.
    cpu_number (GetCpuFanSpeed v (CPU_FAN cfg) (CPU_SPEED cfg) w).
  - unfold function1. pick "Clock". flags.
    unfold bind. destruct (GetCpuFrequency v w) as [[clock|e] w1]; cbn [fst];
      [|intros p Hp; discriminate Hp].
    destruct (flt clock (F32.of_Z 0)); unfold ret; cbn [fst negb]; [not_a_number|].
    eexists. split; [reflexivity|].
    rewrite (reply_fixed 2 "2" _ "") by
      (try reflexivity; try (simpl; lia);
       apply F32_div_representable; unfold INT_MAX; lia).
    rewrite append_empty_r. apply fixed_is_number.
Qed.

(** A GPU metric behind the gate: the query [q] fails, or its value is
    printed. *)
Ltac gpu_number q :=
  destruct q as [r x]; cbn [fst snd]; destruct (r =? NVML_SUCCESS);
  cbn [negb andb orb fst]; [|not_a_number].

Lemma function2_number (cfg : Config) (v : Vendor) (w : World)
      (metricName unit : string) :
  In (metricName, unit) (spec_units GPU) ->
  number_when_succeeds (reading_succeeds cfg GPU v metricName w)
                       (fst (function2 v metricName "0" w)).
Proof.
  intros Hin.
  unfold number_when_succeeds, reading_succeeds, gpu_ready.
  unfold function2, checkNvmlInitialized, bind, get_nvmlInitialized, ret.
  destruct (nvmlInitialized w); cbn [negb andb fst]; [|not_a_number].
  destruct (nvmlDeviceGetHandleByIndex v 0) as [result device]. cbn [fst snd].
  destruct (result =? NVML_SUCCESS); cbn [negb andb fst]; [|not_a_number].
  flags. cbn [spec_units In] in Hin.
  repeat (destruct Hin as [Hin|Hin]; [injection Hin as <- <-|]); [..|contradiction];
    unfold gpu_query_status; names; cbn [orb andb negb].
  - pick "Load". gpu_number (nvmlDeviceGetUtilizationRates v device).
    eexists. split; [reflexivity|]. rewrite reply_plain. apply decimal_is_number.
  - pick "Power". gpu_number (nvmlDeviceGetPowerUsage v device).
    eexists. split; [reflexivity|]. rewrite reply_plain. apply decimal_is_number.
  - pick "Temp". gpu_number (nvmlDeviceGetTemperature v device NVML_TEMPERATURE_GPU).
    eexists. split; [reflexivity|]. rewrite reply_plain. apply decimal_is_number.
  - pick "Fan". gpu_number (nvmlDeviceGetFanSpeed v device).
    eexists. split; [reflexivity|]. rewrite reply_plain. apply decimal_is_number.
  - pick "Clock".
    gpu_number (nvmlDeviceGetClock v device NVML_CLOCK_GRAPHICS NVML_CLOCK_ID_CURRENT).
    eexists. split; [reflexivity|].
    rewrite (reply_fixed 2 "2" _ "") by
      (try reflexivity; try (simpl; lia);
       apply F32_div_representable; unfold INT_MAX; lia).
    rewrite append_empty_r. apply fixed_is_number.
  - pick "Mem_Clock".
    gpu_number (nvmlDeviceGetClock v device NVML_CLOCK_MEM NVML_CLOCK_ID_CURRENT).
    eexists. split; [reflexivity|].
    rewrite (reply_fixed 2 "2" _ "") by
      (try reflexivity; try (simpl; lia);
       apply F32_div_representable; unfold INT_MAX; lia).
    rewrite append_empty_r. apply fixed_is_number.
  - pick "Mem_Alloc". gpu_number (nvmlDeviceGetMemoryInfo v device).
    eexists. split; [reflexivity|].
    rewrite (reply_fixed 1 "1" _ "") by
      (try reflexivity; try (simpl; lia);
       apply F32_div_representable; unfold INT_MAX; lia).
    rewrite append_empty_r. apply fixed_is_number.
  - pick "Mem_Usage". gpu_number (nvmlDeviceGetMemoryInfo v device).
    destruct (ullong (total x) =? 0); cbn [negb fst].
    + intros p Hp. discriminate Hp.
    + eexists. split; [reflexivity|]. rewrite reply_plain. apply decimal_is_number.
Qed.

(** C2 (as amended): for every metric that has a unit - every supported
    metric but the GPU "Limit" - and every answer of the backend.  When the
    reading succeeds ([reading_succeeds]: the CPU lookup returns a value
    that is not negative; NVML is initialized and the handle and the query
    are obtained, with a total that is not 0 for "Mem_Usage"), the answer
    to the flag "0" is a bare number that ends in no unit, and the answer
    to "1" is that number followed by the metric's fixed unit.  When it
    does not, the two answers are one error text, with nothing appended,
    or the call leaves by the same exception.  In either case the answers
    are related by [flag_law]. *)
Theorem C2_unit_suffix
  (cfg : Config) (d : Domain) (v : Vendor) (w : World) (metricName unit : string) :
  In (metricName, unit) (spec_units d) ->
  let plain := fst (queryMetric cfg d v metricName "0" w) in
  let shown := fst (queryMetric cfg d v metricName "1" w) in
  flag_law unit plain shown
  /\ (reading_succeeds cfg d v metricName w = true ->
      exists p, plain = Ret p /\ is_number p = true /\ has_unit_suffix p = false
                /\ shown = Ret (p ++ unit)%string)
  /\ (reading_succeeds cfg d v metricName w = false ->
      shown = plain
      /\ forall p, plain = Ret p -> is_error_text p = true /\ is_number p = false).
Proof.
  intros Hin plain shown.
  assert (flag_law unit plain shown) as Hlaw.
  { subst plain shown. destruct d; cbn [queryMetric].
    - now apply function1_flag_law.
    - now apply function2_flag_law. }
  assert (number_when_succeeds (reading_succeeds cfg d v metricName w) plain) as Hnum.
  { subst plain. destruct d; cbn [queryMetric].
    - now apply function1_number with unit.
    - now apply function2_number with unit. }
  split; [exact Hlaw|]. unfold number_when_succeeds in Hnum. split.
  - intros Hs. rewrite Hs in Hnum. destruct Hnum as [p [Hp Hn]].
    exists p. rewrite Hp in Hlaw. unfold flag_law in Hlaw.
    destruct shown as [s|e]; [|contradiction].
    destruct Hlaw as [[_ [Hu ->]]|[_ [Hn' _]]]; [auto|congruence].
  - intros Hs. rewrite Hs in Hnum. unfold flag_law in Hlaw.
    destruct plain as [p|e], shown as [s|e']; try contradiction.
    + specialize (Hnum p eq_refl).
      destruct Hlaw as [[Hn' _]|[He [_ ->]]]; [congruence|].
      split; [reflexivity|]. intros p' Hp'. apply Ret_inj in Hp'. subst p'. auto.
    + subst e'. split; [reflexivity|]. intros p Hp. discriminate Hp.
Qed.

Lemma C2_unit_suffix_witness :
  (exists p, fst (function2 Bench.healthy "Power" "0" (Bench.started Bench.healthy)) = Ret p
             /\ is_number p = true /\ has_unit_suffix p = false
             /\ fst (function2 Bench.healthy "Power" "1" (Bench.started Bench.healthy))
                = Ret (p ++ "W")%string)
  /\ flag_law "GHz" (Ret "3.70") (Ret "3.70GHz").
Proof.
  split.
  - refine (proj1 (proj2 (C2_unit_suffix source_config GPU Bench.healthy
              (Bench.started Bench.healthy) "Power" "W" _)) eq_refl).
    simpl. tauto.
  - refine (proj1 (C2_unit_suffix source_config CPU Bench.healthy
              (Bench.started Bench.healthy) "Clock" "GHz" _)).
    simpl. tauto.
Defined.

(** C2 as stated fails for the GPU "Limit" metric: it is supported, its
    query succeeds, the flag is "1", and the answer carries no unit. *)
Lemma C2_counterexample_limit :
  In "Limit" (spec_metrics GPU)
  /\ fst (function2 (Bench.vendor Bench.healthy_machine 0 0 90000 4 1 2) "Limit" "1"
            (Bench.started Bench.healthy)) = Ret "!"
  /\ has_unit_suffix "!" = false.
Proof.
  split; [simpl; tauto|]. split; reflexivity.
Qed.

(** A sensor that is found and reads below zero is answered as one that is
    not found: a temperature of -5 gives the error text, under either
    flag. *)
Example negative_reading_is_refused :
  found_sensor source_config
    (Bench.vendor (Bench.machine (Some (F32.of_Z (-5))) None None) 0 0 0 0 0 1) "Temp"
    (Bench.machine (Some (F32.of_Z (-5))) None None)
  = Some (mkSensor SensorType.Temperature "CPU Package" (Some (F32.of_Z (-5))))
  /\ fst (function1 source_config
            (Bench.vendor (Bench.machine (Some (F32.of_Z (-5))) None None) 0 0 0 0 0 1)
            "Temp" "1" initial_world) = Ret "Error reading CPU Temp"
  /\ fst (function1 source_config
            (Bench.vendor (Bench.machine (Some (F32.of_Z (-5))) None None) 0 0 0 0 0 1)
            "Temp" "0" initial_world) = Ret "Error reading CPU Temp".
Proof. repeat split; vm_compute; reflexivity. Qed.

(* ================================================================= *)
(** ** The GPU power in watts

    [power / 1000.0 + 0.5] is computed in binary64 and cut to an integer.
    The two roundings move the value by less than [2 ^ -28], and they keep
    a half-integer quotient exact, so the integer part is that of the exact
    [(power + 500) / 1000]. *)

Lemma pow2_pos (n : Z) : 0 <= n -> 0 < 2 ^ n.
Proof. intros. apply Z.pow_pos_nonneg; lia. Qed.

Lemma pow2_split (a b : Z) : 0 <= a -> 0 <= b -> 2 ^ (a + b) = 2 ^ a * 2 ^ b.
Proof. intros. apply Z.pow_add_r; lia. Qed.

Lemma F64_of_Z_small (p : Z) :
  0 < p < 2 ^ 53 ->
  exists m, F64.of_Z p = S754_finite false m (Zdigits2 p - 53)
            /\ Zpos m = p * 2 ^ (53 - Zdigits2 p).
Proof.
  intros [Hpos Hmax]. destruct p as [|p|p]; try lia.
  unfold F64.of_Z, binary_normalize.
  assert (Zdigits2 (Zpos p) <= 53) as Hd by (apply Zdigits2_le; lia).
  pose proof (Zdigits2_pos (Zpos p) eq_refl) as Hd0.
  destruct (binary_round_small F64.prec F64.emax eq_refl false p 0) as [m [E Hm]];
    try (unfold emin, F64.prec, F64.emax in *; lia).
  exists m. unfold F64.prec in *. split; [|exact Hm].
  rewrite E. f_equal. lia.
Qed.


Lemma F64_div_1000 (p : Z) :
  0 < p < 2 ^ 32 ->
  exists my ey,
    F64.div (F64.of_Z p) (F64.of_Z 1000) = S754_finite false my ey
    /\ 2 ^ 52 <= Zpos my < 2 ^ 53
    /\ -62 <= ey
    /\ p * 2 ^ 62 - 2 ^ 42 <= 1000 * (Zpos my * 2 ^ (ey + 62)) <= p * 2 ^ 62 + 2 ^ 42
    /\ ((p + 500) mod 1000 = 0 -> p * 2 ^ 62 <= 1000 * (Zpos my * 2 ^ (ey + 62))).
Proof.
  intros Hp.
  destruct (F64_of_Z_small p) as [m1 [Hx Hm1]]; [lia|].
  set (d := Zdigits2 p) in *.
  assert (1 <= d <= 32) as Hd.
  { split; [pose proof (Zdigits2_pos p); lia|apply Zdigits2_le; lia]. }
  pose proof (Zdigits2_bounds p (proj1 Hp)) as [Plo Phi]. fold d in Plo, Phi.
  set (a := 2 ^ (63 - d)).
  set (A := 2 ^ (d - 1)).
  assert (0 < a) as Ha by (apply pow2_pos; lia).
  assert (0 < A) as HA by (apply pow2_pos; lia).
  assert (a * A = 2 ^ 62) as HaA.
  { unfold a, A. rewrite <- pow2_split by lia. f_equal. lia. }
  assert (A <= 2 ^ 31) as HA31 by (apply Z.pow_le_mono_r; lia).
  assert (2 ^ d = 2 * A) as HdA.
  { unfold A. replace d with (1 + (d - 1)) at 1 by lia. now rewrite pow2_split by lia. }
  assert (2 ^ 62 <= p * a < 2 ^ 63) as [PAlo PAhi] by nia.
  assert (Zpos m1 * 2 ^ 53 = (p * a) * 2 ^ 43) as Hnum.
  { rewrite Hm1. unfold a. replace (63 - d) with ((53 - d) + 10) by lia.
    rewrite pow2_split by lia. lia. }
  assert (Zdigits2 (Zpos m1) = 53) as Hd1.
  { apply Zdigits2_unique; [|lia]. rewrite Hm1.
    assert (2 ^ (53 - d) * 2 ^ 10 = a) as E.
    { unfold a. rewrite <- pow2_split by lia. f_equal. lia. }
    change (2 ^ 10) with 1024 in E. lia. }
  rewrite Hx.
  change (F64.of_Z 1000) with (S754_finite false 8796093022208000 (-43)).
  unfold F64.div, SFdiv. rewrite SFdiv_core_binary_spec. rewrite Hd1.
  change (Zdigits2 8796093022208000) with 53.
  replace (Z.min (fexp F64.prec F64.emax (53 + (d - 53) - (53 + -43))) (d - 53 - -43))
    with (d - 63) by (unfold fexp, emin, F64.prec, F64.emax; lia).
  replace (d - 53 - -43 - (d - 63)) with 53 by lia.
  rewrite Hnum. change 8796093022208000 with (1000 * 2 ^ 43).
  rewrite Z.div_mul_cancel_r by lia.
  set (q := p * a / 1000).
  assert (1000 * q <= p * a < 1000 * q + 1000) as [Qlo Qhi].
  { unfold q. pose proof (Z.div_mod (p * a) 1000). pose proof (Z.mod_pos_bound (p * a) 1000). lia. }
  assert (2 ^ 52 <= q < 2 ^ 54) as [Q52 Q54] by lia.
  assert (53 <= Zdigits2 q <= 54) as Hdq.
  { split; [apply Zdigits2_ge; lia|apply Zdigits2_le; lia]. }
  match goal with
  | |- context [binary_round_aux _ _ _ q _ ?l] =>
      destruct (binary_round_aux_normal F64.prec F64.emax eq_refl false q (d - 63) l)
        as [my [j [E [Hj [HM Hmy]]]]]
  end; try (unfold emin, F64.prec, F64.emax in *; lia).
  exists my, (d - 63 + (Zdigits2 q - F64.prec) + j).
  split; [exact E|]. unfold F64.prec in *. split; [exact Hmy|].
  split; [lia|].
  set (n := Zdigits2 q - 53) in *.
  replace (d - 63 + n + j + 62) with (j + (n + (d - 1))) by lia.
  assert (0 <= n <= 1) as Hn by lia.
  rewrite !pow2_split by lia. fold A.
  set (b := 2 ^ n) in *. set (J := 2 ^ j) in *.
  assert (b = 1 \/ b = 2) as Hb.
  { unfold b. assert (n = 0 \/ n = 1) as [->| ->] by lia; auto. }
  set (M := Zpos my * J) in *.
  replace (Zpos my * (J * (b * A))) with (M * b * A) by (unfold M; ring).
  assert (b * (q / b) <= q < b * (q / b) + b) as [Dlo Dhi].
  { pose proof (Z.div_mod q b). pose proof (Z.mod_pos_bound q b). lia. }
  set (q1 := q / b) in *.
  assert (q - b + 1 <= M * b <= q + b) as [Mlo Mhi] by (clear - HM Dlo Dhi Hb; nia).
  assert (b * A <= 2 * A) as HbA by (clear - Hb HA; nia).
  assert (p * 2 ^ 62 = p * a * A) as HpT by (rewrite <- HaA; ring).
  split; [split|].
  - pose proof (Z.mul_le_mono_nonneg_r _ _ A (Z.lt_le_incl _ _ HA) Mlo) as H1.
    assert (p * a <= 1000 * q + 999) as Qhi' by lia.
    pose proof (Z.mul_le_mono_nonneg_r _ _ A (Z.lt_le_incl _ _ HA) Qhi') as H2.
    rewrite HpT. clear - H1 H2 HbA HA31. lia.
  - pose proof (Z.mul_le_mono_nonneg_r _ _ A (Z.lt_le_incl _ _ HA) Mhi) as H1.
    pose proof (Z.mul_le_mono_nonneg_r _ _ A (Z.lt_le_incl _ _ HA) Qlo) as H2.
    rewrite HpT. clear - H1 H2 HbA HA31. lia.
  - intros Hexact.
    assert (exists k, p + 500 = 1000 * k) as [k Hk].
    { exists ((p + 500) / 1000). pose proof (Z.div_mod (p + 500) 1000). lia. }
    set (h := 2 ^ (61 - d)).
    assert (0 < h) by (apply pow2_pos; lia).
    assert (a = 4 * h) as Hah.
    { unfold a, h. replace (63 - d) with (2 + (61 - d)) by lia. now rewrite pow2_split by lia. }
    assert (p * a = (2 * k - 1) * (2 * h) * 1000) as Hpa
      by (rewrite Hah; replace p with (1000 * k - 500) by lia; ring).
    assert (q = (2 * k - 1) * (2 * h)) as Hq.
    { unfold q. rewrite Hpa. apply Z.div_mul. lia. }
    assert (b * q1 = q) as Hq1.
    { unfold q1. destruct Hb as [Hb|Hb]; rewrite Hb.
      - rewrite Z.div_1_r. lia.
      - rewrite Hq. replace ((2 * k - 1) * (2 * h)) with ((2 * k - 1) * h * 2) by ring.
        rewrite Z.div_mul by lia. ring. }
    assert (q <= M * b) as HqM.
    { rewrite <- Hq1, (Z.mul_comm M b). apply Z.mul_le_mono_nonneg_l; lia. }
    pose proof (Z.mul_le_mono_nonneg_r _ _ A (Z.lt_le_incl _ _ HA) HqM) as H1.
    rewrite HpT, Hpa, <- Hq. clear - H1. lia.
Qed.

Lemma F64_add_half (my : positive) (ey : Z) :
  2 ^ 52 <= Zpos my < 2 ^ 53 ->
  -62 <= ey <= -30 ->
  exists mw ew U,
    F64.add (S754_finite false my ey) F64.half = S754_finite false mw ew
    /\ 2 ^ 52 <= Zpos mw
    /\ -62 <= ew
    /\ 0 < U
    /\ 2 ^ 52 * U <= Zpos mw * 2 ^ (ew + 62)
    /\ Zpos my * 2 ^ (ey + 62) + 2 ^ 61 - U < Zpos mw * 2 ^ (ew + 62)
       <= Zpos my * 2 ^ (ey + 62) + 2 ^ 61 + U
    /\ (forall c, 0 <= c -> c * 2 ^ 62 <= Zpos my * 2 ^ (ey + 62) + 2 ^ 61 ->
                  c * 2 ^ 62 <= Zpos mw * 2 ^ (ew + 62)).
Proof.
  intros Hmy Hey.
  change F64.half with (S754_finite false 4503599627370496 (-53)).
  unfold F64.add, SFadd. set (ez := Z.min ey (-53)).
  assert (-62 <= ez <= -53) as Hez by (unfold ez; lia).
  destruct (shl_align_spec my ey ez) as [H1 _]; [unfold ez; lia|].
  destruct (shl_align_spec 4503599627370496 (-53) ez) as [H2 _]; [unfold ez; lia|].
  cbn [cond_Zopp]. rewrite <- Pos2Z.inj_add.
  set (sp := (fst (shl_align my ey ez) + fst (shl_align 4503599627370496 (-53) ez))%positive).
  assert (Zpos sp = Zpos my * 2 ^ (ey - ez) + 2 ^ 52 * 2 ^ (-53 - ez)) as HS.
  { unfold sp. rewrite Pos2Z.inj_add, H1, H2. reflexivity. }
  cbn [binary_normalize].
  set (Az := 2 ^ (ez + 62)).
  assert (0 < Az) as HAz by (apply pow2_pos; lia).
  set (Y := Zpos my * 2 ^ (ey + 62)).
  assert (Zpos sp * Az = Y + 2 ^ 61) as HSz.
  { rewrite HS. unfold Az, Y.
    replace (ey + 62) with ((ey - ez) + (ez + 62)) by lia.
    rewrite (pow2_split (ey - ez)) by lia.
    assert (2 ^ (-53 - ez) * 2 ^ (ez + 62) = 2 ^ 9) as E9.
    { rewrite <- pow2_split by lia. f_equal. lia. }
    change (2 ^ 61) with (2 ^ 52 * 2 ^ 9). rewrite <- E9. ring. }
  assert (0 < 2 ^ (ey + 62) <= 2 ^ 32) as HYp.
  { split; [apply pow2_pos; lia|apply Z.pow_le_mono_r; lia]. }
  assert (0 < Y < 2 ^ 85) as HY by (unfold Y; nia).
  assert (2 ^ 52 <= Zpos sp) as Hsp52.
  { rewrite HS. assert (0 < 2 ^ (ey - ez)) by (apply pow2_pos; unfold ez; lia).
    assert (1 <= 2 ^ (-53 - ez)) by (pose proof (pow2_pos (-53 - ez)); lia). nia. }
  assert (53 <= Zdigits2 (Zpos sp)) as Hd53 by (apply Zdigits2_ge; lia).
  assert (Zdigits2 (Zpos sp) <= 53 - ez) as HdS.
  { apply Zdigits2_le; [lia|].
    assert (2 ^ (53 - ez) * Az = 2 ^ 115) as E.
    { unfold Az. rewrite <- pow2_split by lia. f_equal. lia. }
    nia. }
  destruct (binary_round_large F64.prec F64.emax eq_refl false sp ez)
    as [mw [jw [E [Hjw [HMW Hmw]]]]];
    try (unfold emin, F64.prec, F64.emax in *; lia).
  unfold F64.prec in *.
  set (nS := Zdigits2 (Zpos sp) - 53) in *.
  assert (0 <= nS <= - ez) as HnS by (unfold nS; lia).
  set (U := 2 ^ nS * Az).
  assert (0 < 2 ^ nS) as HpnS by (apply pow2_pos; lia).
  assert (0 < U) as HU by (unfold U; nia).
  exists mw, (ez + nS + jw), U.
  split; [exact E|]. split; [lia|]. split; [lia|]. split; [exact HU|].
  assert (0 <= jw <= 1) as Hjw' by lia.
  assert (Zpos mw * 2 ^ (ez + nS + jw + 62) = (Zpos mw * 2 ^ jw) * U) as HWT.
  { replace (ez + nS + jw + 62) with (jw + (nS + (ez + 62))) by lia.
    rewrite !pow2_split by lia. unfold U, Az. ring. }
  rewrite HWT. rewrite <- HSz.
  set (MW := Zpos mw * 2 ^ jw) in *.
  set (s1 := Zpos sp / 2 ^ nS) in *.
  assert (2 ^ nS * s1 <= Zpos sp < 2 ^ nS * s1 + 2 ^ nS) as [Slo Shi].
  { unfold s1. pose proof (Z.div_mod (Zpos sp) (2 ^ nS)).
    pose proof (Z.mod_pos_bound (Zpos sp) (2 ^ nS)). lia. }
  assert (U * s1 <= Zpos sp * Az < U * s1 + U) as [SUlo SUhi].
  { pose proof (Z.mul_le_mono_nonneg_r _ _ Az (Z.lt_le_incl _ _ HAz) Slo) as M1.
    pose proof (proj1 (Z.mul_lt_mono_pos_r Az _ _ HAz) Shi) as M2.
    unfold U. clear - M1 M2. lia. }
  assert (s1 * U <= MW * U <= (s1 + 1) * U) as [Wlo Whi].
  { split; apply Z.mul_le_mono_nonneg_r; lia. }
  assert (1 <= 2 ^ jw) as Hpj by (pose proof (pow2_pos jw); lia).
  split; [|split].
  - assert (2 ^ 52 <= MW) as H52.
    { unfold MW. clear - Hmw Hpj. nia. }
    apply Z.mul_le_mono_nonneg_r; lia.
  - clear - SUlo SUhi Wlo Whi. lia.
  - intros c Hc Hle.
    set (g := 2 ^ (- ez - nS)).
    assert (0 < g) by (apply pow2_pos; lia).
    assert (g * U = 2 ^ 62) as HgU.
    { unfold g, U, Az. rewrite <- !pow2_split by lia. f_equal. lia. }
    rewrite <- HgU in Hle |- *.
    assert (c * g < s1 + 1) as Hcg.
    { apply (Z.mul_lt_mono_pos_r U); [exact HU|]. clear - Hle SUhi. lia. }
    assert (c * g * U <= s1 * U) as Hfloor by (apply Z.mul_le_mono_nonneg_r; lia).
    clear - Hfloor Wlo. lia.
Qed.


Lemma pow2_lt_inv (a b : Z) : 0 <= b -> 2 ^ a < 2 ^ b -> a < b.
Proof. intros Hb H. apply (Z.pow_lt_mono_r_iff 2); lia. Qed.

Lemma power_in_watts (p : Z) :
  0 <= p < 2 ^ 32 ->
  double_to_uint (F64.add (F64.div (F64.of_Z p) (F64.of_Z 1000)) F64.half)
  = (p + 500) / 1000.
Proof.
  intros Hp. destruct (Z.eq_dec p 0) as [->|Hnz]; [reflexivity|].
  destruct (F64_div_1000 p) as [my [ey [Ediv [Hmy [Hey [[Ylo Yhi] Yexact]]]]]]; [lia|].
  rewrite Ediv.
  assert (ey <= -30) as Hey30.
  { assert (0 < 2 ^ (ey + 62)) by (apply pow2_pos; lia).
    assert (2 ^ (ey + 62) < 2 ^ 33) by (nia).
    apply pow2_lt_inv in H0; lia. }
  destruct (F64_add_half my ey Hmy (conj Hey Hey30))
    as [mw [ew [U [Eadd [Hmw [Hew [HU [HUW [[Wlo Whi] Wexact]]]]]]]]].
  rewrite Eadd.
  set (k := (p + 500) / 1000).
  set (r := (p + 500) mod 1000).
  assert (p + 500 = 1000 * k + r /\ 0 <= r < 1000) as [Hk Hr].
  { unfold k, r. split; [apply Z.div_mod; lia|apply Z.mod_pos_bound; lia]. }
  assert (0 <= k < 2 ^ 23) as Hk23 by lia.
  set (Y := Zpos my * 2 ^ (ey + 62)) in *.
  set (WT := Zpos mw * 2 ^ (ew + 62)) in *.
  assert (k * 2 ^ 62 <= WT < (k + 1) * 2 ^ 62) as [Klo Khi].
  { split; [|lia].
    destruct (Z.eq_dec r 0) as [Hr0|Hr0].
    - apply Wexact; [lia|]. fold Y.
      assert (p * 2 ^ 62 <= 1000 * Y) by (apply Yexact; fold r; exact Hr0). lia.
    - lia. }
  assert (0 < 2 ^ (ew + 62)) as HG by (apply pow2_pos; lia).
  assert (ew <= -30) as Hew30.
  { assert (2 ^ 52 * 2 ^ (ew + 62) <= WT)
      by (apply Z.mul_le_mono_nonneg_r; lia).
    assert (2 ^ (ew + 62) < 2 ^ 33) by lia.
    apply pow2_lt_inv in H0; lia. }
  destruct ew as [|pe|pe]; try lia.
  unfold double_to_uint. cbn [truncate cond_Zopp].
  assert (0 < 2 ^ Zpos pe) as HD by (apply pow2_pos; lia).
  assert (2 ^ Zpos pe * 2 ^ (Zneg pe + 62) = 2 ^ 62) as HDG.
  { rewrite <- pow2_split by lia. f_equal. lia. }
  assert (Zpos mw / 2 ^ Zpos pe = k) as Hq.
  { symmetry. apply Z.div_unique with (Zpos mw - 2 ^ Zpos pe * k); [|lia].
    left. unfold WT in *. rewrite <- HDG in Klo, Khi.
    clear - Klo Khi HD HG. nia. }
  rewrite Hq.
  replace ((- 2 ^ 63 <=? k) && (k <? 2 ^ 63)) with true
    by (symmetry; apply andb_true_iff; split; [apply Z.leb_le|apply Z.ltb_lt]; lia).
  apply uint_small. lia.
Qed.

(** C5: for every successful power reading [p] (milliwatts, an
    [unsigned int]) "Power" reports [p / 1000] rounded half up, that is
    [(p + 500) / 1000] rounded down, followed by "W" when units are asked
    for; a reading of 123456 with units gives "123W". *)
Theorem C5_power_rounds_half_up
  (v : Vendor) (w : World) (flag : string) (device : nvmlDevice_t) (p : Z) :
  nvmlInitialized w = true ->
  nvmlDeviceGetHandleByIndex v 0 = (NVML_SUCCESS, device) ->
  nvmlDeviceGetPowerUsage v device = (NVML_SUCCESS, p) ->
  0 <= p < 2 ^ 32 ->
  function2 v "Power" flag w
  = (Ret (decimal ((p + 500) / 1000) ++ (if streq flag "1" then "W" else ""))%string, w).
Proof.
  intros Hinit Hdev Hq Hp. gpu_gate Hinit Hdev. pick "Power".
  rewrite Hq. cbn [negb Z.eqb NVML_SUCCESS].
  rewrite (uint_small p Hp), (power_in_watts p Hp).
  assert (0 <= (p + 500) / 1000 < 2 ^ 32) as Hw.
  { split; [apply Z.div_pos; lia|apply Z.div_lt_upper_bound; lia]. }
  destruct (streq flag "1").
  - now rewrite reply_watt, (uint_small _ Hw).
  - now rewrite reply_plain, (uint_small _ Hw), append_empty_r.
Qed.

Lemma C5_power_rounds_half_up_witness :
  function2 Bench.healthy "Power" "1" (Bench.started Bench.healthy)
  = (Ret "123W", Bench.started Bench.healthy).
Proof.
  apply (C5_power_rounds_half_up Bench.healthy (Bench.started Bench.healthy) "1" 1 123456);
    solve [reflexivity | lia].
Defined.

(* ================================================================= *)
(** * Beyond the specification

    Properties of the code that the specification does not spell out. *)

(* ================================================================= *)
(** ** The order of the lookups *)

Lemma find_append {A : Type} (p : A -> bool) (l1 l2 : list A) :
  find p (l1 ++ l2)%list
  = match find p l1 with Some x => Some x | None => find p l2 end.
Proof.
  induction l1 as [|a l1 IH]; simpl; [reflexivity|].
  destruct (p a); [reflexivity | exact IH].
Qed.

(** X1: the loop shared by [GetCpuLoad], [GetCpuPower], [GetCpuTemperature]
    and [GetCpuFrequency] returns at the first sensor it accepts among the
    sensors of the nodes of type [Cpu], taken node by node in the order of
    the hardware list, each node refreshed before its sensors are read;
    nodes of another type are passed over, with whatever sensors they
    carry. *)
Theorem X1_scan_cpu_first_match
  (v : Vendor) (wanted : ISensor -> bool) (hs : list IHardware) :
  scan_cpu v wanted hs = find wanted (cpu_sensors v hs).
Proof.
  unfold cpu_sensors. induction hs as [|h hs IH]; [reflexivity|].
  cbn [scan_cpu filter]. unfold is_cpu at 1.
  destruct (HardwareType.eqb (HardwareType h) HardwareType.Cpu).
  - cbn [flat_map]. rewrite find_append, IH. reflexivity.
  - exact IH.
Qed.

Lemma nth_fan_append (fanIndex cur : Z) (a b : list ISensor) :
  nth_fan fanIndex cur (a ++ b)%list
  = match nth_fan fanIndex cur a with
    | inl s => inl s
    | inr n => nth_fan fanIndex n b
    end.
Proof.
  unfold nth_fan. rewrite length_app, Nat2Z.inj_add.
  destruct (Z.ltb_spec fanIndex cur) as [Hlt|Hle].
  - destruct (Z.ltb_spec fanIndex (cur + Z.of_nat (List.length a))); [|lia].
    f_equal. lia.
  - destruct (nth_error a (Z.to_nat (fanIndex - cur))) as [s|] eqn:E.
    + rewrite nth_error_app1, E; [reflexivity|].
      apply nth_error_Some. congruence.
    + apply nth_error_None in E.
      destruct (Z.ltb_spec fanIndex (cur + Z.of_nat (List.length a))); [lia|].
      rewrite nth_error_app2 by exact E.
      replace (Z.to_nat (fanIndex - (cur + Z.of_nat (List.length a))))
        with (Z.to_nat (fanIndex - cur) - List.length a)%nat by lia.
      destruct (nth_error b _); [reflexivity|]. f_equal. lia.
Qed.

Lemma nth_fan_nil (fanIndex cur : Z) : nth_fan fanIndex cur [] = inr cur.
Proof.
  unfold nth_fan. destruct (fanIndex <? cur); simpl.
  - f_equal. lia.
  - destruct (Z.to_nat (fanIndex - cur)); simpl; f_equal; lia.
Qed.

Lemma fan_in_sensors_nth (fanIndex cur : Z) (l : list ISensor) :
  fan_in_sensors fanIndex cur l = nth_fan fanIndex cur (filter is_fan l).
Proof.
  revert cur. induction l as [|s l IH]; intros cur.
  - now rewrite nth_fan_nil.
  - cbn [fan_in_sensors filter]. unfold is_fan at 1.
    destruct (SensorType.eqb (SensorType s) SensorType.Fan); [|apply IH].
    change (s :: filter is_fan l) with ([s] ++ filter is_fan l)%list.
    rewrite nth_fan_append. unfold nth_fan at 1.
    destruct (Z.eqb_spec cur fanIndex) as [->|Hne].
    + rewrite Z.ltb_irrefl, Z.sub_diag. reflexivity.
    + rewrite IH. destruct (Z.ltb_spec fanIndex cur); [reflexivity|].
      replace (Z.to_nat (fanIndex - cur)) with (S (Z.to_nat (fanIndex - cur - 1))) by lia.
      simpl nth_error. destruct (Z.to_nat (fanIndex - cur - 1)); reflexivity.
Qed.

Lemma fan_in_subs_nth (v : Vendor) (fanIndex cur : Z) (l : list IHardware) :
  fan_in_subs v fanIndex cur l
  = nth_fan fanIndex cur
      (filter is_fan (flat_map (fun sub => Sensors (Update v sub)) l)).
Proof.
  revert cur. induction l as [|sub l IH]; intros cur.
  - now rewrite nth_fan_nil.
  - cbn [fan_in_subs flat_map]. rewrite filter_app, nth_fan_append.
    rewrite fan_in_sensors_nth.
    destruct (nth_fan fanIndex cur _); [reflexivity | apply IH].
Qed.

Lemma fan_in_hardware_nth (v : Vendor) (fanIndex cur : Z) (hs : list IHardware) :
  fan_in_hardware v fanIndex cur hs = nth_fan fanIndex cur (fan_sensors v hs).
Proof.
  unfold fan_sensors. revert cur. induction hs as [|h hs IH]; intros cur.
  - now rewrite nth_fan_nil.
  - cbn [fan_in_hardware flat_map]. rewrite filter_app, nth_fan_append.
    rewrite fan_in_subs_nth.
    destruct (nth_fan fanIndex cur _); [reflexivity | apply IH].
Qed.

(** X2: the three nested loops of [GetCpuFanSpeed] and [GetCpuFanSpeedRPM]
    return at the sensor in position [fanIndex], counted from 0, among the
    sensors of type Fan of the sub-hardware of all nodes, in the order of
    the traversal.  Sensors of another type are not counted, and sensors
    that sit on a top-level node itself are never looked at.  With fewer
    than [fanIndex + 1] such sensors, or with a negative index, the loops
    run out. *)
Theorem X2_fan_lookup_by_position
  (v : Vendor) (fanIndex : Z) (hs : list IHardware) :
  fan_in_hardware v fanIndex 0 hs
  = if fanIndex <? 0
    then inr (Z.of_nat (List.length (fan_sensors v hs)))
    else match nth_error (fan_sensors v hs) (Z.to_nat fanIndex) with
         | Some s => inl s
         | None => inr (Z.of_nat (List.length (fan_sensors v hs)))
         end.
Proof.
  rewrite fan_in_hardware_nth. unfold nth_fan.
  now rewrite Z.sub_0_r, Z.add_0_l.
Qed.

(* ================================================================= *)
(** ** The CPU router *)

(** X3: when the lookup behind a CPU metric finds no sensor, [function1]
    answers with the error text of the metric, the same for every flag and
    with no unit after it. *)
Theorem X3_sensor_not_found
  (cfg : Config) (v : Vendor) (w w' : World) (hs : list IHardware)
  (metricName text flag : string) :
  In (metricName, text) cpu_error_texts ->
  seen_hardware v w = (Ret hs, w') ->
  found_sensor cfg v metricName hs = None ->
  function1 cfg v metricName flag w = (Ret text, w').
Proof.
  intros Hin Hseen Hnone. cbn [cpu_error_texts In] in Hin.
  repeat (destruct Hin as [Hin|Hin]; [injection Hin as <- <-|]); [..|contradiction].
  - change (found_sensor cfg v "Load" hs) with (scan_cpu v is_cpu_load hs) in Hnone.
    unfold function1. pick "Load". unfold bind at 1. unfold GetCpuLoad.
    rewrite (bind_seen _ _ _ _ _ Hseen), Hnone. reflexivity.
  - change (found_sensor cfg v "Power" hs) with (scan_cpu v is_cpu_power hs) in Hnone.
    unfold function1. pick "Power". unfold bind at 1. unfold GetCpuPower.
    rewrite (bind_seen _ _ _ _ _ Hseen), Hnone. reflexivity.
  - change (found_sensor cfg v "Temp" hs) with (scan_cpu v is_cpu_temperature hs) in Hnone.
    unfold function1. pick "Temp". unfold bind at 1. unfold GetCpuTemperature.
    rewrite (bind_seen _ _ _ _ _ Hseen), Hnone. reflexivity.
  - change (found_sensor cfg v "Fan_RPM" hs)
      with (match fan_in_hardware v (CPU_FAN cfg) 0 hs with
            | inl s => Some s
            | inr _ => None
            end) in Hnone.
    destruct (fan_in_hardware v (CPU_FAN cfg) 0 hs) as [s|n] eqn:Hfan; [discriminate|].
    unfold function1. pick "Fan_RPM". unfold bind at 1. unfold GetCpuFanSpeedRPM.
    rewrite (bind_seen _ _ _ _ _ Hseen), Hfan. reflexivity.
  - change (found_sensor cfg v "Fan" hs)
      with (match fan_in_hardware v (CPU_FAN cfg) 0 hs with
            | inl s => Some s
            | inr _ => None
            end) in Hnone.
    destruct (fan_in_hardware v (CPU_FAN cfg) 0 hs) as [s|n] eqn:Hfan; [discriminate|].
    unfold function1. pick "Fan". unfold bind at 1. unfold GetCpuFanSpeed.
    rewrite (bind_seen _ _ _ _ _ Hseen), Hfan. reflexivity.
  - change (found_sensor cfg v "Clock" hs) with (scan_cpu v is_cpu_clock hs) in Hnone.
    unfold function1. pick "Clock". unfold bind at 1. unfold GetCpuFrequency.
    rewrite (bind_seen _ _ _ _ _ Hseen), Hnone. reflexivity.
Qed.

Lemma X3_sensor_not_found_witness :
  function1 source_config (Bench.vendor [] 0 0 0 0 0 1) "Power" "1" initial_world
  = (Ret "Error reading CPU Power",
     snd (seen_hardware (Bench.vendor [] 0 0 0 0 0 1) initial_world)).
Proof.
  refine (X3_sensor_not_found source_config (Bench.vendor [] 0 0 0 0 0 1)
            initial_world _ [] "Power" _ "1" _ eq_refl eq_refl).
  simpl. tauto.
Defined.

(** The text of an [int] that is not negative. *)
Lemma reply_int (n : Z) (unit fmt : string) :
  0 <= n <= INT_MAX ->
  snprintf tempStr_size fmt [ArgInt n] = (decimal (uint n) ++ unit)%string ->
  snprintf tempStr_size fmt [ArgInt n] = (decimal n ++ unit)%string.
Proof.
  intros Hn E. rewrite E, uint_small; [reflexivity|]. unfold INT_MAX in Hn. lia.
Qed.

(** X4: Load, Power, Temp and Fan_RPM show the reading of the sensor the
    lookup found, cut toward zero to an [int] and printed in decimal,
    followed by the unit of the metric when units are asked for; a reading
    whose integer part is negative gives the error text of the metric
    instead.  The configured maximum fan speed plays no part in Fan_RPM. *)
Theorem X4_integer_reading
  (cfg : Config) (v : Vendor) (w w' : World) (hs : list IHardware)
  (metricName unit text flag : string) (sensor : ISensor) :
  In (metricName, unit) [("Load", "%"); ("Power", "W"); ("Temp", "°C"); ("Fan_RPM", "RPM")] ->
  In (metricName, text) cpu_error_texts ->
  seen_hardware v w = (Ret hs, w') ->
  found_sensor cfg v metricName hs = Some sensor ->
  let n := float_to_int (GetValueOrDefault (Value sensor) F32.zero) in
  function1 cfg v metricName flag w
  = (Ret (if n <? 0 then text
          else (decimal n ++ (if streq flag "1" then unit else ""))%string), w').
Proof.
  intros Hin Htext Hseen Hfound n.
  pose proof (float_to_int_range (GetValueOrDefault (Value sensor) F32.zero)) as Hrange.
  fold n in Hrange.
  cbn [In] in Hin.
  repeat (destruct Hin as [Hin|Hin]; [injection Hin as <- <-|]); [..|contradiction];
    cbn [cpu_error_texts In] in Htext;
    repeat (destruct Htext as [Htext|Htext];
            [try discriminate Htext; injection Htext as <-|]);
    try contradiction.
  - change (found_sensor cfg v "Load" hs) with (scan_cpu v is_cpu_load hs) in Hfound.
    unfold function1. pick "Load". unfold bind at 1. unfold GetCpuLoad.
    rewrite (bind_seen _ _ _ _ _ Hseen), Hfound. unfold ret at 1. fold n.
    destruct (Z.ltb_spec n 0); unfold ret; [reflexivity|].
    destruct (streq flag "1").
    + now rewrite (reply_int n "%") by (try apply reply_percent; lia).
    + now rewrite (reply_int n "") , append_empty_r
        by (try (rewrite append_empty_r; apply reply_plain); lia).
  - change (found_sensor cfg v "Power" hs) with (scan_cpu v is_cpu_power hs) in Hfound.
    unfold function1. pick "Power". unfold bind at 1. unfold GetCpuPower.
    rewrite (bind_seen _ _ _ _ _ Hseen), Hfound. unfold ret at 1. fold n.
    destruct (Z.ltb_spec n 0); unfold ret; [reflexivity|].
    destruct (streq flag "1").
    + now rewrite (reply_int n "W") by (try apply reply_watt; lia).
    + now rewrite (reply_int n "") , append_empty_r
        by (try (rewrite append_empty_r; apply reply_plain); lia).
  - change (found_sensor cfg v "Temp" hs) with (scan_cpu v is_cpu_temperature hs) in Hfound.
    unfold function1. pick "Temp". unfold bind at 1. unfold GetCpuTemperature.
    rewrite (bind_seen _ _ _ _ _ Hseen), Hfound. unfold ret at 1. fold n.
    destruct (Z.ltb_spec n 0); unfold ret; [reflexivity|].
    destruct (streq flag "1").
    + now rewrite (reply_int n "°C") by (try apply reply_celsius; lia).
    + now rewrite (reply_int n "") , append_empty_r
        by (try (rewrite append_empty_r; apply reply_plain); lia).
  - change (found_sensor cfg v "Fan_RPM" hs)
      with (match fan_in_hardware v (CPU_FAN cfg) 0 hs with
            | inl s => Some s
            | inr _ => None
            end) in Hfound.
    destruct (fan_in_hardware v (CPU_FAN cfg) 0 hs) as [s|k] eqn:Hfan; [|discriminate].
    injection Hfound as ->.
    unfold function1. pick "Fan_RPM". unfold bind at 1. unfold GetCpuFanSpeedRPM.
    rewrite (bind_seen _ _ _ _ _ Hseen), Hfan. unfold ret at 1. fold n.
    destruct (Z.ltb_spec n 0); unfold ret; [reflexivity|].
    destruct (streq flag "1").
    + now rewrite (reply_int n "RPM") by (try apply reply_rpm; lia).
    + now rewrite (reply_int n "") , append_empty_r
        by (try (rewrite append_empty_r; apply reply_plain); lia).
Qed.

Lemma X4_integer_reading_witness :
  function1 source_config Bench.healthy "Fan_RPM" "1" initial_world
  = (Ret "1200RPM", snd (seen_hardware Bench.healthy initial_world)).
Proof.
  refine (X4_integer_reading source_config Bench.healthy initial_world _ _
            "Fan_RPM" "RPM" "Error reading Fan Speed" "1" _ _ _ eq_refl eq_refl);
    simpl; tauto.
Defined.

(** X5: Clock shows the reading of the sensor the lookup found, divided by
    1000 in binary32 and printed with two decimals, followed by "GHz" when
    units are asked for; a reading below zero gives the error text. *)
Theorem X5_cpu_clock_in_gigahertz
  (cfg : Config) (v : Vendor) (w w' : World) (hs : list IHardware)
  (flag : string) (sensor : ISensor) :
  seen_hardware v w = (Ret hs, w') ->
  scan_cpu v is_cpu_clock hs = Some sensor ->
  let clock := GetValueOrDefault (Value sensor) F32.zero in
  function1 cfg v "Clock" flag w
  = (Ret (if flt clock (F32.of_Z 0) then "Error reading CPU clock"
          else (fixed 2 (F32.div clock (F32.of_Z 1000))
                ++ (if streq flag "1" then "GHz" else ""))%string), w').
Proof.
  intros Hseen Hfound clock.
  unfold function1. pick "Clock". unfold bind at 1. unfold GetCpuFrequency.
  rewrite (bind_seen _ _ _ _ _ Hseen), Hfound. unfold ret at 1. fold clock.
  destruct (flt clock (F32.of_Z 0)); unfold ret; [reflexivity|].
  assert (representable F32.prec F32.emax (F32.div clock (F32.of_Z 1000))) as Hrep
    by (apply F32_div_representable; unfold INT_MAX; lia).
  destruct (streq flag "1").
  - now rewrite (reply_fixed 2 "2" _ "GHz") by (auto; simpl; lia).
  - now rewrite (reply_fixed 2 "2" _ "") by (auto; simpl; lia).
Qed.

Lemma X5_cpu_clock_in_gigahertz_witness :
  function1 source_config Bench.healthy "Clock" "1" initial_world
  = (Ret "3.70GHz", snd (seen_hardware Bench.healthy initial_world)).
Proof.
  exact (X5_cpu_clock_in_gigahertz source_config Bench.healthy initial_world _ _
           "1" _ eq_refl eq_refl).
Defined.

(* ================================================================= *)
(** ** The state across calls *)

Lemma seen_hardware_open (v : Vendor) (w : World) (c : Computer) :
  computer w = Some c -> seen_hardware v w = (Ret (Hardware c), w).
Proof.
  intros H. unfold seen_hardware, bind. rewrite (Initialize_open v w c H).
  unfold computer_Hardware, bind, get_computer, ret. now rewrite H.
Qed.

Lemma seen_hardware_first (v : Vendor) (w : World) :
  computer w = None ->
  seen_hardware v w
  = match Computer_Open v true true with
    | Ret hw => (Ret hw, opened hw w)
    | Throw e => (Throw e, open_failed v w)
    end.
Proof.
  intros H. destruct w as [init comp log]. simpl in H. subst comp.
  unfold seen_hardware, Initialize, Open, new_Computer, modify_computer,
    computer_Hardware, bind, get_computer, set_computer, emit, throw, ret,
    opened, open_failed.
  cbn. destruct (Computer_Open v true true); reflexivity.
Qed.

Lemma seen_hardware_state (v : Vendor) (w : World) :
  snd (seen_hardware v w) = snd (Initialize v w).
Proof.
  unfold seen_hardware, bind. destruct (Initialize v w) as [[[]|e] w1]; [|reflexivity].
  unfold computer_Hardware, bind, get_computer, ret, throw. cbn.
  destruct (computer w1); reflexivity.
Qed.

(** A query ends in the state in which the hardware list was obtained. *)
Lemma function1_state (cfg : Config) (v : Vendor) (w : World) (param1 param2 : string) :
  snd (function1 cfg v param1 param2 w)
  = if existsb (streq param1) (spec_metrics CPU) then snd (seen_hardware v w) else w.
Proof.
  destruct (seen_hardware v w) as [[hs|e] w'] eqn:Hseen; cbn [snd];
    unfold function1; cbn [existsb spec_metrics];
    unfold GetCpuLoad, GetCpuPower, GetCpuTemperature, GetCpuFanSpeedRPM,
      GetCpuFanSpeed, GetCpuFrequency.
  - repeat match goal with
           | |- context [streq param1 ?lit] => destruct (streq param1 lit); cbn [orb]
           end;
      try reflexivity;
      unfold bind at 1; rewrite (bind_seen _ _ _ _ _ Hseen);
      repeat match goal with
             | |- context [scan_cpu ?a ?b ?c] => destruct (scan_cpu a b c)
             | |- context [fan_in_hardware ?a ?b ?c ?d] =>
                 destruct (fan_in_hardware a b c d)
             end;
      unfold ret;
      repeat match goal with
             | |- context [if ?b then _ else _] => destruct b
             end; reflexivity.
  - repeat match goal with
           | |- context [streq param1 ?lit] => destruct (streq param1 lit); cbn [orb]
           end;
      try reflexivity;
      unfold bind at 1; rewrite (bind_seen_throw _ _ _ _ _ Hseen); reflexivity.
Qed.

(** X6: [function1] changes the state exactly as
    [HardwareMonitor::Initialize] does, and only when the metric name is a
    supported one: the NVML flag is never touched, and a call that meets a
    non-null handle changes nothing at all. *)
Theorem X6_cpu_query_state
  (cfg : Config) (v : Vendor) (w : World) (param1 param2 : string) :
  snd (function1 cfg v param1 param2 w)
  = (if existsb (streq param1) (spec_metrics CPU) then snd (Initialize v w) else w)
  /\ nvmlInitialized (snd (function1 cfg v param1 param2 w)) = nvmlInitialized w
  /\ (computer w <> None -> snd (function1 cfg v param1 param2 w) = w).
Proof.
  rewrite function1_state, seen_hardware_state.
  destruct (computer w) as [c|] eqn:Hc.
  - rewrite (Initialize_open v w c Hc). cbn [snd].
    destruct (existsb (streq param1) (spec_metrics CPU)); auto.
  - rewrite <- seen_hardware_state, (seen_hardware_first v w Hc).
    destruct (existsb (streq param1) (spec_metrics CPU));
      destruct (Computer_Open v true true); cbn; repeat split; congruence.
Qed.

(** X7: the first CPU query of a process whose handle is null creates the
    [Computer], enables the CPU and the motherboard group, and opens it,
    once; the state it leaves is a fixed point of every later query,
    whatever is asked and whatever the hardware answers. *)
Theorem X7_first_query_opens_once
  (cfg : Config) (v : Vendor) (w : World) (hw : list IHardware)
  (metricName flag : string) :
  In metricName (spec_metrics CPU) ->
  computer w = None ->
  Computer_Open v true true = Ret hw ->
  snd (function1 cfg v metricName flag w) = opened hw w
  /\ (forall cfg' v' param1 param2,
        snd (function1 cfg' v' param1 param2 (opened hw w)) = opened hw w).
Proof.
  intros Hin Hnull Hopen. split.
  - rewrite function1_state, (seen_hardware_first v w Hnull), Hopen.
    cbn [In spec_metrics] in Hin.
    repeat (destruct Hin as [<-|Hin]; [reflexivity|]). contradiction.
  - intros cfg' v' param1 param2.
    rewrite function1_state, (seen_hardware_open v' (opened hw w) _ eq_refl).
    now destruct (existsb _ _).
Qed.

Lemma X7_first_query_opens_once_witness :
  snd (function1 source_config Bench.healthy "Load" "0" initial_world)
  = opened Bench.healthy_machine initial_world.
Proof.
  refine (proj1 (X7_first_query_opens_once source_config Bench.healthy initial_world
                   Bench.healthy_machine "Load" "0" _ eq_refl eq_refl)).
  simpl. tauto.
Defined.

(** X8: when [Computer::Open] throws during the first CPU query, the
    exception leaves [function1] and no text is returned; the handle is
    left non-null on the [Computer] whose [Open] failed.  No later query
    creates or opens a [Computer] again: [HardwareMonitor::Initialize]
    does nothing from then on, the lookups read whatever hardware that
    [Computer] lists, and every later CPU query leaves the state as it
    is. *)
Theorem X8_open_failure_is_not_retried
  (cfg : Config) (v : Vendor) (w : World) (e metricName flag : string) :
  In metricName (spec_metrics CPU) ->
  computer w = None ->
  Computer_Open v true true = Throw e ->
  function1 cfg v metricName flag w = (Throw e, open_failed v w)
  /\ (forall v', Initialize v' (open_failed v w) = (Ret tt, open_failed v w))
  /\ (forall v', seen_hardware v' (open_failed v w)
                 = (Ret (Computer_Open_leaves v true true), open_failed v w))
  /\ (forall cfg' v' param1 param2,
        snd (function1 cfg' v' param1 param2 (open_failed v w)) = open_failed v w).
Proof.
  intros Hin Hnull Hopen.
  pose proof (seen_hardware_first v w Hnull) as Hseen. rewrite Hopen in Hseen.
  split; [|split; [|split]].
  - cbn [In spec_metrics] in Hin.
    repeat (destruct Hin as [<-|Hin];
            [unfold function1;
             match goal with |- context [streq ?m "Load"] => pick m end;
             unfold bind at 1;
             unfold GetCpuLoad, GetCpuPower, GetCpuTemperature, GetCpuFanSpeedRPM,
               GetCpuFanSpeed, GetCpuFrequency;
             rewrite (bind_seen_throw _ _ _ _ _ Hseen); reflexivity|]).
    contradiction.
  - intros v'. now apply Initialize_open with (c := {| IsCpuEnabled := true;
      IsMotherboardEnabled := true; IsOpen := false;
      Hardware := Computer_Open_leaves v true true |}).
  - intros v'. now rewrite (seen_hardware_open v' (open_failed v w) _ eq_refl).
  - intros cfg' v' param1 param2.
    rewrite function1_state, (seen_hardware_open v' (open_failed v w) _ eq_refl).
    now destruct (existsb _ _).
Qed.

Lemma X8_open_failure_is_not_retried_witness :
  function1 source_config (broken_monitor "Access denied") "Temp" "1" initial_world
  = (Throw "Access denied", open_failed (broken_monitor "Access denied") initial_world)
  /\ snd (function1 source_config Bench.healthy "Temp" "1"
            (open_failed (broken_monitor "Access denied") initial_world))
     = open_failed (broken_monitor "Access denied") initial_world.
Proof.
  pose proof (X8_open_failure_is_not_retried source_config
                (broken_monitor "Access denied") initial_world "Access denied"
                "Temp" "1") as H.
  destruct H as [A [_ [_ B]]]; [simpl; tauto | reflexivity | reflexivity |].
  split; [exact A | apply B].
Defined.

(** X9: the lookups never read [computer->Hardware] through a null handle.
    Whenever [HardwareMonitor::Initialize] returns, in whatever state it was
    called and whatever [Computer::Open] enumerated, the handle is
    non-null, and the read of [computer->Hardware] that follows it in each
    lookup returns the list of that [Computer]. *)
Theorem X9_handle_non_null_at_use (v : Vendor) (w w' : World) :
  Initialize v w = (Ret tt, w') ->
  exists c,
    computer w' = Some c
    /\ computer_Hardware w' = (Ret (Hardware c), w')
    /\ seen_hardware v w = (Ret (Hardware c), w').
Proof.
  intros Hinit. destruct (computer w) as [c|] eqn:Hc.
  - rewrite (Initialize_open v w c Hc) in Hinit. injection Hinit as <-.
    exists c. split; [exact Hc|]. split.
    + unfold computer_Hardware, bind, get_computer, ret. now rewrite Hc.
    + now apply seen_hardware_open.
  - pose proof (seen_hardware_first v w Hc) as Hseen.
    pose proof (seen_hardware_state v w) as Hstate.
    destruct (Computer_Open v true true) as [hw|e] eqn:Hopen.
    + rewrite Hseen, Hinit in Hstate. cbn [snd] in Hstate. subst w'.
      eexists. split; [reflexivity|]. split; [reflexivity|exact Hseen].
    + exfalso. rewrite Hseen, Hinit in Hstate. cbn [snd] in Hstate. subst w'.
      unfold seen_hardware, bind in Hseen. rewrite Hinit in Hseen.
      discriminate Hseen.
Qed.

Lemma X9_handle_non_null_at_use_witness :
  exists c,
    computer (opened Bench.healthy_machine initial_world) = Some c
    /\ computer_Hardware (opened Bench.healthy_machine initial_world)
       = (Ret (Hardware c), opened Bench.healthy_machine initial_world)
    /\ seen_hardware Bench.healthy initial_world
       = (Ret (Hardware c), opened Bench.healthy_machine initial_world).
Proof.
  apply (X9_handle_non_null_at_use Bench.healthy initial_world). reflexivity.
Defined.

(* ================================================================= *)
(** ** The GPU router *)

(** X10: a GPU query never changes the state: [function2] leaves the NVML
    flag, the hardware monitor handle and the log as they are, for every
    name, every flag and every answer of NVML, whether it returns or
    throws. *)
Theorem X10_gpu_query_keeps_state
  (v : Vendor) (w : World) (param1 param2 : string) :
  snd (function2 v param1 param2 w) = w.
Proof.
  unfold function2, checkNvmlInitialized, bind, get_nvmlInitialized, ret, throw.
  destruct (nvmlInitialized w); cbn [negb]; [|reflexivity].
  destruct (nvmlDeviceGetHandleByIndex v 0) as [result device].
  destruct (negb (result =? NVML_SUCCESS)); [reflexivity|].
  repeat match goal with
         | |- context [streq param1 ?lit] => destruct (streq param1 lit)
         end;
    repeat match goal with
           | |- context [let '(_, _) := ?q in _] => destruct q
           end;
    repeat match goal with
           | |- context [if ?b then _ else _] => destruct b
           end; reflexivity.
Qed.

(** X11: the only exception that leaves [function2] is the division by
    zero of "Mem_Usage": NVML is initialized, the device handle and the
    memory query succeed, and the total the query delivers is 0 in 64
    bits. *)
Theorem X11_gpu_query_throws_only_on_zero_total
  (v : Vendor) (w : World) (param1 param2 e : string) :
  fst (function2 v param1 param2 w) = Throw e ->
  e = DivideByZeroException
  /\ c_str param1 = "Mem_Usage"
  /\ nvmlInitialized w = true
  /\ fst (nvmlDeviceGetHandleByIndex v 0) = NVML_SUCCESS
  /\ fst (nvmlDeviceGetMemoryInfo v (snd (nvmlDeviceGetHandleByIndex v 0))) = NVML_SUCCESS
  /\ ullong (total (snd (nvmlDeviceGetMemoryInfo v (snd (nvmlDeviceGetHandleByIndex v 0)))))
     = 0.
Proof.
  unfold function2, checkNvmlInitialized, bind, get_nvmlInitialized, ret, throw.
  destruct (nvmlInitialized w); cbn [negb]; [|discriminate].
  destruct (nvmlDeviceGetHandleByIndex v 0) as [result device]. cbn [fst snd].
  destruct (Z.eqb_spec result NVML_SUCCESS) as [Hr|Hr]; cbn [negb]; [|discriminate].
  destruct (streq param1 "Temp");
    [destruct (nvmlDeviceGetTemperature v device NVML_TEMPERATURE_GPU) as [r x];
     destruct (negb (r =? NVML_SUCCESS)); discriminate|].
  destruct (streq param1 "Limit");
    [destruct (nvmlDeviceGetCurrentClocksThrottleReasons v device) as [r x];
     destruct (negb (r =? NVML_SUCCESS)); discriminate|].
  destruct (streq param1 "Fan");
    [destruct (nvmlDeviceGetFanSpeed v device) as [r x];
     destruct (negb (r =? NVML_SUCCESS)); discriminate|].
  destruct (streq param1 "Power");
    [destruct (nvmlDeviceGetPowerUsage v device) as [r x];
     destruct (negb (r =? NVML_SUCCESS)); discriminate|].
  destruct (streq param1 "Clock");
    [destruct (nvmlDeviceGetClock v device NVML_CLOCK_GRAPHICS NVML_CLOCK_ID_CURRENT) as [r x];
     destruct (negb (r =? NVML_SUCCESS)); discriminate|].
  destruct (streq param1 "Mem_Clock");
    [destruct (nvmlDeviceGetClock v device NVML_CLOCK_MEM NVML_CLOCK_ID_CURRENT) as [r x];
     destruct (negb (r =? NVML_SUCCESS)); discriminate|].
  destruct (streq param1 "Mem_Alloc");
    [destruct (nvmlDeviceGetMemoryInfo v device) as [r x];
     destruct (negb (r =? NVML_SUCCESS)); discriminate|].
  destruct (streq param1 "Mem_Usage") eqn:Hname.
  - destruct (nvmlDeviceGetMemoryInfo v device) as [r x]. cbn [fst snd].
    destruct (Z.eqb_spec r NVML_SUCCESS) as [Hq|Hq]; cbn [negb]; [|discriminate].
    destruct (Z.eqb_spec (ullong (total x)) 0) as [Hz|Hz]; [|discriminate].
    cbn [fst]. intros E. apply streq_true_iff in Hname.
    repeat split; try assumption. congruence.
  - destruct (streq param1 "Load");
      [destruct (nvmlDeviceGetUtilizationRates v device) as [r x];
       destruct (negb (r =? NVML_SUCCESS)); discriminate|discriminate].
Qed.

Lemma X11_gpu_query_throws_only_on_zero_total_witness :
  c_str "Mem_Usage" = "Mem_Usage"
  /\ ullong (total (snd (nvmlDeviceGetMemoryInfo
                           (Bench.vendor Bench.healthy_machine 0 0 0 0 1 0)
                           (snd (nvmlDeviceGetHandleByIndex
                                   (Bench.vendor Bench.healthy_machine 0 0 0 0 1 0) 0)))))
     = 0.
Proof.
  pose proof (X11_gpu_query_throws_only_on_zero_total
                (Bench.vendor Bench.healthy_machine 0 0 0 0 1 0)
                (Bench.started Bench.healthy) "Mem_Usage" "1" _ eq_refl)
    as [_ [N [_ [_ [_ Z]]]]].
  exact (conj N Z).
Defined.

(** X12: "Mem_Usage" divides by the total the memory query delivers.  When
    the query succeeds with a total of 0 (in 64 bits), the call does not
    return a text: the division throws, under either flag. *)
Theorem X12_memory_usage_zero_total
  (v : Vendor) (w : World) (flag : string) (device : nvmlDevice_t)
  (memInfo : nvmlMemory_t) :
  nvmlInitialized w = true ->
  nvmlDeviceGetHandleByIndex v 0 = (NVML_SUCCESS, device) ->
  nvmlDeviceGetMemoryInfo v device = (NVML_SUCCESS, memInfo) ->
  total memInfo mod 2 ^ 64 = 0 ->
  function2 v "Mem_Usage" flag w = (Throw DivideByZeroException, w).
Proof.
  intros Hinit Hdev Hq Hzero. gpu_gate Hinit Hdev. pick "Mem_Usage".
  rewrite Hq. cbn [negb Z.eqb NVML_SUCCESS].
  unfold ullong at 1, ULLONG_MODULUS. rewrite Hzero. reflexivity.
Qed.

Lemma X12_memory_usage_zero_total_witness :
  function2 (Bench.vendor Bench.healthy_machine 0 0 0 0 1 0) "Mem_Usage" "1"
            (Bench.started Bench.healthy)
  = (Throw DivideByZeroException, Bench.started Bench.healthy).
Proof.
  apply (X12_memory_usage_zero_total _ _ "1" 1 (mkMemory 0 (0 - 1) 1)); reflexivity.
Defined.

(* ================================================================= *)
(** ** Start and stop, again *)

(** X13: [SmartieInit] never lets an exception out, and it calls
    [nvmlInit] exactly when the flag is unset: once then, never otherwise.
    The flag is set afterwards exactly when it was set before or [nvmlInit]
    answered [NVML_SUCCESS]; a failed [nvmlInit] is tried again by the next
    [SmartieInit]. *)
Theorem X13_nvml_started_when_needed (v : Vendor) (w : World) :
  fst (SmartieInit v w) = Ret tt
  /\ nvmlInitialized (snd (SmartieInit v w))
     = nvmlInitialized w || (nvmlInit v =? NVML_SUCCESS)
  /\ occurrences EvNvmlInit (snd (SmartieInit v w))
     = ((if nvmlInitialized w then 0 else 1) + occurrences EvNvmlInit w)%nat.
Proof.
  destruct w as [init comp log].
  unfold SmartieInit, Initialize, Open, new_Computer, modify_computer, try_catch,
    bind, get_nvmlInitialized, get_computer, set_computer, MessageBoxA, emit,
    set_nvmlInitialized, throw, ret, occurrences.
  destruct (IsRunningAsAdmin v), init; cbn;
    try destruct (nvmlInit v =? NVML_SUCCESS); cbn;
    destruct comp; cbn; try destruct (Computer_Open v true true); cbn;
    repeat split; reflexivity.
Qed.

(** X14: a failed [nvmlInit] is not fatal.  [SmartieInit] shows one notice
    with the text NVML gives for the status, under the caption "NVML Init
    Failed", leaves the flag unset and goes on to the hardware monitor:
    the handle is non-null afterwards. *)
Theorem X14_nvml_failure_is_announced (v : Vendor) (w : World) :
  nvmlInitialized w = false ->
  nvmlInit v <> NVML_SUCCESS ->
  let notice := EvMessageBox (c_str (nvmlErrorString v (nvmlInit v))) "NVML Init Failed" in
  occurrences notice (snd (SmartieInit v w)) = S (occurrences notice w)
  /\ nvmlInitialized (snd (SmartieInit v w)) = false
  /\ computer (snd (SmartieInit v w)) <> None.
Proof.
  intros Hflag Hfail notice. destruct w as [init comp log]. simpl in Hflag. subst init.
  apply Z.eqb_neq in Hfail.
  unfold SmartieInit, Initialize, Open, new_Computer, modify_computer, try_catch,
    bind, get_nvmlInitialized, get_computer, set_computer, MessageBoxA, emit,
    set_nvmlInitialized, throw, ret, occurrences, notice.
  cbn [negb nvmlInitialized computer events fst snd]. rewrite Hfail.
  destruct (IsRunningAsAdmin v); cbn;
    destruct comp; cbn; try destruct (Computer_Open v true true); cbn;
    rewrite ?String.eqb_refl, ?andb_false_r; cbn;
    repeat split; try reflexivity; discriminate.
Qed.

Lemma X14_nvml_failure_is_announced_witness :
  occurrences (EvMessageBox "Unknown Error" "NVML Init Failed")
              (snd (SmartieInit Bench.no_gpu initial_world)) = 1%nat.
Proof.
  refine (proj1 (X14_nvml_failure_is_announced Bench.no_gpu initial_world eq_refl _)).
  discriminate.
Defined.

(** X15: when [Computer::Open] throws inside [SmartieInit], the exception
    is caught: the call returns, the last thing it did was to show the
    message of the exception under the caption "Initialization Error", and
    the handle is left on a [Computer] that is not open. *)
Theorem X15_open_failure_is_caught (v : Vendor) (w : World) (e : string) :
  computer w = None ->
  Computer_Open v true true = Throw e ->
  fst (SmartieInit v w) = Ret tt
  /\ hd_error (events (snd (SmartieInit v w)))
     = Some (EvMessageBox (c_str e) "Initialization Error")
  /\ computer (snd (SmartieInit v w)) = computer (open_failed v w).
Proof.
  intros Hnull Hopen. destruct w as [init comp log]. simpl in Hnull. subst comp.
  unfold SmartieInit, Initialize, Open, new_Computer, modify_computer, try_catch,
    bind, get_nvmlInitialized, get_computer, set_computer, MessageBoxA, emit,
    set_nvmlInitialized, throw, ret, open_failed.
  destruct (IsRunningAsAdmin v), init; cbn;
    try destruct (nvmlInit v =? NVML_SUCCESS); cbn;
    rewrite Hopen; cbn; repeat split; reflexivity.
Qed.

Lemma X15_open_failure_is_caught_witness :
  hd_error (events (snd (SmartieInit (broken_monitor "Access denied") initial_world)))
  = Some (EvMessageBox "Access denied" "Initialization Error").
Proof.
  exact (proj1 (proj2 (X15_open_failure_is_caught (broken_monitor "Access denied")
                         initial_world "Access denied" eq_refl eq_refl))).
Defined.

(** X16: missing administrator rights only add a notice.  [SmartieInit]
    shows "Administrative privileges required for this plugin" under the
    caption "Error" once when the process lacks them and never when it has
    them; with or without them it starts NVML and the hardware monitor in
    the same way, and leaves the same flag and the same handle. *)
Theorem X16_admin_check_only_warns (v : Vendor) (w : World) :
  let notice :=
    EvMessageBox "Administrative privileges required for this plugin" "Error" in
  occurrences notice (snd (SmartieInit v w))
  = ((if IsRunningAsAdmin v then 0 else 1) + occurrences notice w)%nat
  /\ nvmlInitialized (snd (SmartieInit v w))
     = nvmlInitialized (snd (SmartieInit (as_admin true v) w))
  /\ computer (snd (SmartieInit v w))
     = computer (snd (SmartieInit (as_admin true v) w))
  /\ occurrences EvComputerOpen (snd (SmartieInit v w))
     = occurrences EvComputerOpen (snd (SmartieInit (as_admin true v) w)).
Proof.
  intros notice. destruct w as [init comp log].
  unfold SmartieInit, Initialize, Open, new_Computer, modify_computer, try_catch,
    bind, get_nvmlInitialized, get_computer, set_computer, MessageBoxA, emit,
    set_nvmlInitialized, throw, ret, occurrences, notice, as_admin.
  destruct (IsRunningAsAdmin v), init; cbn;
    try destruct (nvmlInit v =? NVML_SUCCESS); cbn;
    destruct comp; cbn; try destruct (Computer_Open v true true); cbn;
    rewrite ?andb_false_r; cbn; repeat split; reflexivity.
Qed.

(** X17: a second [SmartieFini] in succession does nothing: it returns in
    the state the first one left, with no further call of [nvmlShutdown] or
    [Computer::Close]. *)
Theorem X17_shutdown_twice (w : World) :
  SmartieFini (snd (SmartieFini w)) = (Ret tt, snd (SmartieFini w)).
Proof.
  apply SmartieFini_not_initialized. apply SmartieFini_clears_flag.
Qed.

(** X18: start and stop undo each other.  When NVML is up after
    [SmartieInit] - it was up before, or [nvmlInit] succeeds - the
    [SmartieFini] that follows leaves the flag unset and the handle null,
    with one more [nvmlShutdown] and one more [Computer::Close] in the log:
    whatever [SmartieInit] opened is closed again. *)
Theorem X18_start_then_stop (v : Vendor) (w : World) :
  nvmlInitialized w || (nvmlInit v =? NVML_SUCCESS) = true ->
  let w' := snd (SmartieFini (snd (SmartieInit v w))) in
  nvmlInitialized w' = false
  /\ computer w' = None
  /\ occurrences EvNvmlShutdown w' = S (occurrences EvNvmlShutdown w)
  /\ occurrences EvComputerClose w' = S (occurrences EvComputerClose w).
Proof.
  intros Hup. destruct w as [init comp log]. cbn [nvmlInitialized] in Hup.
  unfold SmartieFini, Close, SmartieInit, Initialize, Open, new_Computer,
    modify_computer, try_catch, bind, get_nvmlInitialized, get_computer,
    set_computer, MessageBoxA, emit, set_nvmlInitialized, throw, ret, occurrences.
  destruct (IsRunningAsAdmin v), init; cbn in *;
    try rewrite Hup; cbn;
    destruct comp; cbn; try destruct (Computer_Open v true true); cbn;
    repeat split; reflexivity.
Qed.

Lemma X18_start_then_stop_witness :
  nvmlInitialized (snd (SmartieFini (snd (SmartieInit Bench.healthy initial_world))))
  = false
  /\ computer (snd (SmartieFini (snd (SmartieInit Bench.healthy initial_world))))
     = None.
Proof.
  pose proof (X18_start_then_stop Bench.healthy initial_world eq_refl) as [F [C _]].
  exact (conj F C).
Defined.

(** X19: after [SmartieFini], in whatever state it was called, every GPU
    query is answered "NVML not initialized" until the next
    [SmartieInit]. *)
Theorem X19_gpu_query_after_shutdown
  (v : Vendor) (w : World) (param1 param2 : string) :
  function2 v param1 param2 (snd (SmartieFini w))
  = (Ret "NVML not initialized", snd (SmartieFini w)).
Proof.
  apply function2_gate_closed. apply SmartieFini_clears_flag.
Qed.

Lemma seen_hardware_result (v : Vendor) (w1 w2 : World) :
  computer w1 = computer w2 ->
  fst (seen_hardware v w1) = fst (seen_hardware v w2).
Proof.
  intros H. destruct (computer w1) as [c|] eqn:H1.
  - rewrite (seen_hardware_open v w1 c H1).
    now rewrite (seen_hardware_open v w2 c (eq_sym H)).
  - rewrite (seen_hardware_first v w1 H1), (seen_hardware_first v w2 (eq_sym H)).
    now destruct (Computer_Open v true true).
Qed.

(** X20: the CPU queries do not depend on NVML.  The answer of [function1]
    is the same whether the NVML flag is set or not, and whatever the log
    holds: it is a function of the handle and of the hardware alone. *)
Theorem X20_cpu_query_without_nvml
  (cfg : Config) (v : Vendor) (w1 w2 : World) (param1 param2 : string) :
  computer w1 = computer w2 ->
  fst (function1 cfg v param1 param2 w1) = fst (function1 cfg v param1 param2 w2).
Proof.
  intros H. apply (seen_hardware_result v) in H.
  destruct (seen_hardware v w1) as [[hs1|e1] w1'] eqn:Hseen1;
    destruct (seen_hardware v w2) as [[hs2|e2] w2'] eqn:Hseen2;
    cbn [fst] in H; try discriminate H; injection H as <-;
    unfold function1;
    unfold GetCpuLoad, GetCpuPower, GetCpuTemperature, GetCpuFanSpeedRPM,
      GetCpuFanSpeed, GetCpuFrequency.
  - repeat match goal with
           | |- context [streq param1 ?lit] => destruct (streq param1 lit)
           end;
      try reflexivity;
      unfold bind at 1; rewrite (bind_seen _ _ _ _ _ Hseen1);
      unfold bind at 1; rewrite (bind_seen _ _ _ _ _ Hseen2);
      repeat match goal with
             | |- context [scan_cpu ?a ?b ?c] => destruct (scan_cpu a b c)
             | |- context [fan_in_hardware ?a ?b ?c ?d] =>
                 destruct (fan_in_hardware a b c d)
             end;
      unfold ret;
      repeat match goal with
             | |- context [if ?b then _ else _] => destruct b
             end; reflexivity.
  - repeat match goal with
           | |- context [streq param1 ?lit] => destruct (streq param1 lit)
           end;
      try reflexivity;
      unfold bind at 1; rewrite (bind_seen_throw _ _ _ _ _ Hseen1);
      unfold bind at 1; rewrite (bind_seen_throw _ _ _ _ _ Hseen2); reflexivity.
Qed.

Lemma X20_cpu_query_without_nvml_witness :
  fst (function1 source_config Bench.healthy "Temp" "1" (Bench.started Bench.healthy))
  = fst (function1 source_config Bench.healthy "Temp" "1" (Bench.started Bench.no_gpu)).
Proof.
  apply X20_cpu_query_without_nvml. reflexivity.
Defined.

(* ================================================================= *)
(** ** What every answer has in common *)

Lemma substring_length (n : nat) (s : string) :
  (String.length (substring 0 n s) <= n)%nat.
Proof.
  revert s. induction n as [|n IH]; intros [|c s]; simpl; try lia.
  specialize (IH s). lia.
Qed.

Lemma snprintf_length (fmt : string) (args : list printf_arg) :
  (String.length (snprintf tempStr_size fmt args) <= 255)%nat.
Proof. unfold snprintf. apply (substring_length 255). Qed.

Ltac fits :=
  cbn [fst]; intros H; apply Ret_inj in H; subst; apply snprintf_length.

Lemma function1_fits (cfg : Config) (v : Vendor) (w : World)
      (param1 param2 s : string) :
  fst (function1 cfg v param1 param2 w) = Ret s -> (String.length s <= 255)%nat.
Proof.
  destruct (seen_hardware v w) as [[hs|e] w'] eqn:Hseen;
    unfold function1;
    unfold GetCpuLoad, GetCpuPower, GetCpuTemperature, GetCpuFanSpeedRPM,
      GetCpuFanSpeed, GetCpuFrequency.
  - repeat match goal with
           | |- context [streq param1 ?lit] => destruct (streq param1 lit)
           end;
      try (unfold ret; fits);
      unfold bind at 1; rewrite (bind_seen _ _ _ _ _ Hseen);
      repeat match goal with
             | |- context [scan_cpu ?a ?b ?c] => destruct (scan_cpu a b c)
             | |- context [fan_in_hardware ?a ?b ?c ?d] =>
                 destruct (fan_in_hardware a b c d)
             end;
      unfold ret;
      repeat match goal with
             | |- context [if ?b then _ else _] => destruct b
             end; fits.
  - repeat match goal with
           | |- context [streq param1 ?lit] => destruct (streq param1 lit)
           end;
      try (unfold ret; fits);
      unfold bind at 1; rewrite (bind_seen_throw _ _ _ _ _ Hseen); discriminate.
Qed.

Lemma function2_fits (v : Vendor) (w : World) (param1 param2 s : string) :
  fst (function2 v param1 param2 w) = Ret s -> (String.length s <= 255)%nat.
Proof.
  unfold function2, checkNvmlInitialized, bind, get_nvmlInitialized, ret, throw.
  destruct (nvmlInitialized w); cbn [negb];
    [|fits].
  destruct (nvmlDeviceGetHandleByIndex v 0) as [result device].
  destruct (negb (result =? NVML_SUCCESS)); [fits|].
  repeat match goal with
         | |- context [streq param1 ?lit] => destruct (streq param1 lit)
         end;
    repeat match goal with
           | |- context [let '(_, _) := ?q in _] => destruct q
           end;
    repeat match goal with
           | |- context [if ?b then _ else _] => destruct b
           end; solve [fits | discriminate].
Qed.

(** X21: every text a query returns fits the 256-byte buffer with its
    terminator: it has at most 255 characters, whatever the sensors read
    and however long the text NVML gives for a status. *)
Theorem X21_answer_fits_buffer
  (cfg : Config) (d : Domain) (v : Vendor) (w : World)
  (metricName flag s : string) :
  fst (queryMetric cfg d v metricName flag w) = Ret s ->
  (String.length s <= 255)%nat.
Proof.
  destruct d; cbn [queryMetric]; [apply function1_fits | apply function2_fits].
Qed.

Lemma X21_answer_fits_buffer_witness : (String.length "61°C" <= 255)%nat.
Proof.
  exact (X21_answer_fits_buffer source_config GPU Bench.healthy
           (Bench.started Bench.healthy) "Temp" "1" _ eq_refl).
Defined.

(** X22: units are shown for the flag "1" and for no other: every flag
    whose text is not exactly "1" - "0", the empty text, "2", "true", "11"
    - is answered as "0" is, in both domains and in every state. *)
Theorem X22_flag_other_than_one
  (cfg : Config) (d : Domain) (v : Vendor) (w : World) (metricName flag : string) :
  c_str flag <> "1" ->
  queryMetric cfg d v metricName flag w = queryMetric cfg d v metricName "0" w.
Proof.
  intros H. apply (streq_false_iff flag "1") in H.
  destruct d; cbn [queryMetric]; unfold function1, function2; rewrite H;
    change (streq "0" "1") with false; reflexivity.
Qed.

Lemma X22_flag_other_than_one_witness :
  queryMetric source_config CPU Bench.healthy "Load" "true" initial_world
  = queryMetric source_config CPU Bench.healthy "Load" "0" initial_world.
Proof.
  apply X22_flag_other_than_one. discriminate.
Defined.

(* ================================================================= *)
(** ** The GPU router, behind the gate *)

(** X23: when the handle of device 0 cannot be obtained, every GPU query -
    supported name or not, either flag - is answered "GPU handle error: "
    followed by the text NVML gives for the status, cut to the 255
    characters the buffer holds. *)
Theorem X23_gpu_handle_error
  (v : Vendor) (w : World) (param1 param2 : string)
  (result : nvmlReturn_t) (device : nvmlDevice_t) :
  nvmlInitialized w = true ->
  nvmlDeviceGetHandleByIndex v 0 = (result, device) ->
  result <> NVML_SUCCESS ->
  function2 v param1 param2 w
  = (Ret (substring 0 255 ("GPU handle error: " ++ c_str (nvmlErrorString v result))), w).
Proof.
  intros Hinit Hdev Hfail. apply Z.eqb_neq in Hfail.
  unfold function2, checkNvmlInitialized, bind, get_nvmlInitialized, ret.
  rewrite Hinit. cbn [negb]. rewrite Hdev, Hfail. cbn [negb].
  unfold snprintf. cbn [format]. now rewrite append_empty_r.
Qed.

Lemma X23_gpu_handle_error_witness :
  function2 (lost_device 15 "GPU is lost") "Volts" "1"
            (Bench.started (lost_device 15 "GPU is lost"))
  = (Ret "GPU handle error: GPU is lost", Bench.started (lost_device 15 "GPU is lost")).
Proof.
  apply (X23_gpu_handle_error (lost_device 15 "GPU is lost") _ "Volts" "1" 15 0);
    solve [reflexivity | discriminate].
Defined.

(** The branch of the metric [m], whose query [q] failed. *)
Ltac failed_query m q Hfail :=
  pick m;
  match goal with
  | v : Vendor, device : nvmlDevice_t |- _ =>
      change (gpu_query_status v device m) with (fst q) in *
  end;
  destruct q as [r x]; cbn [fst] in *; rewrite Hfail; cbn [negb];
  unfold snprintf; cbn [format]; rewrite append_empty_r; reflexivity.

(** X24: when the NVML query behind a GPU metric fails, the answer is the
    error text of the metric followed by the text NVML gives for the
    status, cut to the 255 characters the buffer holds, under either flag:
    no number is made up and no unit is added.  "Mem_Alloc" and
    "Mem_Usage" share one text. *)
Theorem X24_gpu_query_failure
  (v : Vendor) (w : World) (metricName words flag : string)
  (device : nvmlDevice_t) :
  In (metricName, words) gpu_error_prefixes ->
  nvmlInitialized w = true ->
  nvmlDeviceGetHandleByIndex v 0 = (NVML_SUCCESS, device) ->
  gpu_query_status v device metricName <> NVML_SUCCESS ->
  function2 v metricName flag w
  = (Ret (substring 0 255
            (words ++ c_str (nvmlErrorString v (gpu_query_status v device metricName)))),
     w).
Proof.
  intros Hin Hinit Hdev Hfail. apply Z.eqb_neq in Hfail.
  cbn [gpu_error_prefixes In] in Hin.
  repeat (destruct Hin as [Hin|Hin]; [injection Hin as <- <-|]); [..|contradiction];
    gpu_gate Hinit Hdev.
  - failed_query "Temp" (nvmlDeviceGetTemperature v device NVML_TEMPERATURE_GPU) Hfail.
  - failed_query "Limit" (nvmlDeviceGetCurrentClocksThrottleReasons v device) Hfail.
  - failed_query "Fan" (nvmlDeviceGetFanSpeed v device) Hfail.
  - failed_query "Power" (nvmlDeviceGetPowerUsage v device) Hfail.
  - failed_query "Clock"
      (nvmlDeviceGetClock v device NVML_CLOCK_GRAPHICS NVML_CLOCK_ID_CURRENT) Hfail.
  - failed_query "Mem_Clock"
      (nvmlDeviceGetClock v device NVML_CLOCK_MEM NVML_CLOCK_ID_CURRENT) Hfail.
  - failed_query "Mem_Alloc" (nvmlDeviceGetMemoryInfo v device) Hfail.
  - failed_query "Mem_Usage" (nvmlDeviceGetMemoryInfo v device) Hfail.
  - failed_query "Load" (nvmlDeviceGetUtilizationRates v device) Hfail.
Qed.

Lemma X24_gpu_query_failure_witness :
  function2 (Bench.vendor Bench.healthy_machine 0 9 0 0 1 2) "Mem_Usage" "1"
            (Bench.started Bench.healthy)
  = (Ret "Error getting memory usage: Unknown Error", Bench.started Bench.healthy).
Proof.
  refine (X24_gpu_query_failure (Bench.vendor Bench.healthy_machine 0 9 0 0 1 2)
            (Bench.started Bench.healthy) "Mem_Usage" "Error getting memory usage: "
            "1" 1 _ eq_refl eq_refl _).
  - simpl. tauto.
  - discriminate.
Defined.

(** X25: with no more memory in use than there is, "Mem_Usage" never
    shows more than 100: when the memory query succeeds with
    [0 <= used <= total] and [0 < total < 2 ^ 64] the answer is a number
    from 0 to 100, followed by "%" when units are asked for.  (Where
    [used * 100] wraps in 64 bits the number is too small, not too
    large.) *)
Theorem X25_memory_usage_at_most_100
  (v : Vendor) (w : World) (flag : string) (device : nvmlDevice_t)
  (memInfo : nvmlMemory_t) :
  nvmlInitialized w = true ->
  nvmlDeviceGetHandleByIndex v 0 = (NVML_SUCCESS, device) ->
  nvmlDeviceGetMemoryInfo v device = (NVML_SUCCESS, memInfo) ->
  0 < total memInfo < 2 ^ 64 ->
  0 <= used memInfo <= total memInfo ->
  exists n, 0 <= n <= 100
    /\ function2 v "Mem_Usage" flag w
       = (Ret (decimal n ++ (if streq flag "1" then "%" else ""))%string, w).
Proof.
  intros Hinit Hdev Hq Htotal Hused.
  exists (ullong (used memInfo * 100) / total memInfo).
  assert (0 <= ullong (used memInfo * 100) <= used memInfo * 100) as Hwrap.
  { unfold ullong, ULLONG_MODULUS. split.
    - apply Z.mod_pos_bound. lia.
    - apply Z.mod_le; lia. }
  assert (0 <= ullong (used memInfo * 100) / total memInfo <= 100) as Hn.
  { split; [apply Z.div_pos; lia|].
    apply Z.div_le_upper_bound; lia. }
  split; [exact Hn|].
  gpu_gate Hinit Hdev. pick "Mem_Usage".
  rewrite Hq. cbn [negb Z.eqb NVML_SUCCESS].
  rewrite (ullong_small (total memInfo)) by lia.
  rewrite (ullong_small (used memInfo)) by lia.
  destruct (Z.eqb_spec (total memInfo) 0) as [E|_]; [lia|].
  destruct (streq flag "1").
  - rewrite reply_percent, !(uint_small (ullong (used memInfo * 100) / total memInfo)) by lia.
    reflexivity.
  - rewrite reply_plain, !(uint_small (ullong (used memInfo * 100) / total memInfo)) by lia.
    now rewrite append_empty_r.
Qed.

Lemma X25_memory_usage_at_most_100_witness :
  exists n, 0 <= n <= 100
    /\ function2 Bench.healthy "Mem_Usage" "1" (Bench.started Bench.healthy)
       = (Ret (decimal n ++ "%")%string, Bench.started Bench.healthy).
Proof.
  apply (X25_memory_usage_at_most_100 Bench.healthy (Bench.started Bench.healthy) "1" 1
           (mkMemory 8589934592 (8589934592 - 2147483648) 2147483648));
    solve [reflexivity | simpl; lia].
Defined.

(** X26: the GPU temperature, fan speed and load are passed on as NVML
    delivers them: the unsigned value in decimal, unconverted, followed by
    the unit of the metric when units are asked for. *)
Theorem X26_gpu_raw_reading
  (v : Vendor) (w : World) (metricName unit flag : string)
  (device : nvmlDevice_t) (x : Z) :
  In (metricName, unit) [("Temp", "°C"); ("Fan", "%"); ("Load", "%")] ->
  nvmlInitialized w = true ->
  nvmlDeviceGetHandleByIndex v 0 = (NVML_SUCCESS, device) ->
  gpu_raw_reading v device metricName = (NVML_SUCCESS, x) ->
  function2 v metricName flag w
  = (Ret (decimal (uint x) ++ (if streq flag "1" then unit else ""))%string, w).
Proof.
  intros Hin Hinit Hdev Hq. cbn [In] in Hin.
  repeat (destruct Hin as [Hin|Hin]; [injection Hin as <- <-|]); [..|contradiction];
    gpu_gate Hinit Hdev.
  - pick "Temp".
    change (gpu_raw_reading v device "Temp")
      with (nvmlDeviceGetTemperature v device NVML_TEMPERATURE_GPU) in Hq.
    rewrite Hq. cbn [negb Z.eqb NVML_SUCCESS].
    destruct (streq flag "1");
      [now rewrite reply_celsius | now rewrite reply_plain, append_empty_r].
  - pick "Fan".
    change (gpu_raw_reading v device "Fan") with (nvmlDeviceGetFanSpeed v device) in Hq.
    rewrite Hq. cbn [negb Z.eqb NVML_SUCCESS].
    destruct (streq flag "1");
      [now rewrite reply_percent | now rewrite reply_plain, append_empty_r].
  - pick "Load".
    change (gpu_raw_reading v device "Load")
      with (fst (nvmlDeviceGetUtilizationRates v device),
            gpu (snd (nvmlDeviceGetUtilizationRates v device))) in Hq.
    destruct (nvmlDeviceGetUtilizationRates v device) as [r u].
    cbn [fst snd] in Hq. injection Hq as -> <-. cbn [negb Z.eqb NVML_SUCCESS].
    destruct (streq flag "1");
      [now rewrite reply_percent | now rewrite reply_plain, append_empty_r].
Qed.

Lemma X26_gpu_raw_reading_witness :
  function2 Bench.healthy "Load" "1" (Bench.started Bench.healthy)
  = (Ret "99%", Bench.started Bench.healthy).
Proof.
  refine (X26_gpu_raw_reading Bench.healthy (Bench.started Bench.healthy)
            "Load" "%" "1" 1 99 _ eq_refl eq_refl eq_refl).
  simpl. tauto.
Defined.

(* ================================================================= *)
(** ** The GPU clocks in gigahertz

    [clock / 1000.0f] is computed in binary32 and printed with two
    decimals.  For the clocks of any hardware the rounding of the division
    is far smaller than the step of the display, so what is shown is the
    clock to the nearest hundredth of a gigahertz. *)

(** [round_half_even] gives a nearest integer. *)
Lemma round_half_even_nearest (num den : Z) :
  0 < den ->
  2 * (round_half_even num den * den - num) <= den
  /\ 2 * (num - round_half_even num den * den) <= den.
Proof.
  intros Hden. unfold round_half_even.
  pose proof (Z.div_mod num den) as Hdm.
  pose proof (Z.mod_pos_bound num den Hden) as Hr.
  set (q := num / den) in *. set (r := num mod den) in *.
  assert (num = q * den + r) as E by lia.
  destruct (Z.compare_spec (2 * r) den); try destruct (Z.even q); lia.
Qed.

Lemma F32_of_Z_small (c : Z) :
  0 < c < 2 ^ 24 ->
  exists m, F32.of_Z c = S754_finite false m (Zdigits2 c - 24)
            /\ Zpos m = c * 2 ^ (24 - Zdigits2 c).
Proof.
  intros [Hpos Hmax]. destruct c as [|p|p]; try lia.
  unfold F32.of_Z, binary_normalize.
  assert (Zdigits2 (Zpos p) <= 24) as Hd by (apply Zdigits2_le; lia).
  pose proof (Zdigits2_pos (Zpos p) eq_refl) as Hd0.
  destruct (binary_round_small F32.prec F32.emax eq_refl false p 0) as [m [E Hm]];
    try (unfold emin, F32.prec, F32.emax in *; lia).
  exists m. unfold F32.prec in *. split; [|exact Hm].
  rewrite E. f_equal. lia.
Qed.

(** The quotient of a clock by 1000: a thousand times the quotient is
    within half a megahertz of the clock (written on the scale
    [2 ^ -33]). *)
Lemma F32_div_1000 (c : Z) :
  0 < c < 2 ^ 22 ->
  exists m e,
    F32.div (F32.of_Z c) (F32.of_Z 1000) = S754_finite false m e
    /\ -33 <= e <= -10
    /\ c * 2 ^ 33 - 2 ^ 32 < 1000 * (Zpos m * 2 ^ (e + 33)) < c * 2 ^ 33 + 2 ^ 32.
Proof.
  intros Hc.
  destruct (F32_of_Z_small c) as [m1 [Hx Hm1]]; [lia|].
  set (d := Zdigits2 c) in *.
  assert (1 <= d <= 22) as Hd.
  { split; [pose proof (Zdigits2_pos c); lia|apply Zdigits2_le; lia]. }
  pose proof (Zdigits2_bounds c (proj1 Hc)) as [Plo Phi]. fold d in Plo, Phi.
  set (a := 2 ^ (34 - d)).
  set (A := 2 ^ (d - 1)).
  assert (0 < a) as Ha by (apply pow2_pos; lia).
  assert (0 < A) as HA by (apply pow2_pos; lia).
  assert (a * A = 2 ^ 33) as HaA.
  { unfold a, A. rewrite <- pow2_split by lia. f_equal. lia. }
  assert (A <= 2 ^ 21) as HA21 by (apply Z.pow_le_mono_r; lia).
  assert (2 ^ d = 2 * A) as HdA.
  { unfold A. replace d with (1 + (d - 1)) at 1 by lia. now rewrite pow2_split by lia. }
  assert (2 ^ 33 <= c * a < 2 ^ 34) as [PAlo PAhi].
  { rewrite <- HaA. split.
    - rewrite (Z.mul_comm a A). apply Z.mul_le_mono_nonneg_r; lia.
    - replace (2 ^ 34) with (2 * 2 ^ 33) by reflexivity. rewrite <- HaA.
      replace (2 * (a * A)) with ((2 * A) * a) by ring.
      apply Z.mul_lt_mono_pos_r; lia. }
  assert (Zpos m1 * 2 ^ 24 = (c * a) * 2 ^ 14) as Hnum.
  { rewrite Hm1. unfold a. replace (34 - d) with ((24 - d) + 10) by lia.
    rewrite pow2_split by lia. change (2 ^ 24) with (2 ^ 10 * 2 ^ 14). ring. }
  assert (Zdigits2 (Zpos m1) = 24) as Hd1.
  { apply Zdigits2_unique; [|lia]. rewrite Hm1.
    assert (2 ^ (24 - d) * 2 ^ 10 = a) as E.
    { unfold a. rewrite <- pow2_split by lia. f_equal. lia. }
    change (2 ^ 10) with 1024 in E.
    change (2 ^ (24 - 1)) with 8388608. change (2 ^ 24) with 16777216.
    change (2 ^ 33) with 8589934592 in PAlo. change (2 ^ 34) with 17179869184 in PAhi.
    lia. }
  rewrite Hx.
  change (F32.of_Z 1000) with (S754_finite false 16384000 (-14)).
  unfold F32.div, SFdiv. rewrite SFdiv_core_binary_spec. rewrite Hd1.
  change (Zdigits2 16384000) with 24.
  replace (Z.min (fexp F32.prec F32.emax (24 + (d - 24) - (24 + -14))) (d - 24 - -14))
    with (d - 34) by (unfold fexp, emin, F32.prec, F32.emax; lia).
  replace (d - 24 - -14 - (d - 34)) with 24 by lia.
  rewrite Hnum. change 16384000 with (1000 * 2 ^ 14).
  rewrite Z.div_mul_cancel_r by lia.
  set (q := c * a / 1000).
  assert (1000 * q <= c * a < 1000 * q + 1000) as [Qlo Qhi].
  { unfold q. pose proof (Z.div_mod (c * a) 1000). pose proof (Z.mod_pos_bound (c * a) 1000). lia. }
  assert (2 ^ 23 <= q < 2 ^ 25) as [Q23 Q25].
  { change (2 ^ 33) with 8589934592 in PAlo. change (2 ^ 34) with 17179869184 in PAhi.
    change (2 ^ 23) with 8388608. change (2 ^ 25) with 33554432. lia. }
  assert (24 <= Zdigits2 q <= 25) as Hdq.
  { split; [apply Zdigits2_ge; lia|apply Zdigits2_le; lia]. }
  match goal with
  | |- context [binary_round_aux _ _ _ q _ ?l] =>
      destruct (binary_round_aux_normal F32.prec F32.emax eq_refl false q (d - 34) l)
        as [my [j [E [Hj [HM Hmy]]]]]
  end; try (unfold emin, F32.prec, F32.emax in *; lia).
  exists my, (d - 34 + (Zdigits2 q - F32.prec) + j).
  split; [exact E|]. unfold F32.prec in *. split; [lia|].
  set (n := Zdigits2 q - 24) in *.
  replace (d - 34 + n + j + 33) with (j + (n + (d - 1))) by lia.
  assert (0 <= n <= 1) as Hn by lia.
  rewrite !pow2_split by lia. fold A.
  set (b := 2 ^ n) in *. set (J := 2 ^ j) in *.
  assert (b = 1 \/ b = 2) as Hb.
  { unfold b. assert (n = 0 \/ n = 1) as [->| ->] by lia; auto. }
  set (M := Zpos my * J) in *.
  replace (Zpos my * (J * (b * A))) with (M * b * A) by (unfold M; ring).
  assert (b * (q / b) <= q < b * (q / b) + b) as [Dlo Dhi].
  { pose proof (Z.div_mod q b). pose proof (Z.mod_pos_bound q b). lia. }
  set (q1 := q / b) in *.
  assert (q - b + 1 <= M * b <= q + b) as [Mlo Mhi] by (clear - HM Dlo Dhi Hb; nia).
  assert (b * A <= 2 * A) as HbA by (clear - Hb HA; nia).
  assert (c * 2 ^ 33 = c * a * A) as HpT by (rewrite <- HaA; ring).
  change (2 ^ 32) with (2048 * 2 ^ 21).
  split.
  - pose proof (Z.mul_le_mono_nonneg_r _ _ A (Z.lt_le_incl _ _ HA) Mlo) as H1.
    assert (c * a <= 1000 * q + 999) as Qhi' by lia.
    pose proof (Z.mul_le_mono_nonneg_r _ _ A (Z.lt_le_incl _ _ HA) Qhi') as H2.
    rewrite HpT. clear - H1 H2 HbA HA21 HA. lia.
  - pose proof (Z.mul_le_mono_nonneg_r _ _ A (Z.lt_le_incl _ _ HA) Mhi) as H1.
    pose proof (Z.mul_le_mono_nonneg_r _ _ A (Z.lt_le_incl _ _ HA) Qlo) as H2.
    rewrite HpT. clear - H1 H2 HbA HA21 HA. lia.
Qed.

(** What the display shows of a clock of [c] MHz: the hundredths [n] of a
    gigahertz nearest to it. *)
Lemma clock_text (c : Z) :
  0 <= c < 2 ^ 22 ->
  exists n,
    0 <= n /\ -5 <= 10 * n - c <= 5
    /\ fixed 2 (F32.div (F32.of_Z c) (F32.of_Z 1000))
       = (decimal (n / 100) ++ "." ++ pad_left 2 (decimal (n mod 100)))%string.
Proof.
  intros Hc. destruct (Z.eq_dec c 0) as [->|Hpos].
  - exists 0. split; [lia|]. split; [lia|]. reflexivity.
  - destruct (F32_div_1000 c) as [m [e [E [He [Blo Bhi]]]]]; [lia|].
    rewrite E. destruct e as [|p|p]; try lia.
    cbn [fixed sign_text]. change (10 ^ Z.of_nat 2) with 100.
    set (R := 2 ^ Zpos p). set (n := round_half_even (Zpos m * 100) R).
    exists n.
    assert (0 < R) as HR by (apply pow2_pos; lia).
    pose proof (round_half_even_nearest (Zpos m * 100) R HR) as [Nhi Nlo].
    pose proof (round_half_even_bounds (Zpos m * 100) R) as [Nge _].
    fold n in Nhi, Nlo, Nge.
    assert (0 <= Zpos m * 100 / R) by (apply Z.div_pos; lia).
    set (G := 2 ^ (Zneg p + 33)) in *.
    assert (0 < G) as HG by (apply pow2_pos; lia).
    assert (R * G = 2 ^ 33) as HRG.
    { unfold R, G. rewrite <- pow2_split by lia. f_equal. lia. }
    set (V := Zpos m * G) in *.
    pose proof (Z.mul_le_mono_nonneg_r _ _ G (Z.lt_le_incl _ _ HG) Nhi) as H1.
    pose proof (Z.mul_le_mono_nonneg_r _ _ G (Z.lt_le_incl _ _ HG) Nlo) as H2.
    replace (2 * (n * R - Zpos m * 100) * G) with (2 * (n * (R * G) - 100 * V)) in H1
      by (unfold V; ring).
    replace (2 * (Zpos m * 100 - n * R) * G) with (2 * (100 * V - n * (R * G))) in H2
      by (unfold V; ring).
    rewrite HRG in H1, H2.
    change (2 ^ 33) with 8589934592 in *. change (2 ^ 32) with 4294967296 in *.
    split; [lia|]. split; [clear - H1 H2 Blo Bhi; lia|]. reflexivity.
Qed.

(** X27: the GPU clocks are shown to the nearest hundredth of a gigahertz.
    For a core or memory clock of [c] MHz, [0 <= c < 2 ^ 22], "Clock" and
    "Mem_Clock" show a whole number of hundredths [n] as its integer part,
    a point and two digits, with [n] no further than 5 MHz from [c],
    followed by "GHz" when units are asked for: the rounding of the
    binary32 division never moves the display by a step. *)
Theorem X27_gpu_clock_nearest_hundredth
  (v : Vendor) (w : World) (metricName flag : string) (clockType : nvmlClockType_t)
  (device : nvmlDevice_t) (c : Z) :
  In (metricName, clockType) [("Clock", NVML_CLOCK_GRAPHICS); ("Mem_Clock", NVML_CLOCK_MEM)] ->
  nvmlInitialized w = true ->
  nvmlDeviceGetHandleByIndex v 0 = (NVML_SUCCESS, device) ->
  nvmlDeviceGetClock v device clockType NVML_CLOCK_ID_CURRENT = (NVML_SUCCESS, c) ->
  0 <= c < 2 ^ 22 ->
  exists n,
    0 <= n /\ -5 <= 10 * n - c <= 5
    /\ function2 v metricName flag w
       = (Ret (decimal (n / 100) ++ "." ++ pad_left 2 (decimal (n mod 100))
               ++ (if streq flag "1" then "GHz" else ""))%string, w).
Proof.
  intros Hin Hinit Hdev Hq Hc.
  destruct (clock_text c Hc) as [n [Hn [Hnear Htext]]].
  exists n. split; [exact Hn|]. split; [exact Hnear|].
  assert (representable F32.prec F32.emax (F32.div (F32.of_Z c) (F32.of_Z 1000))) as Hrep
    by (apply F32_div_representable; unfold INT_MAX; lia).
  assert (uint c = c) as Hu by (apply uint_small; lia).
  cbn [In] in Hin.
  repeat (destruct Hin as [Hin|Hin]; [injection Hin as <- <-|]); [..|contradiction];
    gpu_gate Hinit Hdev.
  - pick "Clock". rewrite Hq, Hu. cbn [negb Z.eqb NVML_SUCCESS].
    destruct (streq flag "1").
    + rewrite (reply_fixed 2 "2" _ "GHz") by (auto; simpl; lia).
      rewrite Htext. now rewrite !append_assoc.
    + rewrite (reply_fixed 2 "2" _ "") by (auto; simpl; lia).
      rewrite Htext. now rewrite !append_assoc.
  - pick "Mem_Clock". rewrite Hq, Hu. cbn [negb Z.eqb NVML_SUCCESS].
    destruct (streq flag "1").
    + rewrite (reply_fixed 2 "2" _ "GHz") by (auto; simpl; lia).
      rewrite Htext. now rewrite !append_assoc.
    + rewrite (reply_fixed 2 "2" _ "") by (auto; simpl; lia).
      rewrite Htext. now rewrite !append_assoc.
Qed.

Lemma X27_gpu_clock_nearest_hundredth_witness :
  exists n,
    0 <= n /\ -5 <= 10 * n - 7000 <= 5
    /\ function2 Bench.healthy "Mem_Clock" "1" (Bench.started Bench.healthy)
       = (Ret (decimal (n / 100) ++ "." ++ pad_left 2 (decimal (n mod 100)) ++ "GHz")%string,
          Bench.started Bench.healthy).
Proof.
  refine (X27_gpu_clock_nearest_hundredth Bench.healthy (Bench.started Bench.healthy)
            "Mem_Clock" "1" NVML_CLOCK_MEM 1 7000 _ eq_refl eq_refl eq_refl _).
  - simpl. tauto.
  - lia.
Defined.

(* ================================================================= *)
(** ** The fan percentage of a whole number of RPM

    [(currentSpeed / maxFanSpeed) * 100.0f] is computed with one rounding
    after the division and one after the multiplication, in binary32 or in
    a wider format as the build has it, and cut to an [int].  For a fan
    that reports [k] RPM the roundings stay below one part in [2 ^ 20], so
    the result is [100 * k / M] rounded down - or one less, when that
    quotient is a whole number and the product comes out just below it. *)

Lemma eval_prec_bounds (m : FloatEval) : 24 <= Eval.prec m <= 64.
Proof. destruct m; simpl; lia. Qed.

Lemma eval_emax_bounds (m : FloatEval) : 128 <= Eval.emax m.
Proof. destruct m; simpl; lia. Qed.

Section Evaluation.

Variables prec emax : Z.
Hypothesis prec_ge : 24 <= prec.
Hypothesis emax_ge : 128 <= emax.

Let prec_pos : 0 < prec.
Proof. lia. Qed.

(** An [int] of at most 24 bits is converted exactly. *)
Lemma normalize_small (M : Z) :
  0 < M < 2 ^ 24 ->
  exists m, binary_normalize prec emax M 0 false
            = S754_finite false m (Zdigits2 M - prec)
            /\ Zpos m = M * 2 ^ (prec - Zdigits2 M)
            /\ Zdigits2 (Zpos m) = prec.
Proof.
  intros [Hpos Hmax]. destruct M as [|p|p]; try lia.
  unfold binary_normalize.
  assert (Zdigits2 (Zpos p) <= 24) as Hd by (apply Zdigits2_le; lia).
  pose proof (Zdigits2_pos (Zpos p) eq_refl) as Hd0.
  pose proof (Zdigits2_bounds (Zpos p) eq_refl) as [Blo Bhi].
  destruct (binary_round_small prec emax prec_pos false p 0) as [m [E Hm]];
    try (unfold emin; lia).
  exists m. split; [rewrite E; f_equal; lia|]. split; [exact Hm|].
  set (d := Zdigits2 (Zpos p)) in *.
  assert (0 < 2 ^ (prec - d)) as Hp by (apply pow2_pos; lia).
  assert (2 ^ (d - 1) * 2 ^ (prec - d) = 2 ^ (prec - 1)) as E1
    by (rewrite <- pow2_split by lia; f_equal; lia).
  assert (2 ^ d * 2 ^ (prec - d) = 2 ^ prec) as E2
    by (rewrite <- pow2_split by lia; f_equal; lia).
  apply Zdigits2_unique; [|lia]. rewrite Hm, <- E1, <- E2. split.
  - apply Z.mul_le_mono_nonneg_r; lia.
  - apply Z.mul_lt_mono_pos_r; lia.
Qed.

(** The quotient of two whole numbers. *)
Lemma div_whole (k M : Z) :
  0 < k < 2 ^ 24 -> 0 < M < 2 ^ 24 ->
  let E1 := prec + Zdigits2 M - Zdigits2 k in
  exists my ey,
    SFdiv prec emax (F32.of_Z k) (binary_normalize prec emax M 0 false)
    = S754_finite false my ey
    /\ 2 ^ (prec - 1) <= Zpos my < 2 ^ prec
    /\ - E1 <= ey <= - E1 + 2
    /\ k * 2 ^ E1 - 2 * M < M * (Zpos my * 2 ^ (ey + E1)) <= k * 2 ^ E1 + 2 * M.
Proof.
  intros Hk HM E1.
  destruct (F32_of_Z_small k Hk) as [m1 [Hx Hm1]].
  destruct (normalize_small M HM) as [m2 [Hy [Hm2 Hd2]]].
  set (dk := Zdigits2 k) in *. set (dM := Zdigits2 M) in *.
  assert (1 <= dk <= 24) as Hdk.
  { split; [pose proof (Zdigits2_pos k); lia|apply Zdigits2_le; lia]. }
  assert (1 <= dM <= 24) as HdM.
  { split; [pose proof (Zdigits2_pos M); lia|apply Zdigits2_le; lia]. }
  pose proof (Zdigits2_bounds k (proj1 Hk)) as [Klo Khi]. fold dk in Klo, Khi.
  pose proof (Zdigits2_bounds M (proj1 HM)) as [Mlo Mhi]. fold dM in Mlo, Mhi.
  assert (1 <= E1) as HE1 by (unfold E1; lia).
  set (a := 2 ^ E1).
  assert (0 < a) as Ha by (apply pow2_pos; lia).
  set (B := 2 ^ (dM - 1)) in *.
  assert (0 < B) as HB by (apply pow2_pos; lia).
  assert (2 ^ dM = 2 * B) as HdB.
  { unfold B. replace dM with (1 + (dM - 1)) at 1 by lia. now rewrite pow2_split by lia. }
  set (Pp := 2 ^ (prec - 1)).
  assert (0 < Pp) as HPp by (apply pow2_pos; lia).
  assert (2 ^ prec = 2 * Pp) as HP2.
  { unfold Pp. replace prec with (1 + (prec - 1)) at 1 by lia. now rewrite pow2_split by lia. }
  assert (2 ^ (prec + 1) = 4 * Pp) as HP4.
  { rewrite pow2_split by lia. rewrite HP2. change (2 ^ 1) with 2. ring. }
  assert (2 ^ (dk - 1) * a = 2 * Pp * B) as HKa.
  { unfold a, B, Pp, E1. change 2 with (2 ^ 1) at 3.
    rewrite <- !pow2_split by lia. f_equal. lia. }
  assert (2 * Pp * B <= k * a < 4 * Pp * B) as [KAlo KAhi].
  { rewrite <- HKa. split.
    - apply Z.mul_le_mono_nonneg_r; lia.
    - replace (4 * Pp * B) with (2 * (2 * Pp * B)) by ring.
      rewrite <- HKa.
      replace (2 * (2 ^ (dk - 1) * a)) with ((2 * 2 ^ (dk - 1)) * a) by ring.
      apply Z.mul_lt_mono_pos_r; [lia|].
      replace (2 * 2 ^ (dk - 1)) with (2 ^ dk); [lia|].
      replace dk with (1 + (dk - 1)) at 1 by lia. now rewrite pow2_split by lia. }
  assert (Zdigits2 (Zpos m1) = 24) as Hd1.
  { apply Zdigits2_unique; [|lia]. rewrite Hm1.
    assert (0 < 2 ^ (24 - dk)) as Hp by (apply pow2_pos; lia).
    assert (2 ^ (dk - 1) * 2 ^ (24 - dk) = 2 ^ (24 - 1)) as E
      by (rewrite <- pow2_split by lia; f_equal; lia).
    assert (2 ^ dk * 2 ^ (24 - dk) = 2 ^ 24) as E'
      by (rewrite <- pow2_split by lia; f_equal; lia).
    rewrite <- E, <- E'. split.
    - apply Z.mul_le_mono_nonneg_r; lia.
    - apply Z.mul_lt_mono_pos_r; lia. }
  rewrite Hx, Hy.
  unfold SFdiv. rewrite SFdiv_core_binary_spec. rewrite Hd1, Hd2.
  replace (Z.min (fexp prec emax (24 + (dk - 24) - (prec + (dM - prec))))
                 (dk - 24 - (dM - prec)))
    with (- E1) by (unfold fexp, emin, E1; lia).
  replace (dk - 24 - (dM - prec) - - E1) with (2 * prec - 24) by (unfold E1; lia).
  assert (Zpos m1 * 2 ^ (2 * prec - 24) = (k * a) * 2 ^ (prec - dM)) as Hnum.
  { rewrite Hm1. unfold a, E1.
    rewrite <- !Z.mul_assoc, <- !pow2_split by lia. do 2 f_equal. lia. }
  rewrite Hnum, Hm2.
  rewrite Z.div_mul_cancel_r by (try apply Z.neq_sym, Z.lt_neq, pow2_pos; lia).
  set (q := k * a / M).
  assert (M * q <= k * a < M * q + M) as [Qlo Qhi].
  { unfold q. pose proof (Z.div_mod (k * a) M). pose proof (Z.mod_pos_bound (k * a) M). lia. }
  assert (Pp <= q < 4 * Pp) as [Qge Qlt].
  { unfold q. split.
    - apply Z.div_le_lower_bound; [lia|].
      eapply Z.le_trans; [|exact KAlo].
      replace (2 * Pp * B) with ((2 * B) * Pp) by ring.
      apply Z.mul_le_mono_nonneg_r; lia.
    - apply Z.div_lt_upper_bound; [lia|].
      eapply Z.lt_le_trans; [exact KAhi|].
      rewrite (Z.mul_comm M). apply Z.mul_le_mono_nonneg_l; lia. }
  assert (prec <= Zdigits2 q <= prec + 1) as Hdq.
  { split.
    - apply Zdigits2_ge; [lia|]. fold Pp. exact Qge.
    - apply Zdigits2_le; [lia|]. rewrite HP4. exact Qlt. }
  match goal with
  | |- context [binary_round_aux _ _ _ q _ ?l] =>
      destruct (binary_round_aux_normal prec emax prec_pos false q (- E1) l)
        as [my [j [E [Hj [HMb Hmy]]]]]
  end; try (unfold emin, E1 in *; lia).
  exists my, (- E1 + (Zdigits2 q - prec) + j).
  split; [exact E|]. split; [exact Hmy|].
  split; [lia|].
  set (n := Zdigits2 q - prec) in *.
  replace (- E1 + n + j + E1) with (j + n) by lia.
  assert (0 <= n <= 1) as Hn by lia.
  rewrite pow2_split by lia.
  set (b := 2 ^ n) in *. set (J := 2 ^ j) in *.
  assert (b = 1 \/ b = 2) as Hb.
  { unfold b. assert (n = 0 \/ n = 1) as [->| ->] by lia; auto. }
  set (R := Zpos my * J) in *.
  replace (Zpos my * (J * b)) with (R * b) by (unfold R; ring).
  assert (b * (q / b) <= q < b * (q / b) + b) as [Dlo Dhi].
  { pose proof (Z.div_mod q b). pose proof (Z.mod_pos_bound q b). lia. }
  set (q1 := q / b) in *.
  assert (q - b + 1 <= R * b <= q + b) as [Rlo Rhi] by (clear - HMb Dlo Dhi Hb; nia).
  assert (0 <= M) as HM0 by lia.
  pose proof (Z.mul_le_mono_nonneg_l _ _ M HM0 Rlo) as H1.
  pose proof (Z.mul_le_mono_nonneg_l _ _ M HM0 Rhi) as H2.
  assert (M * b <= 2 * M) as HMb2 by (clear - Hb HM0; nia).
  clear - H1 H2 HMb2 Qlo Qhi HM0. lia.
Qed.

(** The product of a value by 100. *)
Lemma mul_100 (my : positive) (ey : Z) :
  2 ^ (prec - 1) <= Zpos my < 2 ^ prec ->
  - prec - 23 <= ey <= 25 - prec ->
  exists mz ez,
    SFmul prec emax (S754_finite false my ey) (F32.of_Z 100) = S754_finite false mz ez
    /\ ey + 6 <= ez <= ey + 8
    /\ 100 * Zpos my - 128 < Zpos mz * 2 ^ (ez - ey) <= 100 * Zpos my + 128.
Proof.
  intros Hmy Hey.
  change (F32.of_Z 100) with (S754_finite false 13107200 (-17)).
  unfold SFmul. cbn [xorb].
  set (P := Zpos (my * 13107200)).
  assert (P = 100 * Zpos my * 2 ^ 17) as HP by (unfold P; rewrite Pos2Z.inj_mul; lia).
  set (Pp := 2 ^ (prec - 1)) in *.
  assert (0 < Pp) as HPp by (apply pow2_pos; lia).
  assert (2 ^ prec = 2 * Pp) as HP2.
  { unfold Pp. replace prec with (1 + (prec - 1)) at 1 by lia. now rewrite pow2_split by lia. }
  assert (2 ^ (prec + 23 - 1) = 8388608 * Pp) as H22.
  { unfold Pp. replace (prec + 23 - 1) with (23 + (prec - 1)) by lia.
    now rewrite pow2_split by lia. }
  assert (2 ^ (prec + 24) = 33554432 * Pp) as H24.
  { unfold Pp. replace (prec + 24) with (25 + (prec - 1)) by lia.
    now rewrite pow2_split by lia. }
  assert (prec + 23 <= Zdigits2 P <= prec + 24) as HdP.
  { split.
    - apply Zdigits2_ge; [lia|]. rewrite H22, HP. change (2 ^ 17) with 131072. lia.
    - apply Zdigits2_le; [unfold P; lia|]. rewrite H24, HP. change (2 ^ 17) with 131072. lia. }
  destruct (binary_round_aux_normal prec emax prec_pos false P (ey + -17) loc_Exact)
    as [mz [j [E [Hj [HMb Hmz]]]]];
    try (unfold emin, P in *; lia).
  exists mz, (ey + -17 + (Zdigits2 P - prec) + j).
  split; [exact E|]. split; [lia|].
  set (u := Zdigits2 P - prec - 17) in *.
  assert (6 <= u <= 7) as Hu by (unfold u; lia).
  replace (Zdigits2 P - prec) with (u + 17) in HMb by (unfold u; lia).
  replace (ey + -17 + (Zdigits2 P - prec) + j - ey) with (j + u) by (unfold u; lia).
  rewrite pow2_split by lia.
  rewrite HP, pow2_split in HMb by lia.
  rewrite Z.div_mul_cancel_r in HMb by (try apply Z.neq_sym, Z.lt_neq, pow2_pos; lia).
  set (U := 2 ^ u) in *. set (J := 2 ^ j) in *.
  assert (U = 64 \/ U = 128) as HU.
  { unfold U. assert (u = 6 \/ u = 7) as [->| ->] by lia; auto. }
  set (R := Zpos mz * J) in *.
  replace (Zpos mz * (J * U)) with (R * U) by (unfold R; ring).
  assert (U * (100 * Zpos my / U) <= 100 * Zpos my < U * (100 * Zpos my / U) + U) as [Dlo Dhi].
  { pose proof (Z.div_mod (100 * Zpos my) U). pose proof (Z.mod_pos_bound (100 * Zpos my) U). lia. }
  clear - HMb Dlo Dhi HU. nia.
Qed.

(** The percentage of [k] RPM out of [M]. *)
Lemma percent_of_whole (k M : Z) :
  0 < k < 2 ^ 14 -> 0 < M < 2 ^ 24 ->
  exists p,
    0 <= p /\ p * M <= 100 * k <= (p + 1) * M
    /\ float_to_int
         (SFmul prec emax
            (SFdiv prec emax (F32.of_Z k) (binary_normalize prec emax M 0 false))
            (F32.of_Z 100)) = p.
Proof.
  intros Hk HM.
  assert (0 < k < 2 ^ 24) as Hk24
    by (change (2 ^ 14) with 16384 in Hk; change (2 ^ 24) with 16777216; lia).
  destruct (div_whole k M Hk24 HM) as [my [ey [Ediv [Hmy [Hey Hdiv]]]]].
  set (dk := Zdigits2 k) in *. set (dM := Zdigits2 M) in *.
  assert (1 <= dk <= 14) as Hdk.
  { split; [pose proof (Zdigits2_pos k); lia|apply Zdigits2_le; lia]. }
  assert (1 <= dM <= 24) as HdM.
  { split; [pose proof (Zdigits2_pos M); lia|apply Zdigits2_le; lia]. }
  pose proof (Zdigits2_bounds M (proj1 HM)) as [_ Mhi]. fold dM in Mhi.
  set (E1 := prec + dM - dk) in *.
  assert (10 + dM <= E1) as HE1 by (unfold E1; lia).
  destruct (mul_100 my ey Hmy) as [mz [ez [Emul [Hez Hmul]]]]; [unfold E1 in *; lia|].
  rewrite Ediv, Emul.
  set (a := 2 ^ E1) in *.
  assert (0 < a) as Ha by (apply pow2_pos; lia).
  (* the step of the quotient is far larger than the two roundings *)
  assert (1024 * M < a) as Hstep.
  { assert (2 ^ (10 + dM) <= a) as Hle by (apply Z.pow_le_mono_r; lia).
    rewrite pow2_split in Hle by lia. change (2 ^ 10) with 1024 in Hle. lia. }
  set (G := 2 ^ (ey + E1)) in *.
  assert (G = 1 \/ G = 2 \/ G = 4) as HG.
  { unfold G. assert (ey + E1 = 0 \/ ey + E1 = 1 \/ ey + E1 = 2) as [->|[->| ->]] by lia; auto. }
  set (R1 := Zpos my * G) in *.
  set (R2 := Zpos mz * 2 ^ (ez - ey)) in *.
  set (Zs := Zpos mz * 2 ^ (ez + E1)).
  assert (Zs = R2 * G) as HZs.
  { unfold Zs, R2, G. rewrite <- Z.mul_assoc, <- pow2_split by lia. do 2 f_equal. lia. }
  assert (100 * k * a - 712 * M < M * Zs <= 100 * k * a + 712 * M) as [Zlo Zhi].
  { rewrite HZs.
    assert (100 * R1 - 128 * G < R2 * G <= 100 * R1 + 128 * G) as [A1 A2]
      by (unfold R1; clear - Hmul HG; nia).
    assert (0 < M) as HM0 by lia.
    assert (M * (100 * R1 - 128 * G) < M * (R2 * G)) as B1
      by (apply Z.mul_lt_mono_pos_l; lia).
    assert (M * (R2 * G) <= M * (100 * R1 + 128 * G)) as B2
      by (apply Z.mul_le_mono_nonneg_l; lia).
    assert (M * G <= 4 * M) as HMG by (clear - HG HM0; nia).
    clear - B1 B2 Hdiv HMG HM0. lia. }
  (* the integer part *)
  assert (exists p, 0 <= p /\ p * a <= Zs < (p + 1) * a
                    /\ truncate (S754_finite false mz ez) = Some p) as [p [Hp0 [[Plo Phi] Ht]]].
  { unfold Zs. destruct ez as [|pe|pe].
    - exists (Zpos mz). split; [lia|]. split; [|reflexivity].
      rewrite Z.add_0_l. fold a. lia.
    - exists (Zpos mz * 2 ^ Zpos pe). split; [pose proof (pow2_pos (Zpos pe)); lia|].
      split; [|reflexivity].
      rewrite pow2_split by lia. fold a.
      pose proof (pow2_pos (Zpos pe)). nia.
    - exists (Zpos mz / 2 ^ Zpos pe).
      set (r := 2 ^ Zpos pe). assert (0 < r) as Hr by (apply pow2_pos; lia).
      split; [apply Z.div_pos; lia|]. split; [|reflexivity].
      set (h := 2 ^ (Zneg pe + E1)). assert (0 < h) as Hh by (apply pow2_pos; lia).
      assert (a = r * h) as Hah.
      { unfold a, r, h. rewrite <- pow2_split by lia. f_equal. lia. }
      pose proof (Z.div_mod (Zpos mz) r) as Hdm.
      pose proof (Z.mod_pos_bound (Zpos mz) r Hr) as Hmod.
      set (pp := Zpos mz / r) in *.
      assert (r * pp <= Zpos mz < r * pp + r) as [D1 D2] by lia.
      rewrite Hah.
      pose proof (Z.mul_le_mono_nonneg_r _ _ h (Z.lt_le_incl _ _ Hh) D1) as F1.
      pose proof (proj1 (Z.mul_lt_mono_pos_r h _ _ Hh) D2) as F2.
      clear - F1 F2. lia. }
  exists p. split; [exact Hp0|].
  assert (p * M <= 100 * k <= (p + 1) * M) as Hbracket.
  { assert (0 < M) as HM0 by lia.
    pose proof (Z.mul_le_mono_nonneg_l _ _ M (Z.lt_le_incl _ _ HM0) Plo) as G1.
    pose proof (proj1 (Z.mul_lt_mono_pos_l M _ _ HM0) Phi) as G2.
    split.
    - assert ((p * M - 100 * k) * a < 1 * a) as L by (clear - G1 Zhi Hstep; lia).
      apply Z.mul_lt_mono_pos_r in L; lia.
    - assert ((-1) * a < ((p + 1) * M - 100 * k) * a) as L by (clear - G2 Zlo Hstep; lia).
      apply Z.mul_lt_mono_pos_r in L; lia. }
  split; [exact Hbracket|].
  unfold float_to_int. rewrite Ht.
  assert (p <= 100 * k) as Hple by (clear - Hbracket Hp0 HM; nia).
  replace ((INT_MIN <=? p) && (p <=? INT_MAX)) with true; [reflexivity|].
  symmetry. apply andb_true_iff. rewrite !Z.leb_le. unfold INT_MIN, INT_MAX.
  change (2 ^ 14) with 16384 in Hk. lia.
Qed.


End Evaluation.

(** The percentage of [k] RPM out of [M], by every evaluation method. *)
Lemma fan_percent (m : FloatEval) (k M : Z) :
  0 < k < 2 ^ 14 -> 0 < M < 2 ^ 24 ->
  exists p,
    0 <= p /\ p * M <= 100 * k <= (p + 1) * M
    /\ float_to_int (Eval.mul m (Eval.div m (F32.of_Z k) (Eval.of_Z m M)) (F32.of_Z 100)) = p.
Proof.
  intros Hk HM. unfold Eval.mul, Eval.div, Eval.of_Z.
  apply percent_of_whole; try assumption.
  - apply eval_prec_bounds.
  - apply eval_emax_bounds.
Qed.





(** X28: the CPU fan percentage of a fan that reports a whole number of
    RPM.  With the fan sensor found and reading [k] RPM,
    [0 < k < 2 ^ 14], and a configured maximum [M], [0 < M < 2 ^ 24],
    "Fan" shows a whole number [p] with [p * M <= 100 * k <= (p + 1) * M]:
    the quotient [100 * k / M] rounded down, or one less when that quotient
    is itself whole.  In particular a fan at or below its maximum is never
    shown above 100, and the two roundings never cost more than that one
    step, in binary32 or in any wider format the build evaluates in. *)
Theorem X28_fan_percentage_of_whole_rpm
  (cfg : Config) (v : Vendor) (w w' : World) (hs : list IHardware)
  (sensor : ISensor) (flag : string) (k : Z) :
  seen_hardware v w = (Ret hs, w') ->
  fan_in_hardware v (CPU_FAN cfg) 0 hs = inl sensor ->
  Value sensor = Some (F32.of_Z k) ->
  0 < k < 2 ^ 14 ->
  0 < CPU_SPEED cfg < 2 ^ 24 ->
  exists p,
    0 <= p /\ p * CPU_SPEED cfg <= 100 * k <= (p + 1) * CPU_SPEED cfg
    /\ function1 cfg v "Fan" flag w
       = (Ret (decimal p ++ (if streq flag "1" then "%" else ""))%string, w').
Proof.
  intros Hseen Hfan Hvalue Hk HM.
  destruct (fan_percent (FLT_EVAL_METHOD v) k (CPU_SPEED cfg) Hk HM)
    as [p [Hp0 [Hbracket Hp]]].
  exists p. split; [exact Hp0|]. split; [exact Hbracket|].
  assert (p <= 100 * k) as Hple by (clear - Hbracket Hp0 HM; nia).
  assert (uint p = p) as Hu.
  { apply uint_small. change (2 ^ 14) with 16384 in Hk. lia. }
  destruct (F32_of_Z_small k) as [m [Hfin _]].
  { change (2 ^ 14) with 16384 in Hk. change (2 ^ 24) with 16777216. lia. }
  unfold function1. pick "Fan". unfold bind at 1. unfold GetCpuFanSpeed.
  rewrite (bind_seen _ _ _ _ _ Hseen), Hfan, Hvalue. cbn [GetValueOrDefault].
  replace (feq (F32.of_Z k) F32.zero) with false by (rewrite Hfin; reflexivity).
  cbv zeta. rewrite Hp. unfold ret at 1.
  replace (p <? 0) with false by (symmetry; apply Z.ltb_ge; exact Hp0).
  unfold ret. destruct (streq flag "1").
  - now rewrite reply_percent, Hu.
  - now rewrite reply_plain, Hu, append_empty_r.
Qed.

Lemma X28_fan_percentage_of_whole_rpm_witness :
  exists p,
    0 <= p /\ p * 1800 <= 100 * 1200 <= (p + 1) * 1800
    /\ function1 source_config Bench.healthy "Fan" "1" initial_world
       = (Ret (decimal p ++ "%")%string, snd (seen_hardware Bench.healthy initial_world)).
Proof.
  refine (X28_fan_percentage_of_whole_rpm source_config Bench.healthy initial_world _ _ _
            "1" 1200 eq_refl eq_refl eq_refl _ _); simpl; lia.
Defined.

(* ================================================================= *)
(** ** The memory in use, in gigabytes

    [(float)memInfo.used / (1024 * 1024 * 1024)] rounds the byte count to
    24 bits, divides by a power of two and prints one decimal. *)

(** The conversion of a byte count below one terabyte: within [2 ^ 16]
    bytes of it. *)
Lemma F32_of_Z_near (u : Z) :
  0 < u < 2 ^ 40 ->
  exists m e,
    F32.of_Z u = S754_finite false m e
    /\ 2 ^ 23 <= Zpos m < 2 ^ 24
    /\ -23 <= e <= 17
    /\ u * 2 ^ 23 - 2 ^ 39 <= Zpos m * 2 ^ (e + 23) <= u * 2 ^ 23 + 2 ^ 39.
Proof.
  intros Hu.
  set (d := Zdigits2 u).
  assert (1 <= d <= 40) as Hd.
  { split; [pose proof (Zdigits2_pos u); lia|apply Zdigits2_le; lia]. }
  pose proof (Zdigits2_bounds u (proj1 Hu)) as [Ulo Uhi]. fold d in Ulo, Uhi.
  destruct (Z.le_gt_cases d 24) as [Small|Large].
  - destruct (F32_of_Z_small u) as [m [E Hm]].
    { split; [lia|]. eapply Z.lt_le_trans; [exact Uhi|]. apply Z.pow_le_mono_r; lia. }
    fold d in E, Hm. exists m, (d - 24). split; [exact E|].
    assert (0 < 2 ^ (24 - d)) as Hp by (apply pow2_pos; lia).
    assert (2 ^ (d - 1) * 2 ^ (24 - d) = 2 ^ 23) as E1
      by (rewrite <- pow2_split by lia; f_equal; lia).
    assert (2 ^ d * 2 ^ (24 - d) = 2 ^ 24) as E2
      by (rewrite <- pow2_split by lia; f_equal; lia).
    split.
    { rewrite Hm, <- E1, <- E2. split.
      - apply Z.mul_le_mono_nonneg_r; lia.
      - apply Z.mul_lt_mono_pos_r; lia. }
    split; [lia|].
    rewrite Hm, <- Z.mul_assoc, <- pow2_split by lia.
    replace (24 - d + (d - 24 + 23)) with 23 by lia.
    change (2 ^ 39) with 549755813888. lia.
  - destruct u as [|pu|pu]; try lia.
    unfold F32.of_Z, binary_normalize.
    destruct (binary_round_large F32.prec F32.emax eq_refl false pu 0)
      as [m [j [E [Hj [HMb Hm]]]]];
      try (fold d; unfold emin, F32.prec, F32.emax in *; lia).
    fold d in E, HMb. unfold F32.prec in *.
    exists m, (0 + (d - 24) + j). split; [exact E|]. split; [exact Hm|].
    split; [lia|].
    set (t := d - 24) in *.
    replace (0 + t + j + 23) with (j + (t + 23)) by lia.
    rewrite !pow2_split by lia.
    set (T := 2 ^ t) in *. set (J := 2 ^ j) in *.
    assert (0 < T) as HT by (apply pow2_pos; lia).
    assert (T <= 2 ^ 16) as HT16 by (apply Z.pow_le_mono_r; lia).
    set (R := Zpos m * J) in *.
    replace (Zpos m * (J * (T * 2 ^ 23))) with (R * T * 2 ^ 23) by (unfold R; ring).
    pose proof (Z.div_mod (Zpos pu) T) as Hdm.
    pose proof (Z.mod_pos_bound (Zpos pu) T HT) as Hmod.
    set (q := Zpos pu / T) in *.
    assert (Zpos pu - T < R * T <= Zpos pu + T) as [Rlo Rhi] by (clear - HMb Hdm Hmod HT; nia).
    change (2 ^ 16) with 65536 in HT16.
    change (2 ^ 23) with 8388608. change (2 ^ 39) with 549755813888.
    clear - Rlo Rhi HT16 HT. lia.
Qed.

(** The byte count in gigabytes: on the scale [2 ^ -53], within
    [2 ^ 41] of the exact quotient. *)
Lemma F32_div_gigabyte (u : Z) :
  0 < u < 2 ^ 40 ->
  exists m e,
    F32.div (F32.of_Z u) (F32.of_Z (1024 * 1024 * 1024)) = S754_finite false m e
    /\ -53 <= e <= -12
    /\ u * 2 ^ 23 - 2 ^ 39 <= Zpos m * 2 ^ (e + 53) <= u * 2 ^ 23 + 2 ^ 39 + 2 ^ 40.
Proof.
  intros Hu.
  destruct (F32_of_Z_near u Hu) as [m1 [e1 [E [Hm1 [He1 Hnear]]]]].
  assert (Zdigits2 (Zpos m1) = 24) as Hd1 by (apply Zdigits2_unique; lia).
  rewrite E.
  change (F32.of_Z (1024 * 1024 * 1024)) with (S754_finite false 8388608 7).
  unfold F32.div, SFdiv. rewrite SFdiv_core_binary_spec. rewrite Hd1.
  change (Zdigits2 8388608) with 24.
  replace (Z.min (fexp F32.prec F32.emax (24 + e1 - (24 + 7))) (e1 - 7))
    with (e1 - 31) by (unfold fexp, emin, F32.prec, F32.emax; lia).
  replace (e1 - 7 - (e1 - 31)) with 24 by lia.
  change (2 ^ 24) with (2 * 8388608).
  replace (Zpos m1 * (2 * 8388608)) with ((2 * Zpos m1) * 8388608) by ring.
  rewrite Z.div_mul by lia.
  change (2 ^ 23) with 8388608 in Hm1. change (2 ^ 24) with 16777216 in Hm1.
  assert (Zdigits2 (2 * Zpos m1) = 25) as Hdq.
  { apply Zdigits2_unique; [|lia].
    change (2 ^ (25 - 1)) with 16777216. change (2 ^ 25) with 33554432. lia. }
  match goal with
  | |- context [binary_round_aux _ _ _ _ _ ?l] =>
      destruct (binary_round_aux_normal F32.prec F32.emax eq_refl false
                  (2 * Zpos m1) (e1 - 31) l)
        as [my [j [Eq [Hj [HMb Hmy]]]]]
  end; try (rewrite ?Hdq; unfold emin, F32.prec, F32.emax in *; lia).
  rewrite Hdq in Eq, HMb. unfold F32.prec in *.
  exists my, (e1 - 31 + (25 - 24) + j). split; [exact Eq|]. split; [lia|].
  replace (e1 - 31 + (25 - 24) + j + 53) with (j + (e1 + 23)) by lia.
  rewrite pow2_split by lia.
  change (2 ^ (25 - 24)) with 2 in HMb.
  replace (2 * Zpos m1 / 2) with (Zpos m1) in HMb
    by (rewrite Z.mul_comm, Z.div_mul; lia).
  set (S1 := 2 ^ (e1 + 23)) in *.
  assert (0 < S1) as HS by (apply pow2_pos; lia).
  assert (S1 <= 2 ^ 40) as HS40 by (apply Z.pow_le_mono_r; lia).
  set (R := Zpos my * 2 ^ j) in *.
  replace (Zpos my * (2 ^ j * S1)) with (R * S1) by (unfold R; ring).
  destruct HMb as [Rlo Rhi].
  pose proof (Z.mul_le_mono_nonneg_r _ _ S1 (Z.lt_le_incl _ _ HS) Rlo) as H1.
  pose proof (Z.mul_le_mono_nonneg_r _ _ S1 (Z.lt_le_incl _ _ HS) Rhi) as H2.
  clear - H1 H2 Hnear HS40. lia.
Qed.

(** What the display shows of [u] bytes: the tenths [n] of a gigabyte. *)
Lemma memory_text (u : Z) :
  0 <= u < 2 ^ 40 ->
  exists n,
    0 <= n
    /\ - (2 ^ 29 + 2 ^ 21) <= n * 2 ^ 30 - 10 * u <= 2 ^ 29 + 2 ^ 21
    /\ fixed 1 (F32.div (F32.of_Z u) (F32.of_Z (1024 * 1024 * 1024)))
       = (decimal (n / 10) ++ "." ++ pad_left 1 (decimal (n mod 10)))%string.
Proof.
  intros Hu. destruct (Z.eq_dec u 0) as [->|Hpos].
  - exists 0. split; [lia|]. split; [simpl; lia|]. reflexivity.
  - destruct (F32_div_gigabyte u) as [m [e [E [He [Blo Bhi]]]]]; [lia|].
    rewrite E. destruct e as [|p|p]; try lia.
    cbn [fixed sign_text]. change (10 ^ Z.of_nat 1) with 10.
    set (R := 2 ^ Zpos p). set (n := round_half_even (Zpos m * 10) R).
    exists n.
    assert (0 < R) as HR by (apply pow2_pos; lia).
    pose proof (round_half_even_nearest (Zpos m * 10) R HR) as [Nhi Nlo].
    pose proof (round_half_even_bounds (Zpos m * 10) R) as [Nge _].
    fold n in Nhi, Nlo, Nge.
    assert (0 <= Zpos m * 10 / R) by (apply Z.div_pos; lia).
    set (G := 2 ^ (Zneg p + 53)) in *.
    assert (0 < G) as HG by (apply pow2_pos; lia).
    assert (R * G = 2 ^ 53) as HRG.
    { unfold R, G. rewrite <- pow2_split by lia. f_equal. lia. }
    set (V := Zpos m * G) in *.
    pose proof (Z.mul_le_mono_nonneg_r _ _ G (Z.lt_le_incl _ _ HG) Nhi) as H1.
    pose proof (Z.mul_le_mono_nonneg_r _ _ G (Z.lt_le_incl _ _ HG) Nlo) as H2.
    replace (2 * (n * R - Zpos m * 10) * G) with (2 * (n * (R * G) - 10 * V)) in H1
      by (unfold V; ring).
    replace (2 * (Zpos m * 10 - n * R) * G) with (2 * (10 * V - n * (R * G))) in H2
      by (unfold V; ring).
    rewrite HRG in H1, H2.
    change (2 ^ 53) with (2 ^ 30 * 8388608) in *.
    change (2 ^ 23) with 8388608 in *.
    change (2 ^ 39) with (65536 * 8388608) in *.
    change (2 ^ 40) with (131072 * 8388608) in *.
    change (2 ^ 29) with 536870912. change (2 ^ 21) with 2097152.
    change (2 ^ 30) with 1073741824 in *.
    split; [lia|]. split; [clear - H1 H2 Blo Bhi; lia|]. reflexivity.
Qed.

(** X29: the GPU memory in use is shown in tenths of a gigabyte
    ([2 ^ 30] bytes).  For [used] bytes, [0 <= used < 2 ^ 40], "Mem_Alloc"
    shows a whole number of tenths [n] as its integer part, a point and
    one digit, followed by "Gb" when units are asked for, where [n] is
    nearest to [10 * used / 2 ^ 30] up to the 24 bits of a binary32:
    [n * 2 ^ 30] is within [2 ^ 29 + 2 ^ 21] of [10 * used].  A whole
    number [g] of gigabytes is therefore shown as [g].0. *)
Theorem X29_memory_in_tenths_of_gigabytes
  (v : Vendor) (w : World) (flag : string) (device : nvmlDevice_t)
  (memInfo : nvmlMemory_t) :
  nvmlInitialized w = true ->
  nvmlDeviceGetHandleByIndex v 0 = (NVML_SUCCESS, device) ->
  nvmlDeviceGetMemoryInfo v device = (NVML_SUCCESS, memInfo) ->
  0 <= used memInfo < 2 ^ 40 ->
  exists n,
    0 <= n
    /\ - (2 ^ 29 + 2 ^ 21) <= n * 2 ^ 30 - 10 * used memInfo <= 2 ^ 29 + 2 ^ 21
    /\ (forall g, used memInfo = g * 2 ^ 30 -> n = 10 * g)
    /\ function2 v "Mem_Alloc" flag w
       = (Ret (decimal (n / 10) ++ "." ++ pad_left 1 (decimal (n mod 10))
               ++ (if streq flag "1" then "Gb" else ""))%string, w).
Proof.
  intros Hinit Hdev Hq Hused.
  destruct (memory_text (used memInfo) Hused) as [n [Hn [Hnear Htext]]].
  exists n. split; [exact Hn|]. split; [exact Hnear|].
  split.
  { intros g Hg. rewrite Hg in Hnear.
    change (2 ^ 29) with 536870912 in Hnear. change (2 ^ 21) with 2097152 in Hnear.
    change (2 ^ 30) with 1073741824 in Hnear. lia. }
  assert (representable F32.prec F32.emax
            (F32.div (F32.of_Z (used memInfo)) (F32.of_Z (1024 * 1024 * 1024)))) as Hrep
    by (apply F32_div_representable; unfold INT_MAX; lia).
  assert (ullong (used memInfo) = used memInfo) as Hu.
  { apply ullong_small. split; [lia|].
    eapply Z.lt_trans; [exact (proj2 Hused)|reflexivity]. }
  gpu_gate Hinit Hdev. pick "Mem_Alloc". rewrite Hq, Hu. cbn [negb Z.eqb NVML_SUCCESS].
  destruct (streq flag "1").
  - rewrite (reply_fixed 1 "1" _ "Gb") by (auto; simpl; lia).
    rewrite Htext. now rewrite !append_assoc.
  - rewrite (reply_fixed 1 "1" _ "") by (auto; simpl; lia).
    rewrite Htext. now rewrite !append_assoc.
Qed.

Lemma X29_memory_in_tenths_of_gigabytes_witness :
  exists n,
    0 <= n
    /\ - (2 ^ 29 + 2 ^ 21) <= n * 2 ^ 30 - 10 * 2147483648 <= 2 ^ 29 + 2 ^ 21
    /\ (forall g, 2147483648 = g * 2 ^ 30 -> n = 10 * g)
    /\ function2 Bench.healthy "Mem_Alloc" "1" (Bench.started Bench.healthy)
       = (Ret (decimal (n / 10) ++ "." ++ pad_left 1 (decimal (n mod 10)) ++ "Gb")%string,
          Bench.started Bench.healthy).
Proof.
  refine (X29_memory_in_tenths_of_gigabytes Bench.healthy (Bench.started Bench.healthy)
            "1" 1 (mkMemory 8589934592 (8589934592 - 2147483648) 2147483648)
            eq_refl eq_refl eq_refl _).
  simpl. lia.
Defined.
